(** * morss/crawler.py: the HTTP fetch-and-cache core

    A shallow embedding of the parts of [morss/crawler.py] that decide the
    properties stated about it: the size-limit default, the encoding
    detector, the URL sanitiser, the cache handler, and the opener that
    [custom_handler] builds, through which the 304 replay runs.

    Conventions.
    - Header text and charset labels are [string]s of 8-bit characters
      (http.client decodes header bytes as ISO-8859-1); a URL handed to
      the sanitiser is a list of code points, since it may hold any
      character.
    - A Python [bytes] value is a [list byte].
    - A call that can raise returns a [result]; [Raise e] names the Python
      exception.
    - [time.time()] is an explicit argument of the hooks that read the
      clock, in whole seconds.
    - Functions of the Python 3 standard library that the source calls
      are embedded next to their callers, following CPython 3.11
      ([urllib.request], [urllib.parse], [email.message], [re] on the
      patterns of the source). Those that rest on data or on modules of
      their own are Section variables: [int], [cgi.parse_header],
      [chardet.detect], [unicodedata.normalize], the idna codec, the
      bracketed-host check of [urlsplit], the parser and the generator
      of the [email] package, [zlib], the transfer itself, the cookie
      jar and the redirect handler. *)

From stdpp Require Import gmap strings list.
From Stdlib Require Import ZArith NArith Ascii String.
From Stdlib.Strings Require Import Byte.

Local Open Scope string_scope.

(** ** Exceptions *)

Inductive exn : Type :=
  | IndexError
  | ValueError
  | TypeError
  | UnicodeDecodeError
  | UnicodeEncodeError
  | UnicodeError
  | LookupError
  | HeaderWriteError
  | URLError
  | HTTPError (code : Z)
  | RecursionError.

Inductive result (A : Type) : Type :=
  | Ok (a : A)
  | Raise (e : exn).

Arguments Ok {A} a.
Arguments Raise {A} e.

Definition rbind {A B : Type} (r : result A) (k : A -> result B) : result B :=
  match r with
  | Ok a => k a
  | Raise e => Raise e
  end.

#[global] Instance result_ret : MRet result := fun A a => Ok a.
#[global] Instance result_bind : MBind result := fun A B k r => rbind r k.

(** ** Text primitives of [str] *)

Module Text.

Definition chr (n : N) : ascii := ascii_of_N n.
Definition ord (c : ascii) : N := N_of_ascii c.

Definition in_range (lo hi n : N) : bool := ((lo <=? n) && (n <=? hi))%N.

(** The double-quote and single-quote characters. *)
Definition dquote : ascii := chr 34.
Definition squote : ascii := chr 39.

(** [str.isspace] on the 8-bit characters. *)
Definition py_isspace (c : ascii) : bool :=
  let n := ord c in
  in_range 9 13 n || in_range 28 32 n || (n =? 133)%N || (n =? 160)%N.

(** [str.lower] on one 8-bit character: the ASCII capitals and the
    Latin-1 capitals (U+00C0..U+00DE without the multiplication sign). *)
Definition lower_char (c : ascii) : ascii :=
  let n := ord c in
  if in_range 65 90 n || (in_range 192 222 n && negb (n =? 215)%N)
  then chr (n + 32) else c.

(** ASCII upper-casing, used for header keys only. *)
Definition upper_ascii_char (c : ascii) : ascii :=
  let n := ord c in
  if in_range 97 122 n then chr (n - 32) else c.

Fixpoint smap (f : ascii -> ascii) (s : string) : string :=
  match s with
  | EmptyString => EmptyString
  | String c s' => String (f c) (smap f s')
  end.

Definition lower (s : string) : string := smap lower_char s.

(** [str.capitalize] on an ASCII header key. *)
Definition capitalize (s : string) : string :=
  match s with
  | EmptyString => EmptyString
  | String c s' => String (upper_ascii_char c) (lower s')
  end.

Fixpoint lstrip (s : string) : string :=
  match s with
  | EmptyString => EmptyString
  | String c s' => if py_isspace c then lstrip s' else s
  end.

Fixpoint srev_append (s acc : string) : string :=
  match s with
  | EmptyString => acc
  | String c s' => srev_append s' (String c acc)
  end.

Definition srev (s : string) : string := srev_append s EmptyString.

(** [str.strip()] *)
Definition strip (s : string) : string := srev (lstrip (srev (lstrip s))).

(** [c in s] *)
Fixpoint has_char (c : ascii) (s : string) : bool :=
  match s with
  | EmptyString => false
  | String d s' => if Ascii.eqb c d then true else has_char c s'
  end.

(** [s.split(c, 1)] when [c in s]: the text before the first [c] and
    the text after it. *)
Fixpoint split1 (c : ascii) (s : string) : string * string :=
  match s with
  | EmptyString => (EmptyString, EmptyString)
  | String d s' =>
      if Ascii.eqb c d then (EmptyString, s')
      else let '(a, b) := split1 c s' in (String d a, b)
  end.

Fixpoint last_char (s : string) : option ascii :=
  match s with
  | EmptyString => None
  | String c EmptyString => Some c
  | String _ s' => last_char s'
  end.

(** [s[:-1]] *)
Fixpoint drop_last (s : string) : string :=
  match s with
  | EmptyString => EmptyString
  | String c EmptyString => EmptyString
  | String c s' => String c (drop_last s')
  end.

Definition snoc (s : string) (c : ascii) : string := s ++ String c EmptyString.

End Text.

(** ** [urllib.request.parse_http_list] and [parse_keqv_list] *)

Module HttpList.
Import Text.

(** The loop of [parse_http_list]: [res] and [part] are the source's
    variables, [escape] and [quote] its two flags. *)
Fixpoint scan (s : string) (res : list string) (part : string)
         (escape quote : bool) : list string :=
  match s with
  | EmptyString =>
      match part with
      | EmptyString => res
      | _ => (res ++ [part])%list
      end
  | String cur s' =>
      if escape then scan s' res (snoc part cur) false quote
      else if quote then
        if Ascii.eqb cur "\" then scan s' res part true quote
        else if Ascii.eqb cur dquote then scan s' res (snoc part cur) false false
        else scan s' res (snoc part cur) false quote
      else if Ascii.eqb cur "," then scan s' (res ++ [part])%list EmptyString false false
      else if Ascii.eqb cur dquote then scan s' res (snoc part cur) false true
      else scan s' res (snoc part cur) false false
  end.

Definition parse_http_list (s : string) : list string :=
  map strip (scan s [] EmptyString false false).

(** [headers.get(name, ())] followed by [parse_http_list]: the default
    [()] yields no element. *)
Definition parse_http_list_opt (o : option string) : list string :=
  match o with
  | Some s => parse_http_list s
  | None => []
  end.

(** One round of the loop of [parse_keqv_list]; [v[0]] raises
    [IndexError] on an empty value. *)
Definition keqv_item (elt : string) : result (string * string) :=
  let '(k, v) := split1 "=" elt in
  match v with
  | EmptyString => Raise IndexError
  | String c0 rest =>
      if Ascii.eqb c0 dquote && bool_decide (last_char v = Some dquote)
      then Ok (k, drop_last rest)
      else Ok (k, v)
  end.

Fixpoint parse_keqv_loop (l : list string) (parsed : gmap string string)
  : result (gmap string string) :=
  match l with
  | [] => Ok parsed
  | elt :: l' =>
      kv ← keqv_item elt;
      parse_keqv_loop l' (<[kv.1 := kv.2]> parsed)
  end.

Definition parse_keqv_list (l : list string) : result (gmap string string) :=
  parse_keqv_loop l ∅.

End HttpList.

(** ** The cache handler *)

Module Cache.
Import Text HttpList.

(** *** Headers, requests, responses, records *)

(** [email.message.Message]: the list [_headers] of (name, value)
    pairs, in order, duplicates kept. The payload of the message is
    left out: the block of headers of an HTTP answer gives none, unless
    it holds a line that is no header. *)
Definition Message : Type := list (string * string).

(** [Message.get(name)]: the value of the first header whose name
    matches, letter case ignored. *)
Fixpoint msg_get (name : string) (hs : Message) : option string :=
  match hs with
  | [] => None
  | (k, v) :: hs' =>
      if String.eqb (lower k) (lower name) then Some v else msg_get name hs'
  end.

(** [name in message] *)
Definition msg_contains (name : string) (hs : Message) : bool :=
  existsb (fun kv => String.eqb (lower kv.1) (lower name)) hs.

(** [message[name] = val] appends: it does not overwrite an existing
    header of that name. *)
Definition msg_set (name val : string) (hs : Message) : Message :=
  (hs ++ [(name, val)])%list.

(** [urllib.request.Request]: the URL and the two header dicts. *)
Record Request : Type := mkRequest {
  req_url : string;
  req_headers : gmap string string;
  req_unredirected : gmap string string
}.

Definition get_full_url (req : Request) : string := req_url req.

(** [Request.get_header]: the redirectable headers are looked up first. *)
Definition get_header (req : Request) (name : string) : option string :=
  match req_headers req !! name with
  | Some v => Some v
  | None => req_unredirected req !! name
  end.

Definition add_unredirected_header (key val : string) (req : Request) : Request :=
  {| req_url := req_url req;
     req_headers := req_headers req;
     req_unredirected := <[capitalize key := val]> (req_unredirected req) |}.

(** [Request(url, headers=hs)]: every entry of [hs] is stored through
    [add_header], which capitalises its key; the keys of a request's own
    [headers] dict were stored that way already. *)
Definition new_request (url : string) (hs : gmap string string) : Request :=
  {| req_url := url; req_headers := hs; req_unredirected := ∅ |}.

(** [addinfourl(fp, headers, url, code)] with its [msg]: the body is the
    content of [fp] still to be read. [code] and [msg] are [None] in the
    response built from an absent record. *)
Record Response : Type := mkResponse {
  resp_code : option Z;
  resp_msg : option string;
  resp_headers : Message;
  resp_body : list byte;
  resp_url : string
}.

(** The tuple kept per URL: (code, msg, headers, data, timestamp). The
    headers are kept as the text [unicode(headers)]. *)
Record CacheRecord : Type := mkRecord {
  rec_code : option Z;
  rec_msg : option string;
  rec_headers : string;
  rec_data : list byte;
  rec_timestamp : Z
}.

(** What [load] returns: the tuple, with the headers parsed back into a
    message. *)
Record Loaded : Type := mkLoaded {
  ld_code : option Z;
  ld_msg : option string;
  ld_headers : Message;
  ld_data : list byte;
  ld_timestamp : Z
}.

(** [self.force_min] and the class attribute [private_cache]. *)
Record CacheHandler : Type := mkHandler {
  force_min : option Z;
  private_cache : bool
}.

(** The handler's [self.cache]: a dict from URL to record. *)
Abbreviation Store := (gmap string CacheRecord).

(** Truth value of a status code, as in [if cache[0]:]. *)
Definition truthy (code : option Z) : bool :=
  match code with
  | Some c => negb (c =? 0)%Z
  | None => false
  end.

Definition is_code (n : Z) (code : option Z) : bool :=
  bool_decide (code = Some n).

(** [200 <= resp.code < 300]; comparing [None] with a number raises. *)
Definition is_2xx (code : option Z) : result bool :=
  match code with
  | Some c => Ok ((200 <=? c)%Z && (c <? 300)%Z)
  | None => Raise TypeError
  end.

(** The directives of [Cache-Control] and [Pragma], in that order. *)
Definition cache_control_of (headers : Message) : list string :=
  (parse_http_list_opt (msg_get "cache-control" headers)
   ++ parse_http_list_opt (msg_get "pragma" headers))%list.

Definition cc_list_of (cache_control : list string) : list string :=
  List.filter (fun x => negb (has_char "=" x)) cache_control.

Definition cc_items_of (cache_control : list string) : list string :=
  List.filter (fun x => has_char "=" x) cache_control.

(** The test shared by [http_open] and [http_response]. *)
Definition forbids_caching (self : CacheHandler) (cc_list : list string) : bool :=
  bool_decide ("no-cache" ∈ cc_list)
  || bool_decide ("no-store" ∈ cc_list)
  || (bool_decide ("private" ∈ cc_list) && negb (private_cache self)).

Section Hooks.

(** [int(s)] of the standard library; [None] when it raises
    [ValueError]. *)
Variable py_int : string -> option Z.

(** [email.message_from_string(text)] on a text that is not empty: the
    headers of the message that the parser of the [email] package reads
    off the text. *)
Variable parsestr : string -> Message.

(** [unicode(headers)], that is [str(message)]: the text that the
    generator of the [email] package writes for the message. It encodes
    a value that is not ASCII (RFC 2047) and raises on a value that it
    cannot fold ([HeaderWriteError]), so that reading the text back
    need not give the headers that were written. *)
Variable unicode_headers : Message -> result string.

Variable self : CacheHandler.

(** *** [load] and [save] *)

(** The empty text holds no header. *)
Definition message_from_string (text : string) : Message :=
  match text with
  | EmptyString => []
  | _ => parsestr text
  end.

(** What [load] starts from when the key is missing. *)
Definition absent : CacheRecord :=
  {| rec_code := None; rec_msg := None; rec_headers := EmptyString;
     rec_data := []; rec_timestamp := 0 |}.

Definition load (cache : Store) (url : string) : Loaded :=
  let out :=
    match cache !! url with
    | Some r => r
    | None => absent
    end in
  {| ld_code := rec_code out; ld_msg := rec_msg out;
     ld_headers := message_from_string (rec_headers out);
     ld_data := rec_data out; ld_timestamp := rec_timestamp out |}.

(** The tuple is built, [unicode(headers)] included, before the dict is
    written: when the text cannot be written the store stays as it
    was. *)
Definition save (cache : Store) (url : string) (code : option Z)
           (msg : option string) (headers : Message) (data : list byte)
           (timestamp : Z) : result Store :=
  text ← unicode_headers headers;
  Ok (<[url := {| rec_code := code; rec_msg := msg; rec_headers := text;
                  rec_data := data; rec_timestamp := timestamp |}]> cache).

(** *** [http_request] *)

Definition http_request (cache : Store) (req : Request) : Request :=
  let headers := ld_headers (load cache (get_full_url req)) in
  let req1 :=
    match msg_get "etag" headers with
    | Some v => add_unredirected_header "If-None-Match" v req
    | None => req
    end in
  match msg_get "last-modified" headers with
  | Some v => add_unredirected_header "If-Modified-Since" v req1
  | None => req1
  end.

(** *** [http_open]

    [Ok None] is the source's [return None]: the next handler, that
    is the network, is tried. *)

(** The response built after the decision tree, reached by [pass]. *)
Definition from_cache (r : Loaded) (url : string) : Response :=
  {| resp_code := ld_code r;
     resp_msg := ld_msg r;
     resp_headers := msg_set "morss" "from_cache" (ld_headers r);
     resp_body := ld_data r;
     resp_url := url |}.

(** The response of the [force_min == -2] branch on a missing record. *)
Definition conflict (r : Loaded) (url : string) : Response :=
  {| resp_code := Some 409%Z;
     resp_msg := Some "Conflict";
     resp_headers := msg_set "Morss" "from_cache" (ld_headers r);
     resp_body := [];
     resp_url := url |}.

Definition http_open (now : Z) (cache : Store) (req : Request)
  : result (option Response) :=
  let url := get_full_url req in
  let r := load cache url in
  let code := ld_code r in
  let cache_control := cache_control_of (ld_headers r) in
  let cc_list := cc_list_of cache_control in
  cc_values ← parse_keqv_list (cc_items_of cache_control);
  let cache_age := (now - ld_timestamp r)%Z in
  let use_cache := Ok (Some (from_cache r url)) in
  let refresh := Ok None in
  if bool_decide (get_header req "Morss" = Some "from_304") then use_cache
  else if bool_decide (force_min self = Some (-2)%Z) then
    if bool_decide (code <> None) then use_cache
    else Ok (Some (conflict r url))
  else if bool_decide (code = None) then refresh
  else if bool_decide (force_min self = Some (-1)%Z) then use_cache
  else if bool_decide (force_min self = Some 0%Z) then refresh
  else if is_code 301 code && (cache_age <? 7 * 24 * 3600)%Z then use_cache
  else if bool_decide (force_min self = None) && forbids_caching self cc_list
  then refresh
  else
    let by_force_min :=
      match force_min self with
      | Some f => if (f >? cache_age)%Z then use_cache else refresh
      | None => refresh
      end in
    match cc_values !! "max-age" with
    | Some v =>
        match py_int v with
        | None => Raise ValueError
        | Some n => if (n >? cache_age)%Z then use_cache else by_force_min
        end
    | None => by_force_min
    end.

(** *** [http_response]

    The hook returns early, or saves and returns the response with its
    body read; the save raises when the text of the headers cannot be
    written, and then nothing is stored. *)

Definition http_response (now : Z) (cache : Store) (req : Request)
           (resp : Response) : result (Store * Response) :=
  let headers := resp_headers resp in
  if is_code 304 (resp_code resp) then Ok (cache, resp)
  else if (msg_contains "cache-control" headers || msg_contains "pragma" headers)
          && bool_decide (force_min self = None)
          && forbids_caching self (cc_list_of (cache_control_of headers))
  then Ok (cache, resp)
  else if bool_decide (msg_get "Morss" headers = Some "from_cache") then Ok (cache, resp)
  else
    let data := resp_body resp in
    cache' ← save cache (get_full_url req) (resp_code resp) (resp_msg resp)
               headers data now;
    Ok (cache',
        {| resp_code := resp_code resp; resp_msg := resp_msg resp;
           resp_headers := headers; resp_body := data; resp_url := resp_url resp |}).

(** *** [http_error_304]

    The hook up to its last call: the store after the save and the
    request that it hands to [self.parent.open], whose result it
    returns; or [None] for the source's [return None]. The opener that
    makes the call is [Opener.open] below. *)
Definition http_error_304 (now : Z) (cache : Store) (req : Request)
  : result (Store * option Request) :=
  let url := get_full_url req in
  let r := load cache url in
  if truthy (ld_code r) then
    cache' ← save cache url (ld_code r) (ld_msg r) (ld_headers r) (ld_data r) now;
    Ok (cache',
        Some (add_unredirected_header "Morss" "from_304"
                (new_request url (req_headers req))))
  else Ok (cache, None).

(** *** Sequences of operations on the store

    The two hooks that write to the store, applied one after the
    other to any responses and requests. A hook that raises leaves the
    store as it was. *)
Inductive Op : Type :=
  | OpResponse (now : Z) (req : Request) (resp : Response)
  | Op304 (now : Z) (req : Request).

Definition store_after {A : Type} (cache : Store) (r : result (Store * A)) : Store :=
  match r with
  | Ok (cache', _) => cache'
  | Raise _ => cache
  end.

Definition step (cache : Store) (op : Op) : Store :=
  match op with
  | OpResponse now req resp => store_after cache (http_response now cache req resp)
  | Op304 now req => store_after cache (http_error_304 now cache req)
  end.

Definition run (cache : Store) (ops : list Op) : Store := foldl step cache ops.

End Hooks.

(** No stored record has the status 304. *)
Definition never_304 (cache : Store) : Prop :=
  forall url r, cache !! url = Some r -> rec_code r <> Some 304%Z.

(** A header of the given name and value, the name in any letter case. *)
Definition has_header (name val : string) (hs : Message) : Prop :=
  exists k, (k, val) ∈ hs /\ lower k = lower name.

End Cache.
(** ** The size limit *)

Module SizeLimit.
Import Cache.

(** The default of [SizeLimitHandler.__init__(self, limit=5*1024^2)].
    In Python [*] binds tighter than [^], and [^] is bitwise XOR. *)
Definition default_limit : Z := Z.lxor (5 * 1024) 2.

(** [resp.read(limit)]: at most [limit] bytes; a negative size reads
    everything. *)
Definition read (limit : Z) (body : list byte) : list byte :=
  if (limit <? 0)%Z then body else take (Z.to_nat limit) body.

Definition http_response (limit : Z) (resp : Response) : Response :=
  {| resp_code := resp_code resp; resp_msg := resp_msg resp;
     resp_headers := resp_headers resp;
     resp_body := read limit (resp_body resp);
     resp_url := resp_url resp |}.

End SizeLimit.

(** ** The encoding detector *)

Module Encoding.
Import Text Cache.

Definition bytes_of (s : string) : list byte := list_byte_of_string s.

Definition byte_in (lo hi : N) (b : byte) : bool := in_range lo hi (Byte.to_N b).

(** The character class [[0-9a-zA-Z-]]. *)
Definition is_label_byte (b : byte) : bool :=
  byte_in 48 57 b || byte_in 97 122 b || byte_in 65 90 b
  || (Byte.to_N b =? 45)%N.

(** The character class of the two quote characters. *)
Definition is_quote_byte (b : byte) : bool :=
  (Byte.to_N b =? 34)%N || (Byte.to_N b =? 39)%N.

(** [data] without the prefix [key], when it starts with it. *)
Fixpoint strip_prefix (key data : list byte) : option (list byte) :=
  match key, data with
  | [], _ => Some data
  | k :: key', d :: data' =>
      if Byte.eqb k d then strip_prefix key' data' else None
  | _ :: _, [] => None
  end.

Fixpoint take_while (f : byte -> bool) (l : list byte) : list byte :=
  match l with
  | [] => []
  | b :: l' => if f b then b :: take_while f l' else []
  end.

(** A match of the pattern [key], an optional quote, then the group
    [([0-9a-zA-Z-]+)], starting at the head of [data]; the result is
    the group. The optional quote is taken when it is there: leaving it
    out cannot help, since the class would then have to match the
    quote. The group is the longest run of the class. *)
Definition match_here (key data : list byte) : option (list byte) :=
  match strip_prefix key data with
  | None => None
  | Some rest =>
      let rest' :=
        match rest with
        | q :: rest'' => if is_quote_byte q then rest'' else rest
        | [] => rest
        end in
      match take_while is_label_byte rest' with
      | [] => None
      | g => Some g
      end
  end.

(** The two classes of the pattern as the claim writes them out: the
    characters of [[0-9a-zA-Z-]], and the two quotes. *)
Definition label_class : list byte :=
  bytes_of "0123456789abcdefghijklmnopqrstuvwxyzABCDEFGHIJKLMNOPQRSTUVWXYZ-".

Definition quote_class : list byte := bytes_of (String dquote "'").

(** The pattern read as a relation: [data] starts with [key], then an
    optional quote, then the group [g], a non-empty run of the class that
    the next byte does not extend. *)
Definition pattern_match (key data g : list byte) : Prop :=
  exists q rest,
    data = (key ++ q ++ g ++ rest)%list
    /\ (q = [] \/ exists b, q = [b] /\ b ∈ quote_class)
    /\ g <> []
    /\ Forall (fun b => b ∈ label_class) g
    /\ match rest with
       | [] => True
       | b :: _ => b ∉ label_class
       end.

(** [re.search]: the match at the leftmost position that has one. *)
Fixpoint re_search (key data : list byte) : option (list byte) :=
  match match_here key data with
  | Some g => Some g
  | None =>
      match data with
      | [] => None
      | _ :: data' => re_search key data'
      end
  end.

(** [bytes.lower] on one byte: ASCII only. *)
Definition lower_byte (b : byte) : byte :=
  if byte_in 65 90 b then
    match Byte.of_N (Byte.to_N b + 32) with Some b' => b' | None => b end
  else b.

(** [group.lower().decode()]: the group is ASCII, so decoding keeps
    every character. *)
Definition label_of (g : list byte) : string :=
  string_of_list_byte (map lower_byte g).

(** [data[:1000]] and [data[-2000:]] *)
Definition head_1000 (data : list byte) : list byte := take 1000 data.
Definition tail_2000 (data : list byte) : list byte :=
  drop (List.length data - 2000) data.

(** The characters [[0-9a-z-]]. *)
Definition is_lower_label_char (c : ascii) : bool :=
  let n := N_of_ascii c in
  in_range 48 57 n || in_range 97 122 n || (n =? 45)%N.

Fixpoint string_forallb (f : ascii -> bool) (s : string) : bool :=
  match s with
  | EmptyString => true
  | String c s' => f c && string_forallb f s'
  end.

Section Detector.

(** [cgi.parse_header]: the main value and the dict of parameters. *)
Variable parse_header : string -> string * gmap string string.

(** [chardet.detect(data)['encoding']]: [None] when the detector is
    not confident of any encoding. *)
Variable chardet_detect : list byte -> option string.

Definition detect_raw_encoding (data : list byte) (resp : option Response)
  : string :=
  let from_data :=
    match re_search (bytes_of "charset=") (head_1000 data) with
    | Some g => label_of g
    | None =>
        match re_search (bytes_of "encoding=") (head_1000 data) with
        | Some g => label_of g
        | None =>
            match chardet_detect (tail_2000 data) with
            | Some enc =>
                if negb (String.eqb enc EmptyString) && negb (String.eqb enc "ascii")
                then enc else "utf-8"
            | None => "utf-8"
            end
        end
    end in
  match resp with
  | Some resp =>
      match msg_get "charset" (resp_headers resp) with
      | Some enc => enc
      | None =>
          let line := default EmptyString (msg_get "content-type" (resp_headers resp)) in
          match (parse_header line).2 !! "charset" with
          | Some enc => enc
          | None => from_data
          end
      end
  | None => from_data
  end.

Definition detect_encoding (data : list byte) (resp : option Response) : string :=
  let enc := detect_raw_encoding data resp in
  if String.eqb (lower enc) "gb2312" then "gbk" else enc.

(** *** The waterfall, as the claim words it

    The claim's own notions, defined without the functions of the
    detector: the charset header, the charset parameter of
    Content-Type, the leftmost match of a pattern in a text, the first
    and the last bytes of a body, and the six stages in their order. *)

Definition charset_header (resp : option Response) : option string :=
  match resp with
  | Some r => msg_get "charset" (resp_headers r)
  | None => None
  end.

Definition content_type_charset (resp : option Response) : option string :=
  match resp with
  | Some r =>
      (parse_header (default EmptyString (msg_get "content-type" (resp_headers r)))).2
        !! "charset"
  | None => None
  end.

(** The pattern [key] matches in [text], and [g] is the group of its
    leftmost match. *)
Definition leftmost_match (key : string) (text g : list byte) : Prop :=
  exists pre post,
    text = (pre ++ post)%list
    /\ pattern_match (list_byte_of_string key) post g
    /\ forall pre' post' g',
         text = (pre' ++ post')%list ->
         (List.length pre' < List.length pre)%nat ->
         ~ pattern_match (list_byte_of_string key) post' g'.

Definition no_match (key : string) (text : list byte) : Prop :=
  forall pre post g,
    text = (pre ++ post)%list -> ~ pattern_match (list_byte_of_string key) post g.

(** [part] is the first, or the last, [n] bytes of [data]: all of it
    when it has fewer. *)
Definition first_bytes (n : nat) (data part : list byte) : Prop :=
  exists rest,
    data = (part ++ rest)%list /\ List.length part = Nat.min n (List.length data).

Definition last_bytes (n : nat) (data part : list byte) : Prop :=
  exists rest,
    data = (rest ++ part)%list /\ List.length part = Nat.min n (List.length data).

(** The six stages in their order, the first hit winning, on the first
    bytes [head] and the last bytes [tail] of the body. *)
Inductive stages (head tail : list byte) (resp : option Response) : string -> Prop :=
  | by_charset_header enc :
      charset_header resp = Some enc ->
      stages head tail resp enc
  | by_content_type enc :
      charset_header resp = None ->
      content_type_charset resp = Some enc ->
      stages head tail resp enc
  | by_charset_pattern g :
      charset_header resp = None ->
      content_type_charset resp = None ->
      leftmost_match "charset=" head g ->
      stages head tail resp (lower (string_of_list_byte g))
  | by_encoding_pattern g :
      charset_header resp = None ->
      content_type_charset resp = None ->
      no_match "charset=" head ->
      leftmost_match "encoding=" head g ->
      stages head tail resp (lower (string_of_list_byte g))
  | by_statistics enc :
      charset_header resp = None ->
      content_type_charset resp = None ->
      no_match "charset=" head ->
      no_match "encoding=" head ->
      chardet_detect tail = Some enc ->
      enc <> EmptyString -> enc <> "ascii" ->
      stages head tail resp enc
  | by_default :
      charset_header resp = None ->
      content_type_charset resp = None ->
      no_match "charset=" head ->
      no_match "encoding=" head ->
      (forall enc, chardet_detect tail = Some enc ->
                   enc = EmptyString \/ enc = "ascii") ->
      stages head tail resp "utf-8".

Definition waterfall (data : list byte) (resp : option Response) (label : string) : Prop :=
  exists head tail,
    first_bytes 1000 data head /\ last_bytes 2000 data tail
    /\ stages head tail resp label.

End Detector.

End Encoding.

(** ** The URL sanitiser *)

Module Url.
Import Text.

(** A Python [str]: its code points. *)
Definition pystr : Type := list Z.

Definition of_string (s : string) : pystr :=
  map (fun c => Z.of_N (N_of_ascii c)) (list_ascii_of_string s).

Definition code (c : ascii) : Z := Z.of_N (N_of_ascii c).

(** [a == b] on two strings. *)
Fixpoint str_eqb (a b : pystr) : bool :=
  match a, b with
  | [], [] => true
  | x :: a', y :: b' => (x =? y)%Z && str_eqb a' b'
  | _, _ => false
  end.

(** [x in l] for a list of strings. *)
Definition str_in (x : pystr) (l : list pystr) : bool := existsb (str_eqb x) l.

(** The argument of [sanitize_url]: a [str] or a [bytes]. *)
Inductive UrlArg : Type :=
  | Str (s : pystr)
  | Bytes (b : list byte).

(** *** Codecs *)

Definition byte_val (b : byte) : Z := Z.of_N (Byte.to_N b).

Definition is_cont (b : byte) : bool := (128 <=? byte_val b)%Z && (byte_val b <=? 191)%Z.

(** The strict UTF-8 decoder behind [bytes.decode()]: a lead byte, its
    continuation bytes, and the checks that refuse over-long forms,
    surrogates and values above U+10FFFF. [fuel] bounds the number of
    characters and is the length of the input. *)
Fixpoint utf8_decode (fuel : nat) (bs : list byte) : result pystr :=
  match fuel with
  | O => match bs with [] => Ok [] | _ => Raise UnicodeDecodeError end
  | S fuel' =>
      match bs with
      | [] => Ok []
      | b0 :: bs1 =>
          let v0 := byte_val b0 in
          if (v0 <? 128)%Z then
            rest ← utf8_decode fuel' bs1; Ok (v0 :: rest)
          else if (194 <=? v0)%Z && (v0 <=? 223)%Z then
            match bs1 with
            | b1 :: bs2 =>
                if is_cont b1 then
                  rest ← utf8_decode fuel' bs2;
                  Ok (((v0 - 192) * 64 + (byte_val b1 - 128))%Z :: rest)
                else Raise UnicodeDecodeError
            | _ => Raise UnicodeDecodeError
            end
          else if (224 <=? v0)%Z && (v0 <=? 239)%Z then
            match bs1 with
            | b1 :: b2 :: bs3 =>
                let cp := ((v0 - 224) * 4096 + (byte_val b1 - 128) * 64
                           + (byte_val b2 - 128))%Z in
                if is_cont b1 && is_cont b2 && (2048 <=? cp)%Z
                   && negb ((55296 <=? cp)%Z && (cp <=? 57343)%Z) then
                  rest ← utf8_decode fuel' bs3; Ok (cp :: rest)
                else Raise UnicodeDecodeError
            | _ => Raise UnicodeDecodeError
            end
          else if (240 <=? v0)%Z && (v0 <=? 244)%Z then
            match bs1 with
            | b1 :: b2 :: b3 :: bs4 =>
                let cp := ((v0 - 240) * 262144 + (byte_val b1 - 128) * 4096
                           + (byte_val b2 - 128) * 64 + (byte_val b3 - 128))%Z in
                if is_cont b1 && is_cont b2 && is_cont b3
                   && (65536 <=? cp)%Z && (cp <=? 1114111)%Z then
                  rest ← utf8_decode fuel' bs4; Ok (cp :: rest)
                else Raise UnicodeDecodeError
            | _ => Raise UnicodeDecodeError
            end
          else Raise UnicodeDecodeError
      end
  end.

(** [url.decode()] *)
Definition decode (bs : list byte) : result pystr := utf8_decode (List.length bs) bs.

Definition is_surrogate (c : Z) : bool := (55296 <=? c)%Z && (c <=? 57343)%Z.

Definition to_byte (n : Z) : byte :=
  match Byte.of_N (Z.to_N n) with Some b => b | None => x00 end.

(** [str.encode('utf-8')] of one code point; a surrogate raises. *)
Definition utf8_encode_char (c : Z) : result (list byte) :=
  if (c <? 128)%Z then Ok [to_byte c]
  else if (c <? 2048)%Z then
    Ok [to_byte (192 + c / 64); to_byte (128 + c mod 64)]
  else if is_surrogate c then Raise UnicodeEncodeError
  else if (c <? 65536)%Z then
    Ok [to_byte (224 + c / 4096); to_byte (128 + (c / 64) mod 64);
        to_byte (128 + c mod 64)]
  else
    Ok [to_byte (240 + c / 262144); to_byte (128 + (c / 4096) mod 64);
        to_byte (128 + (c / 64) mod 64); to_byte (128 + c mod 64)].

Fixpoint utf8_encode (s : pystr) : result (list byte) :=
  match s with
  | [] => Ok []
  | c :: s' =>
      bs ← utf8_encode_char c;
      rest ← utf8_encode s';
      Ok (bs ++ rest)%list
  end.

(** [bytes.decode('ascii')] *)
Fixpoint ascii_decode (bs : list byte) : result pystr :=
  match bs with
  | [] => Ok []
  | b :: bs' =>
      if (byte_val b <? 128)%Z then rest ← ascii_decode bs'; Ok (byte_val b :: rest)
      else Raise UnicodeDecodeError
  end.

(** [if isinstance(url, bytes): url = url.decode()] *)
Definition to_text (arg : UrlArg) : result pystr :=
  match arg with
  | Bytes b => decode b
  | Str s => Ok s
  end.

(** *** [urllib.parse.quote] on bytes, with the default [safe='/'] *)

Definition always_safe (v : Z) : bool :=
  ((65 <=? v) && (v <=? 90) || (97 <=? v) && (v <=? 122) || (48 <=? v) && (v <=? 57)
   || (v =? code "_") || (v =? code ".") || (v =? code "-") || (v =? code "~"))%Z.

Definition hex_digit (n : Z) : Z :=
  if (n <? 10)%Z then (48 + n)%Z else (55 + n)%Z.

Definition quote_byte (b : byte) : pystr :=
  let v := byte_val b in
  if always_safe v || (v =? code "/")%Z then [v]
  else [code "%"; hex_digit (v / 16); hex_digit (v mod 16)].

Definition quote (bs : list byte) : pystr := List.concat (map quote_byte bs).

(** *** String helpers *)

(** [s.find(c)] *)
Fixpoint find (c : Z) (s : pystr) : option nat :=
  match s with
  | [] => None
  | d :: s' => if (c =? d)%Z then Some O else S <$> find c s'
  end.

(** [s.find(c, start)] *)
Definition find_from (c : Z) (start : nat) (s : pystr) : option nat :=
  (fun i => (start + i)%nat) <$> find c (drop start s).

(** [s.rfind(c)] *)
Fixpoint rfind (c : Z) (s : pystr) : option nat :=
  match s with
  | [] => None
  | d :: s' =>
      match rfind c s' with
      | Some i => Some (S i)
      | None => if (c =? d)%Z then Some O else None
      end
  end.

(** [c in s] *)
Definition contains (c : Z) (s : pystr) : bool := existsb (Z.eqb c) s.

(** [s.split(c, 1)]: the text before the first [c] and, when there is
    one, the text after it. *)
Definition split_once (c : Z) (s : pystr) : pystr * option pystr :=
  match find c s with
  | Some i => (take i s, Some (drop (S i) s))
  | None => (s, None)
  end.

(** [s.replace(c, new)] for a one-character [c]. *)
Definition replace_char (c : Z) (new : pystr) (s : pystr) : pystr :=
  List.concat (map (fun d => if (c =? d)%Z then new else [d]) s).

Definition starts_with (p s : pystr) : bool := str_eqb (take (List.length p) s) p.

Definition lower_ascii (s : pystr) : pystr :=
  map (fun c => if (65 <=? c)%Z && (c <=? 90)%Z then (c + 32)%Z else c) s.

(** *** [is_ascii]

    [string.encode('ascii')] raises [UnicodeError] exactly when some
    code point is above 127; the source catches it. *)
Definition is_ascii (s : pystr) : bool := forallb (fun c => (c <? 128)%Z) s.

(** A character of plain ASCII other than the two square brackets. *)
Definition is_plain (c : Z) : bool :=
  (c <? 128)%Z && negb (c =? code "[")%Z && negb (c =? code "]")%Z.

(** *** [urllib.parse], CPython 3.11 *)

Definition uses_netloc : list pystr :=
  map of_string
    [""; "ftp"; "http"; "gopher"; "nntp"; "telnet"; "imap"; "wais"; "file";
     "mms"; "https"; "shttp"; "snews"; "prospero"; "rtsp"; "rtspu"; "rsync";
     "svn"; "svn+ssh"; "sftp"; "nfs"; "git"; "git+ssh"; "ws"; "wss"].

Definition uses_params : list pystr :=
  map of_string
    [""; "ftp"; "hdl"; "prospero"; "http"; "imap"; "https"; "shttp"; "rtsp";
     "rtspu"; "sip"; "sips"; "mms"; "sftp"; "tel"].

Definition is_alpha_ascii (c : Z) : bool :=
  ((65 <=? c) && (c <=? 90) || (97 <=? c) && (c <=? 122))%Z.

Definition is_scheme_char (c : Z) : bool :=
  is_alpha_ascii c || ((48 <=? c) && (c <=? 57))%Z
  || (c =? code "+")%Z || (c =? code "-")%Z || (c =? code ".")%Z.

(** [url.lstrip(_WHATWG_C0_CONTROL_OR_SPACE)] *)
Fixpoint lstrip_c0 (s : pystr) : pystr :=
  match s with
  | [] => []
  | c :: s' => if (0 <=? c)%Z && (c <=? 32)%Z then lstrip_c0 s' else s
  end.

(** Removal of tab, carriage return and newline. *)
Definition remove_unsafe (s : pystr) : pystr :=
  List.filter (fun c => negb ((c =? 9) || (c =? 13) || (c =? 10))%Z) s.

Definition is_netloc_delim (c : Z) : bool :=
  ((c =? code "/") || (c =? code "?") || (c =? code "#"))%Z.

Fixpoint span_netloc (s : pystr) : pystr * pystr :=
  match s with
  | [] => ([], [])
  | c :: s' =>
      if is_netloc_delim c then ([], s)
      else let '(a, b) := span_netloc s' in (c :: a, b)
  end.

(** [_splitnetloc(url, 2)] *)
Definition splitnetloc2 (url : pystr) : pystr * pystr := span_netloc (drop 2 url).

Record SplitResult : Type := mkSplit {
  sp_scheme : pystr; sp_netloc : pystr; sp_path : pystr;
  sp_query : pystr; sp_fragment : pystr
}.

Record ParseResult : Type := mkParse {
  scheme : pystr; netloc : pystr; path : pystr;
  params : pystr; query : pystr; fragment : pystr
}.

(** [_splitparams] *)
Definition splitparams (url : pystr) : pystr * pystr :=
  let cut (i : nat) := (take i url, drop (S i) url) in
  match rfind (code "/") url with
  | Some slash =>
      match find_from (code ";") slash url with
      | Some i => cut i
      | None => (url, [])
      end
  | None =>
      match find (code ";") url with
      | Some i => cut i
      | None => (take (List.length url - 1) url, url)
      end
  end.

(** Strings, and parsed URLs, made of plain characters only. *)
Definition plain (s : pystr) : Prop := Forall (fun c => is_plain c = true) s.

Definition plain_split (sp : SplitResult) : Prop :=
  plain (sp_scheme sp) /\ plain (sp_netloc sp) /\ plain (sp_path sp)
  /\ plain (sp_query sp) /\ plain (sp_fragment sp).

Definition plain_parts (p : ParseResult) : Prop :=
  plain (scheme p) /\ plain (netloc p) /\ plain (path p)
  /\ plain (params p) /\ plain (query p) /\ plain (fragment p).

(** A text that starts with [http:] or [https:]. *)
Definition has_protocol (s : pystr) : Prop :=
  exists p tail,
    (p = of_string "http" \/ p = of_string "https") /\ s = (p ++ code ":" :: tail)%list.

Section Sanitiser.

(** [unicodedata.normalize('NFKC', s)] *)
Variable nfkc : pystr -> pystr.

(** [_check_bracketed_netloc]: whether the bracketed host is
    accepted ([ipaddress] decides). *)
Variable bracketed_netloc_ok : pystr -> bool.

(** [s.encode('idna')] *)
Variable idna_encode : pystr -> result (list byte).

(** [_checknetloc] *)
Definition checknetloc (netloc : pystr) : result unit :=
  if str_eqb netloc [] || is_ascii netloc then Ok tt
  else
    let n := List.filter
               (fun c => negb ((c =? code "@") || (c =? code ":")
                               || (c =? code "#") || (c =? code "?"))%Z) netloc in
    let netloc2 := nfkc n in
    if str_eqb n netloc2 then Ok tt
    else if existsb (fun c => contains c netloc2)
              [code "/"; code "?"; code "#"; code "@"; code ":"]
    then Raise ValueError
    else Ok tt.

(** The scheme step of [urlsplit]: the text before the first colon is
    the scheme when it starts with an ASCII letter and holds scheme
    characters only. *)
Definition split_scheme (url : pystr) : pystr * pystr :=
  match find (code ":") url, url with
  | Some (S i), c0 :: _ =>
      if is_alpha_ascii c0 && forallb is_scheme_char (take (S i) url)
      then (lower_ascii (take (S i) url), drop (S (S i)) url)
      else ([], url)
  | _, _ => ([], url)
  end.

(** The network-location step, with the bracket checks. *)
Definition split_netloc (url : pystr) : result (pystr * pystr) :=
  if str_eqb (take 2 url) (of_string "//") then
    let '(netloc, rest) := splitnetloc2 url in
    let lb := contains (code "[") netloc in
    let rb := contains (code "]") netloc in
    if (lb && negb rb) || (rb && negb lb) then Raise ValueError
    else if lb && rb && negb (bracketed_netloc_ok netloc) then Raise ValueError
    else Ok (netloc, rest)
  else Ok ([], url).

(** [if c in url: url, rest = url.split(c, 1)], with [rest] empty
    otherwise. *)
Definition split_off (c : Z) (url : pystr) : pystr * pystr :=
  match split_once c url with
  | (a, Some b) => (a, b)
  | (a, None) => (a, [])
  end.

(** [urlsplit] up to its last check: the scheme, the network location
    with the bracket checks, the fragment and the query. *)
Definition split_components (url0 : pystr) : result SplitResult :=
  let url := remove_unsafe (lstrip_c0 url0) in
  let '(scheme, url) := split_scheme url in
  '(netloc, url) ← split_netloc url;
  let '(url, fragment) := split_off (code "#") url in
  let '(url, query) := split_off (code "?") url in
  Ok {| sp_scheme := scheme; sp_netloc := netloc; sp_path := url;
        sp_query := query; sp_fragment := fragment |}.

Definition urlsplit (url : pystr) : result SplitResult :=
  sp ← split_components url;
  _ ← checknetloc (sp_netloc sp);
  Ok sp.

Definition urlparse (url : pystr) : result ParseResult :=
  sp ← urlsplit url;
  let '(url, params) :=
    if str_in (sp_scheme sp) uses_params && contains (code ";") (sp_path sp)
    then splitparams (sp_path sp)
    else (sp_path sp, []) in
  Ok {| scheme := sp_scheme sp; netloc := sp_netloc sp; path := url;
        params := params; query := sp_query sp; fragment := sp_fragment sp |}.

Definition urlunsplit (sp : SplitResult) : pystr :=
  let url := sp_path sp in
  let url :=
    if negb (str_eqb (sp_netloc sp) [])
       || (negb (str_eqb (sp_scheme sp) [])
           && str_in (sp_scheme sp) uses_netloc
           && negb (str_eqb (take 2 url) (of_string "//")))
    then
      let url :=
        if negb (str_eqb url []) && negb (str_eqb (take 1 url) (of_string "/"))
        then (of_string "/" ++ url)%list else url in
      (of_string "//" ++ sp_netloc sp ++ url)%list
    else url in
  let url :=
    if negb (str_eqb (sp_scheme sp) [])
    then (sp_scheme sp ++ of_string ":" ++ url)%list else url in
  let url :=
    if negb (str_eqb (sp_query sp) [])
    then (url ++ of_string "?" ++ sp_query sp)%list else url in
  if negb (str_eqb (sp_fragment sp) [])
  then (url ++ of_string "#" ++ sp_fragment sp)%list else url.

Definition urlunparse (p : ParseResult) : pystr :=
  let url :=
    if negb (str_eqb (params p) [])
    then (path p ++ of_string ";" ++ params p)%list else path p in
  urlunsplit {| sp_scheme := scheme p; sp_netloc := netloc p; sp_path := url;
                sp_query := query p; sp_fragment := fragment p |}.

(** *** [sanitize_url] *)

Definition PROTOCOL : list pystr := map of_string ["http"; "https"].

(** [re.sub('^(https?):/([^/])', r'\1://\2', url)]: one more slash
    after [http:/] or [https:/] at the start, when the next character
    is not a slash. *)
Definition fix_single_slash (url : pystr) : pystr :=
  let fix_after (p : pystr) : option pystr :=
    if starts_with (p ++ of_string ":/")%list url then
      match drop (List.length p + 2) url with
      | c :: rest =>
          if (c =? code "/")%Z then None
          else Some (p ++ of_string "://" ++ c :: rest)%list
      | [] => None
      end
    else None in
  match fix_after (of_string "https") with
  | Some url' => url'
  | None =>
      match fix_after (of_string "http") with
      | Some url' => url'
      | None => url
      end
  end.

(** The body of the loop over the six parts: index [i], part [p]. *)
Definition escape_part (i : nat) (p : pystr) : result pystr :=
  if negb (is_ascii p) then
    if (i =? 1)%nat then
      bs ← idna_encode p; ascii_decode bs
    else
      bs ← utf8_encode p; Ok (quote bs)
  else Ok p.

(** The steps on the text, before parsing. *)
Definition prepare (url : pystr) : pystr :=
  let url :=
    if str_in (split_once (code ":") url).1 PROTOCOL then url
    else (of_string "http://" ++ url)%list in
  let url := fix_single_slash url in
  replace_char (code " ") (of_string "%20") url.

Definition sanitize_url (arg : UrlArg) : result pystr :=
  url ← to_text arg;
  parts ← urlparse (prepare url);
  p0 ← escape_part 0 (scheme parts);
  p1 ← escape_part 1 (netloc parts);
  p2 ← escape_part 2 (path parts);
  p3 ← escape_part 3 (params parts);
  p4 ← escape_part 4 (query parts);
  p5 ← escape_part 5 (fragment parts);
  Ok (urlunparse {| scheme := p0; netloc := p1; path := p2;
                    params := p3; query := p4; fragment := p5 |}).

End Sanitiser.

End Url.

(** ** The in-memory cache: [CappedDict] *)

Module CappedDict.

Section Dict.

(** The values kept per key; the cache handler stores its records. *)
Context {V : Type}.

(** An [OrderedDict]: its items in insertion order, oldest first. *)
Definition Dict : Type := list (string * V).

(** [self[key]]; [None] stands for [KeyError]. *)
Fixpoint getitem (key : string) (d : Dict) : option V :=
  match d with
  | [] => None
  | (k, v) :: d' => if String.eqb k key then Some v else getitem key d'
  end.

(** [key in self] *)
Definition contains (key : string) (d : Dict) : bool :=
  existsb (fun kv => String.eqb kv.1 key) d.

(** [del self[key]] *)
Definition delitem (key : string) (d : Dict) : Dict :=
  List.filter (fun kv => negb (String.eqb kv.1 key)) d.

(** [CappedDict.__setitem__]: an existing key is deleted first, so that
    the item is inserted anew, at the young end. *)
Definition setitem (key : string) (value : V) (d : Dict) : Dict :=
  ((if contains key d then delitem key d else d) ++ [(key, value)])%list.

(** [self.popitem(False)]: the oldest item is removed; [None] stands for
    the [KeyError] of an empty dict. *)
Definition popitem_first (d : Dict) : option Dict :=
  match d with
  | [] => None
  | _ :: d' => Some d'
  end.

(** [for i in range(n): self.popitem(False)] *)
Fixpoint pop_oldest (n : nat) (d : Dict) : option Dict :=
  match n with
  | O => Some d
  | S n' =>
      match popitem_first d with
      | Some d' => pop_oldest n' d'
      | None => None
      end
  end.

(** The module constant [CACHE_SIZE], read from the environment. *)
Variable CACHE_SIZE : Z.

(** [CappedDict.trim] *)
Definition trim (d : Dict) : option Dict :=
  if (CACHE_SIZE >=? 0)%Z then
    pop_oldest (Z.to_nat (Z.max (Z.of_nat (List.length d) - CACHE_SIZE) 0)) d
  else Some d.

(** The keys of a dict are pairwise distinct. *)
Definition unique_keys (d : Dict) : Prop := NoDup (map fst d).

(** The dict as the mapping the cache handler works with. *)
Definition to_map (d : Dict) : gmap string V := list_to_map d.

End Dict.

End CappedDict.

(** ** The gzip handler *)

Module Gzip.
Import Cache.

Section Hooks.

(** [UnGzip]: zlib's decompression, which may raise on data that is not
    a gzip or zlib stream. *)
Variable UnGzip : list byte -> result (list byte).

Definition http_request (req : Request) : Request :=
  add_unredirected_header "Accept-Encoding" "gzip" req.

Definition http_response (resp : Response) : result Response :=
  ok ← is_2xx (resp_code resp);
  if ok && bool_decide (msg_get "Content-Encoding" (resp_headers resp) = Some "gzip")
  then
    data ← UnGzip (resp_body resp);
    Ok {| resp_code := resp_code resp; resp_msg := resp_msg resp;
          resp_headers := msg_set "Content-Encoding" "identity" (resp_headers resp);
          resp_body := data; resp_url := resp_url resp |}
  else Ok resp.

End Hooks.

End Gzip.

(** ** The refresh handler *)

Module Refresh.
Import Text Cache.

(** The pattern applied to the header [Refresh]:
    [(?i)^(?P<delay>[0-9]+)\s*;\s*url=(Q?)(?P<url>.+)\2$], where [Q] is
    the class of the double and the single quote. *)

Definition is_digit (c : ascii) : bool := in_range 48 57 (ord c).

Definition is_quote (c : ascii) : bool :=
  Ascii.eqb c dquote || Ascii.eqb c squote.

Definition newline : ascii := chr 10.

(** The longest run of characters of a class, and what follows it: the
    greedy [[0-9]+] and [\s*], which no later part of the pattern makes
    give a character back (a semicolon is no digit and no space, and
    [u] is no space). *)
Fixpoint span (f : ascii -> bool) (s : string) : string * string :=
  match s with
  | EmptyString => (EmptyString, EmptyString)
  | String c s' =>
      if f c then let '(a, b) := span f s' in (String c a, b)
      else (EmptyString, s)
  end.

(** [url=] under [(?i)]. *)
Definition strip_url_eq (s : string) : option string :=
  match s with
  | String c1 (String c2 (String c3 (String c4 rest))) =>
      if String.eqb (lower (String c1 (String c2 (String c3 (String c4 EmptyString)))))
           "url="
      then Some rest else None
  | _ => None
  end.

(** [$] matches at the end, and before a newline that ends the text. *)
Definition chomp (s : string) : string :=
  match last_char s with
  | Some c => if Ascii.eqb c newline then drop_last s else s
  | None => s
  end.

(** [(?P<url>.+)\2$] on the text [s], group 2 being [q]: the group
    [url] is what stands before the closing [q]; it is not empty and
    holds no newline. *)
Definition url_group (q : option ascii) (s : string) : option string :=
  let t := chomp s in
  let body :=
    match q with
    | None => Some t
    | Some c =>
        match last_char t with
        | Some d => if Ascii.eqb c d then Some (drop_last t) else None
        | None => None
        end
    end in
  match body with
  | Some (String c u) =>
      if has_char newline (String c u) then None else Some (String c u)
  | _ => None
  end.

(** [(Q?)(?P<url>.+)\2$]: the quote is tried first, then the empty
    group. *)
Definition quoted_url (s : string) : option string :=
  match s with
  | String c s' =>
      if is_quote c then
        match url_group (Some c) s' with
        | Some u => Some u
        | None => url_group None s
        end
      else url_group None s
  | EmptyString => None
  end.

(** [re.search(regex, header)] and the group [url] of the match. *)
Definition refresh_url (header : string) : option string :=
  let '(delay, rest) := span is_digit header in
  match delay with
  | EmptyString => None
  | _ =>
      match (span py_isspace rest).2 with
      | String c rest =>
          if Ascii.eqb c ";" then
            match strip_url_eq (span py_isspace rest).2 with
            | Some tail => quoted_url tail
            | None => None
            end
          else None
      | EmptyString => None
      end
  end.

Definition http_response (resp : Response) : result Response :=
  ok ← is_2xx (resp_code resp);
  if (ok : bool) then
    match msg_get "refresh" (resp_headers resp) with
    | Some (String c h) =>
        match refresh_url (String c h) with
        | Some (String d url) =>
            Ok {| resp_code := Some 302%Z;
                  resp_msg := Some "Moved Temporarily";
                  resp_headers := msg_set "location" (String d url) (resp_headers resp);
                  resp_body := resp_body resp;
                  resp_url := resp_url resp |}
        | _ => Ok resp
        end
    | _ => Ok resp
    end
  else Ok resp.

End Refresh.

(** ** The user-agent and the browser-like headers *)

Module UA.
Import Cache.

(** [if self.useragent:] is false on [None] and on the empty string. *)
Definition http_request (useragent : string) (req : Request) : Request :=
  match useragent with
  | EmptyString => req
  | _ => add_unredirected_header "User-Agent" useragent req
  end.

End UA.

Module Browserly.
Import Cache.

Definition http_request (req : Request) : Request :=
  add_unredirected_header "Accept-Language" "en-US,en;q=0.5"
    (add_unredirected_header "Accept"
       "text/html,application/xhtml+xml,application/xml;q=0.9,*/*;q=0.8" req).

End Browserly.

(** ** The opener of [custom_handler]

    [OpenerDirector] of [urllib.request], CPython 3.11, with the
    handlers that [build_opener] gives it, on a request of the protocol
    http. Every handler of the source names its https hooks after its
    http hooks, and the opener files the errors of both protocols under
    http. *)

Module Opener.
Import Text Cache.

(** The handlers that [custom_handler] builds, with their constructor
    arguments, and the default handlers that [build_opener] puts in
    front of them. *)
Inductive Handler : Type :=
  | size_limit (limit : Z)
  | cookie_processor
  | gzip
  | http_equiv
  | http_refresh
  | user_agent (useragent : string)
  | browserly_header
  | encoding_fix (encoding : option string)
  | alternate (follow : list string)
  | cache (force_min : option Z)
  | proxy
  | unknown
  | http_handler
  | http_default_error
  | http_redirect
  | ftp
  | file
  | http_error_processor
  | data
  | https_handler.

(** The class attribute [handler_order]; [BaseHandler] gives 500. *)
Definition handler_order (h : Handler) : Z :=
  match h with
  | size_limit _ => 450
  | cache _ => 499
  | http_equiv => 600
  | http_refresh => 700
  | proxy => 100
  | http_error_processor => 1000
  | _ => 500
  end.

(** Whether the class defines [http_request], [http_open],
    [http_response] and [http_error_<code>]. A [ProxyHandler] has an
    [http_open] only when a proxy is configured in the environment;
    none is here. *)
Definition has_http_request (h : Handler) : bool :=
  match h with
  | cookie_processor | gzip | user_agent _ | browserly_header | cache _
  | http_handler => true
  | _ => false
  end.

Definition has_http_open (h : Handler) : bool :=
  match h with
  | cache _ | http_handler => true
  | _ => false
  end.

Definition has_http_response (h : Handler) : bool :=
  match h with
  | size_limit _ | cookie_processor | gzip | http_equiv | http_refresh
  | encoding_fix _ | alternate _ | cache _ | http_error_processor => true
  | _ => false
  end.

Definition has_http_error (code : Z) (h : Handler) : bool :=
  match h with
  | cache _ => (code =? 304)%Z
  | http_redirect =>
      ((code =? 301) || (code =? 302) || (code =? 303) || (code =? 307)
       || (code =? 308))%Z
  | _ => false
  end.

(** The table [MIMETYPE]; [None] stands for [KeyError]. *)
Definition MIMETYPE (key : string) : option (list string) :=
  if String.eqb key "xml" then
    Some ["text/xml"; "application/xml"; "application/rss+xml";
          "application/rdf+xml"; "application/atom+xml"; "application/xhtml+xml"]
  else if String.eqb key "rss" then
    Some ["application/rss+xml"; "application/rdf+xml"; "application/atom+xml"]
  else if String.eqb key "html" then
    Some ["text/html"; "application/xhtml+xml"; "application/xml"]
  else None.

(** The list [handlers] of [custom_handler], in the order of the
    appends; [useragent] is the result of [random.choice(DEFAULT_UAS)].
    [None] stands for the [KeyError] of an unknown [follow]. *)
Definition custom_handler (useragent : string) (follow : option string)
           (delay : option Z) (encoding : option string) : option (list Handler) :=
  let handlers :=
    [ size_limit (500 * 1024); cookie_processor; gzip; http_equiv; http_refresh;
      user_agent useragent; browserly_header; encoding_fix encoding ] in
  let with_cache (hs : list Handler) := (hs ++ [cache delay])%list in
  match follow with
  | None => Some (with_cache handlers)
  | Some key =>
      if String.eqb key EmptyString then Some (with_cache handlers)
      else
        match MIMETYPE key with
        | Some types => Some (with_cache (handlers ++ [alternate types])%list)
        | None => None
        end
  end.

(** [build_opener]: the default classes, none of which a
    handler of this module subclasses, are added first. *)
Definition default_classes : list Handler :=
  [ proxy; unknown; http_handler; http_default_error; http_redirect;
    ftp; file; http_error_processor; data; https_handler ].

Definition build_opener (handlers : list Handler) : list Handler :=
  (default_classes ++ handlers)%list.

(** [bisect.insort], by which [OpenerDirector.add_handler] files a
    handler under each of its hooks: behind every handler whose order is
    not greater. *)
Fixpoint insort (h : Handler) (l : list Handler) : list Handler :=
  match l with
  | [] => [h]
  | x :: l' =>
      if (handler_order h <? handler_order x)%Z then h :: l else x :: insort h l'
  end.

(** The handlers filed under one hook, in the order in which the opener
    calls them. *)
Definition chain (has_hook : Handler -> bool) (handlers : list Handler)
  : list Handler :=
  foldl (fun l h => insort h l) [] (List.filter has_hook handlers).

Definition request_chain : list Handler -> list Handler := chain has_http_request.
Definition open_chain : list Handler -> list Handler := chain has_http_open.
Definition response_chain : list Handler -> list Handler := chain has_http_response.
Definition error_chain (code : Z) : list Handler -> list Handler :=
  chain (has_http_error code).

(** *** The state of an opening

    The hooks read and write the store of the cache handler, read the
    clock and talk to the server and to the cookie jar. The store is
    threaded through the hooks; what lies outside the program is read
    at a counter that every such access advances, so that two accesses
    need not agree. An exception leaves the store as it is at the point
    where it is raised. *)
Record State : Type := mkState {
  st_cache : Store;
  st_tick : nat
}.

Definition M (A : Type) : Type := State -> State * result A.

Definition ret {A : Type} (a : A) : M A := fun s => (s, Ok a).

Definition raise {A : Type} (e : exn) : M A := fun s => (s, Raise e).

Definition lift {A : Type} (r : result A) : M A := fun s => (s, r).

Definition bind {A B : Type} (m : M A) (k : A -> M B) : M B :=
  fun s =>
    match m s with
    | (s', Ok a) => k a s'
    | (s', Raise e) => (s', Raise e)
    end.

(** The counter, which the access advances. *)
Definition tick : M nat :=
  fun s => ({| st_cache := st_cache s; st_tick := S (st_tick s) |}, Ok (st_tick s)).

(** [_call_chain]: the first handler that does not return [None]. *)
Fixpoint call_chain {A : Type} (hook : Handler -> M (option A))
         (handlers : list Handler) : M (option A) :=
  match handlers with
  | [] => ret None
  | h :: handlers' =>
      bind (hook h) (fun r =>
        match r with
        | Some a => ret (Some a)
        | None => call_chain hook handlers'
        end)
  end.

(** A loop that hands the value of one hook to the next. *)
Fixpoint process {A : Type} (hook : Handler -> A -> M A)
         (handlers : list Handler) (a : A) : M A :=
  match handlers with
  | [] => ret a
  | h :: handlers' => bind (hook h a) (process hook handlers')
  end.

Section Director.

(** The library functions of the cache handler and of the gzip
    handler. *)
Variable py_int : string -> option Z.
Variable parsestr : string -> Message.
Variable unicode_headers : Message -> result string.
Variable UnGzip : list byte -> result (list byte).

(** [time.time()], in whole seconds. *)
Variable clock : nat -> Z.

(** [HTTPHandler.http_open]: the answer of the server, or the exception
    of a transfer that fails. *)
Variable network : nat -> Request -> result Response.

(** [Request.host], which the request splits off its URL; [None] when
    there is none. *)
Variable request_host : string -> option string.

(** The value of the header Cookie that the cookie jar has for a
    request, if any, and [CookieJar.extract_cookies]. *)
Variable cookie_attrs : nat -> Request -> option string.
Variable extract_cookies : nat -> Request -> Response -> result unit.

(** [HTTPRedirectHandler.http_error_302] up to its last call: the
    request that it hands to [self.parent.open], [None] where it
    returns [None] (no header Location or URI), or the [HTTPError] that
    it raises. *)
Variable redirect_request : nat -> Request -> Response -> result (option Request).

(** The hooks of [EncodingFixHandler], [AlternateHandler] and
    [HTTPEquivHandler] on a response whose status is 2xx: they rest on
    the codecs and on [lxml]. *)
Variable encoding_fix_2xx : option string -> Response -> result Response.
Variable alternate_2xx : list string -> Response -> result Response.
Variable http_equiv_2xx : Response -> result Response.

(** The list given to [build_opener]. *)
Variable handlers : list Handler.

(** *** The request hooks *)

(** [Request.has_header] *)
Definition req_has_header (req : Request) (name : string) : bool :=
  bool_decide (is_Some (req_headers req !! name))
  || bool_decide (is_Some (req_unredirected req !! name)).

(** [OpenerDirector.addheaders] *)
Definition client_version : string := "Python-urllib/3.11".

(** [AbstractHTTPHandler.do_request_] on a request without data that
    goes through no proxy. *)
Definition do_request_ (req : Request) : result Request :=
  match request_host (get_full_url req) with
  | None => Raise URLError
  | Some host =>
      let req1 :=
        if req_has_header req "Host" then req
        else add_unredirected_header "Host" host req in
      Ok (if req_has_header req1 "User-agent" then req1
          else add_unredirected_header "User-agent" client_version req1)
  end.

(** [CookieJar.add_cookie_header] under the default policy. *)
Definition add_cookie_header (attrs : option string) (req : Request) : Request :=
  match attrs with
  | Some v =>
      if req_has_header req "Cookie" then req
      else add_unredirected_header "Cookie" v req
  | None => req
  end.

Definition cache_handler (force_min : option Z) : CacheHandler :=
  {| force_min := force_min; private_cache := false |}.

Definition request_hook (h : Handler) (req : Request) : M Request :=
  match h with
  | cache _ => fun s => (s, Ok (Cache.http_request parsestr (st_cache s) req))
  | http_handler => lift (do_request_ req)
  | cookie_processor =>
      bind tick (fun n => ret (add_cookie_header (cookie_attrs n req) req))
  | gzip => ret (Gzip.http_request req)
  | user_agent useragent => ret (UA.http_request useragent req)
  | browserly_header => ret (Browserly.http_request req)
  | _ => ret req
  end.

(** *** The open hooks *)

Definition open_hook (req : Request) (h : Handler) : M (option Response) :=
  match h with
  | cache force_min =>
      bind tick (fun n s =>
        (s, Cache.http_open py_int parsestr (cache_handler force_min)
              (clock n) (st_cache s) req))
  | http_handler =>
      bind tick (fun n => lift (resp ← network n req; Ok (Some resp)))
  | _ => ret None
  end.

(** [OpenerDirector._open]; a request that no handler opens ends in
    [UnknownHandler.unknown_open]. *)
Definition _open (req : Request) : M Response :=
  bind (call_chain (open_hook req) (open_chain (build_opener handlers)))
    (fun r =>
       match r with
       | Some resp => ret resp
       | None => raise URLError
       end).

(** *** The response hooks *)

Definition cache_response (force_min : option Z) (req : Request) (resp : Response)
  : M Response :=
  bind tick (fun n s =>
    match Cache.http_response unicode_headers (cache_handler force_min)
            (clock n) (st_cache s) req resp with
    | Ok (cache', resp') => ({| st_cache := cache'; st_tick := st_tick s |}, Ok resp')
    | Raise e => (s, Raise e)
    end).

(** [200 <= resp.code < 300 and ...]: on another status the response is
    returned as it is. *)
Definition guarded (inner : Response -> result Response) (resp : Response)
  : result Response :=
  ok ← is_2xx (resp_code resp);
  if (ok : bool) then inner resp else Ok resp.

(** [CacheHandler.http_error_304], with its call of
    [self.parent.open]. *)
Definition cache_error_304 (parent_open : Request -> M Response) (req : Request)
  : M (option Response) :=
  bind tick (fun n s =>
    match Cache.http_error_304 parsestr unicode_headers (clock n) (st_cache s) req with
    | Ok (cache', Some new) =>
        bind (parent_open new) (fun resp => ret (Some resp))
          {| st_cache := cache'; st_tick := st_tick s |}
    | Ok (cache', None) => ({| st_cache := cache'; st_tick := st_tick s |}, Ok None)
    | Raise e => (s, Raise e)
    end).

Definition error_hook (parent_open : Request -> M Response) (req : Request)
           (resp : Response) (h : Handler) : M (option Response) :=
  match h with
  | cache _ => cache_error_304 parent_open req
  | http_redirect =>
      bind tick (fun n =>
        bind (lift (redirect_request n req resp)) (fun new =>
          match new with
          | Some new => bind (parent_open new) (fun resp' => ret (Some resp'))
          | None => ret None
          end))
  | _ => ret None
  end.

(** [OpenerDirector.error] for the protocol http: the handlers of the
    status, then [HTTPDefaultErrorHandler.http_error_default], which
    raises. *)
Definition error (parent_open : Request -> M Response) (req : Request)
           (resp : Response) (code : Z) : M Response :=
  bind (call_chain (error_hook parent_open req resp)
          (error_chain code (build_opener handlers)))
    (fun r =>
       match r with
       | Some resp' => ret resp'
       | None => raise (HTTPError code)
       end).

(** [HTTPErrorProcessor.http_response] *)
Definition error_processor (parent_open : Request -> M Response) (req : Request)
           (resp : Response) : M Response :=
  bind (lift (is_2xx (resp_code resp))) (fun ok : bool =>
    if ok then ret resp
    else
      match resp_code resp with
      | Some code => error parent_open req resp code
      | None => raise TypeError
      end).

Definition response_hook (parent_open : Request -> M Response) (req : Request)
           (h : Handler) (resp : Response) : M Response :=
  match h with
  | size_limit limit => ret (SizeLimit.http_response limit resp)
  | cache force_min => cache_response force_min req resp
  | cookie_processor =>
      bind tick (fun n =>
        bind (lift (extract_cookies n req resp)) (fun _ => ret resp))
  | gzip => lift (Gzip.http_response UnGzip resp)
  | encoding_fix encoding => lift (guarded (encoding_fix_2xx encoding) resp)
  | alternate follow => lift (guarded (alternate_2xx follow) resp)
  | http_equiv => lift (guarded http_equiv_2xx resp)
  | http_refresh => lift (Refresh.http_response resp)
  | http_error_processor => error_processor parent_open req resp
  | _ => ret resp
  end.

(** *** [OpenerDirector.open]

    The request hooks, the open hooks, the response hooks. The 304
    handler and the redirect handler open a request of their own from
    inside the last response hook; [fuel] bounds the depth of such
    openings, as the recursion limit of the interpreter does. *)
Fixpoint open (fuel : nat) (req : Request) : M Response :=
  match fuel with
  | O => raise RecursionError
  | S fuel' =>
      bind (process request_hook (request_chain (build_opener handlers)) req)
        (fun req1 =>
           bind (_open req1) (fun resp =>
             process (response_hook (open fuel') req1)
               (response_chain (build_opener handlers)) resp))
  end.

End Director.

End Opener.

(** ** Sample data

    Concrete handlers, requests, responses and stores on which the
    properties below are evaluated. *)

Module Samples.
Import Cache.

Definition url : string := "http://example.com/feed.xml".

Definition no_store : Store := ∅.

Definition plain_request : Request := new_request url ∅.

(** Handlers: [force_min] unset, -1 and -2. *)
Definition honouring : CacheHandler := {| force_min := None; private_cache := false |}.
Definition forced : CacheHandler := {| force_min := Some (-1)%Z; private_cache := false |}.
Definition cache_only : CacheHandler := {| force_min := Some (-2)%Z; private_cache := false |}.

Definition rss_body : list byte := list_byte_of_string "<rss/>".

(** Stand-ins for the generator and the parser of the [email] package,
    which agree with them on the headers of the samples (printable
    ASCII, nothing to fold or to encode): one line [name: value] per
    header, then an empty line; and back. *)
Definition newline : ascii := Text.chr 10.

Fixpoint header_lines (hs : Message) : string :=
  match hs with
  | [] => String newline EmptyString
  | (k, v) :: hs' => k ++ ": " ++ v ++ String newline (header_lines hs')
  end.

Definition write_lines (hs : Message) : result string := Ok (header_lines hs).

Fixpoint read_lines_loop (fuel : nat) (text : string) : Message :=
  match fuel with
  | O => []
  | S fuel' =>
      let '(line, rest) := Text.split1 newline text in
      match line with
      | EmptyString => []
      | _ =>
          let '(k, v) := Text.split1 ":" line in
          (k, Text.lstrip v) :: read_lines_loop fuel' rest
      end
  end.

Definition read_lines (text : string) : Message :=
  read_lines_loop (String.length text) text.

(** A generator that refuses every message, as the library does on a
    value that holds a form feed. *)
Definition write_refused (hs : Message) : result string := Raise HeaderWriteError.

Definition page (code : Z) (msg : string) (headers : Message) : Response :=
  {| resp_code := Some code; resp_msg := Some msg; resp_headers := headers;
     resp_body := rss_body; resp_url := url |}.

(** A page that asks not to be stored. *)
Definition unstorable_page : Response :=
  page 200 "OK" [("Cache-Control", "public, no-store")].

(** A 404 page with a validator, as stored at time 10. *)
Definition stored_404 : CacheRecord :=
  {| rec_code := Some 404%Z; rec_msg := Some "Not Found";
     rec_headers := header_lines [("ETag", "abc")]; rec_data := rss_body;
     rec_timestamp := 10 |}.


(** A 200 page with a validator, as stored at time 10. *)
Definition stored_200 : CacheRecord :=
  {| rec_code := Some 200%Z; rec_msg := Some "OK";
     rec_headers := header_lines [("ETag", "abc")]; rec_data := rss_body;
     rec_timestamp := 10 |}.

Definition store_200 : Store := {[ url := stored_200 ]}.

(** A request that already carries the marker of the 304 replay. *)
Definition marked_request : Request :=
  add_unredirected_header "Morss" "from_304" plain_request.

(** A page whose server sends a header named Morss. *)
Definition meddling_page : Response := page 200 "OK" [("Morss", "x")].

(** A URL whose host holds a no-break space (U+00A0). *)
Definition nbsp_host : Url.pystr :=
  (Url.of_string "a" ++ [160%Z] ++ Url.of_string "b.com")%list.

Definition nbsp_url : Url.pystr :=
  (Url.of_string "http://" ++ nbsp_host ++ Url.of_string "/")%list.

(** Stand-ins for the three library functions of the sanitiser, for
    evaluating it on inputs that do not reach them or reach them at
    [nbsp_host] only: NFKC turns the no-break space into a space, and
    so does the idna codec. *)
Definition nfkc_nbsp (s : Url.pystr) : Url.pystr :=
  map (fun c => if (c =? 160)%Z then 32%Z else c) s.

Definition idna_nbsp (s : Url.pystr) : result (list byte) :=
  Ok (map Url.to_byte (nfkc_nbsp s)).

Definition brackets_refused (s : Url.pystr) : bool := false.

(** More handlers: [force_min] 0 and 30. *)
Definition refreshing : CacheHandler := {| force_min := Some 0%Z; private_cache := false |}.
Definition half_minute : CacheHandler := {| force_min := Some 30%Z; private_cache := false |}.

(** A stand-in for [int] that reads the one value the samples hold. *)
Definition int_60 (s : string) : option Z :=
  if String.eqb s "60" then Some 60%Z else None.

Definition record_at_10 (code : Z) (msg : string) (headers : Message) : CacheRecord :=
  {| rec_code := Some code; rec_msg := Some msg; rec_headers := header_lines headers;
     rec_data := rss_body; rec_timestamp := 10 |}.

(** A permanent redirect that asks not to be stored. *)
Definition stored_301 : CacheRecord :=
  record_at_10 301 "Moved Permanently"
    [("Location", "http://example.com/new"); ("Cache-Control", "no-store")].

Definition store_301 : Store := {[ url := stored_301 ]}.

(** A page with no-store and an unexpired max-age. *)
Definition stored_private : CacheRecord :=
  record_at_10 200 "OK" [("Cache-Control", "no-store, max-age=60")].

Definition store_private : Store := {[ url := stored_private ]}.

(** A page with a max-age of one minute. *)
Definition stored_minute : CacheRecord :=
  record_at_10 200 "OK" [("Cache-Control", "max-age=60"); ("ETag", "abc")].

Definition store_minute : Store := {[ url := stored_minute ]}.

(** A page whose Cache-Control has a directive with an empty value. *)
Definition stored_broken : CacheRecord :=
  record_at_10 200 "OK" [("Cache-Control", "max-age=")].

Definition store_broken : Store := {[ url := stored_broken ]}.

Definition other_url : string := "http://example.com/other".

Definition other_request : Request := new_request other_url ∅.

(** A few operations on the store, all for [url]. *)
Definition some_ops : list Op :=
  [ OpResponse 1 plain_request meddling_page;
    Op304 2 plain_request;
    OpResponse 3 plain_request unstorable_page ].

(** A [CappedDict] with three pages, oldest first. *)
Definition three_pages : @CappedDict.Dict CacheRecord :=
  [ ("http://example.com/a", stored_200);
    ("http://example.com/b", stored_404);
    ("http://example.com/c", stored_301) ].

(** A stand-in for [UnGzip] that drops the first byte, and a response
    that says it is gzipped. *)
Definition ungzip_tail (data : list byte) : result (list byte) := Ok (tail data).

Definition gzipped_page : Response := page 200 "OK" [("Content-Encoding", "gzip")].



(** The world outside: a clock that advances by one second per
    reading from 100 on, a server that answers every request with 304
    Not Modified, a host for every URL, no cookies, no redirect, and
    hooks on 2xx responses that pass them on. *)
Definition clock (n : nat) : Z := (100 + Z.of_nat n)%Z.

Definition not_modified (n : nat) (req : Request) : result Response :=
  Ok {| resp_code := Some 304%Z; resp_msg := Some "Not Modified";
        resp_headers := [("ETag", "abc")]; resp_body := [];
        resp_url := get_full_url req |}.

Definition example_host (url : string) : option string := Some "example.com".

Definition no_cookie (n : nat) (req : Request) : option string := None.

Definition cookies_read (n : nat) (req : Request) (resp : Response) : result unit :=
  Ok tt.

Definition no_redirect (n : nat) (req : Request) (resp : Response)
  : result (option Request) := Ok None.

Definition pass_on {A : Type} (a : A) (resp : Response) : result Response := Ok resp.

Definition pass_on_1 (resp : Response) : result Response := Ok resp.

(** The handlers of [custom_handler()] with a given [delay]. *)
Definition handlers_of (delay : option Z) : list Opener.Handler :=
  default (nil : list Opener.Handler) (Opener.custom_handler "Mozilla/5.0" None delay None).

(** The opener of [custom_handler(delay=delay)] in that world, and its
    state before the first access. *)
Definition opener (delay : option Z) : nat -> Request -> Opener.M Response :=
  Opener.open (fun _ => None) read_lines write_lines ungzip_tail clock not_modified
    example_host no_cookie cookies_read no_redirect pass_on pass_on pass_on_1
    (handlers_of delay).

Definition start (cache : Store) : Opener.State :=
  {| Opener.st_cache := cache; Opener.st_tick := 0 |}.

End Samples.

(** * Properties *)

Import Text HttpList Cache.

(** ** Headers *)






(** ** [load] and [save] *)

Lemma load_present parsestr (cache : Store) url r :
  cache !! url = Some r ->
  load parsestr cache url
  = {| ld_code := rec_code r; ld_msg := rec_msg r;
       ld_headers := message_from_string parsestr (rec_headers r);
       ld_data := rec_data r; ld_timestamp := rec_timestamp r |}.
Proof. unfold load. intros ->. reflexivity. Qed.

Lemma load_absent parsestr (cache : Store) url :
  cache !! url = None ->
  load parsestr cache url
  = {| ld_code := None; ld_msg := None; ld_headers := [];
       ld_data := []; ld_timestamp := 0 |}.
Proof. unfold load. intros ->. reflexivity. Qed.

(** What [save] does to the store: nothing when the headers cannot be
    written, one record otherwise. *)
Lemma save_cases unicode_headers (cache : Store) url code msg headers data timestamp :
  (exists e, unicode_headers headers = Raise e
             /\ save unicode_headers cache url code msg headers data timestamp = Raise e)
  \/ (exists text, unicode_headers headers = Ok text
                   /\ save unicode_headers cache url code msg headers data timestamp
                      = Ok (<[url := {| rec_code := code; rec_msg := msg;
                                        rec_headers := text; rec_data := data;
                                        rec_timestamp := timestamp |}]> cache)).
Proof.
  unfold save. destruct (unicode_headers headers) as [text|e].
  - right. exists text. split; reflexivity.
  - left. exists e. split; reflexivity.
Qed.

(** ** The response hook *)

(** The response hook hands back the response it was given, field for
    field, whatever it does to the store. *)
Lemma http_response_same_response unicode_headers self now (cache : Store) req resp
      cache' resp' :
  http_response unicode_headers self now cache req resp = Ok (cache', resp') ->
  resp' = resp.
Proof.
  unfold http_response.
  destruct (is_code 304 _); [intros [= _ <-]; reflexivity|].
  destruct (_ && forbids_caching _ _); [intros [= _ <-]; reflexivity|].
  destruct (bool_decide _); [intros [= _ <-]; reflexivity|].
  destruct (save _ _ _ _ _ _ _ _) as [c|e]; [|discriminate].
  simpl. intros [= _ <-]. destruct resp; reflexivity.
Qed.

(** The response hook either leaves the store alone or writes the
    record of the request's URL: status, message and body of the
    response, the text of its headers, the time of the hook. *)
Lemma http_response_cases unicode_headers self now (cache : Store) req resp :
  http_response unicode_headers self now cache req resp = Ok (cache, resp)
  \/ (exists e, http_response unicode_headers self now cache req resp = Raise e)
  \/ (exists text,
        unicode_headers (resp_headers resp) = Ok text
        /\ resp_code resp <> Some 304%Z
        /\ msg_get "Morss" (resp_headers resp) <> Some "from_cache"
        /\ http_response unicode_headers self now cache req resp
           = Ok (<[get_full_url req :=
                     {| rec_code := resp_code resp; rec_msg := resp_msg resp;
                        rec_headers := text; rec_data := resp_body resp;
                        rec_timestamp := now |}]> cache, resp)).
Proof.
  unfold http_response. unfold is_code.
  case_bool_decide as H304; [left; reflexivity|].
  destruct (_ && forbids_caching _ _); [left; reflexivity|].
  case_bool_decide as Hm; [left; reflexivity|].
  right. unfold save. destruct (unicode_headers (resp_headers resp)) as [text|e].
  - right. exists text. split; [reflexivity|]. split; [exact H304|].
    split; [exact Hm|]. simpl. destruct resp; reflexivity.
  - left. exists e. reflexivity.
Qed.

(** An item without an equals sign of the first header of either name
    is in the list that the hook tests. *)
Lemma item_in_cc_list name value item hs :
  name = "cache-control" \/ name = "pragma" ->
  msg_get name hs = Some value ->
  item ∈ parse_http_list value ->
  has_char "=" item = false ->
  item ∈ cc_list_of (cache_control_of hs).
Proof.
  intros Hname Hget Hitem Heq. unfold cc_list_of, cache_control_of.
  apply list_elem_of_In, filter_In. split; [|rewrite Heq; reflexivity].
  apply list_elem_of_In, elem_of_app.
  destruct Hname as [-> | ->]; rewrite Hget; [left | right]; exact Hitem.
Qed.




(** ** The open hook *)

Lemma http_open_parsed py_int parsestr self now (cache : Store) req o :
  http_open py_int parsestr self now cache req = Ok o ->
  exists vals,
    parse_keqv_list
      (cc_items_of
         (cache_control_of (ld_headers (load parsestr cache (get_full_url req)))))
    = Ok vals.
Proof.
  unfold http_open.
  destruct (parse_keqv_list _) as [vals|e]; [eauto | discriminate].
Qed.


(** C2, as the code has it: under [force_min == -2] the open hook never
    returns None, so nothing is fetched; a present record whose stored
    Cache-Control and Pragma items parse is answered by the response
    synthesised from it; a missing record is answered by the synthetic
    409 Conflict with the header Morss: from_cache and an empty body,
    unless the request carries the marker Morss: from_304, which the first
    rule of the tree serves before force_min is looked at. *)
Theorem http_open_cache_only py_int parsestr self now (cache : Store) req :
  force_min self = Some (-2)%Z ->
  http_open py_int parsestr self now cache req <> Ok None
  /\ (forall r c vals,
        cache !! get_full_url req = Some r ->
        rec_code r = Some c ->
        parse_keqv_list
          (cc_items_of
             (cache_control_of (message_from_string parsestr (rec_headers r))))
        = Ok vals ->
        http_open py_int parsestr self now cache req
        = Ok (Some {| resp_code := Some c; resp_msg := rec_msg r;
                      resp_headers :=
                        msg_set "morss" "from_cache"
                          (message_from_string parsestr (rec_headers r));
                      resp_body := rec_data r; resp_url := get_full_url req |}))
  /\ (cache !! get_full_url req = None ->
      get_header req "Morss" <> Some "from_304" ->
      http_open py_int parsestr self now cache req
      = Ok (Some {| resp_code := Some 409%Z; resp_msg := Some "Conflict";
                    resp_headers := [("Morss", "from_cache")];
                    resp_body := []; resp_url := get_full_url req |})).
Proof.
  intros Hmin. split; [|split].
  - unfold http_open. destruct (parse_keqv_list _) as [vals|e]; [|discriminate].
    simpl. rewrite Hmin.
    destruct (bool_decide (get_header req "Morss" = Some "from_304")); [discriminate|].
    rewrite bool_decide_eq_true_2 by reflexivity.
    destruct (bool_decide (_ <> None)); discriminate.
  - intros r c vals Hr Hc Hp. unfold http_open.
    rewrite (load_present _ _ _ _ Hr). cbn [ld_headers ld_code ld_msg ld_data ld_timestamp].
    rewrite Hp. simpl. rewrite Hmin, Hc.
    unfold from_cache. simpl.
    destruct (bool_decide (get_header req "Morss" = Some "from_304")); reflexivity.
  - intros Hr Hm. unfold http_open.
    rewrite (load_absent _ _ _ Hr). simpl. rewrite Hmin.
    rewrite (bool_decide_eq_false_2 _ Hm).
    rewrite bool_decide_eq_true_2 by reflexivity.
    reflexivity.
Qed.

Lemma http_open_cache_only_witness :
  http_open (fun _ => None) Samples.read_lines Samples.cache_only 20 Samples.no_store
    Samples.plain_request
  = Ok (Some {| resp_code := Some 409%Z; resp_msg := Some "Conflict";
                resp_headers := [("Morss", "from_cache")];
                resp_body := []; resp_url := Samples.url |})
  /\ http_open (fun _ => None) Samples.read_lines Samples.cache_only 20 Samples.store_200
       Samples.plain_request
     = Ok (Some {| resp_code := Some 200%Z; resp_msg := Some "OK";
                   resp_headers := [("ETag", "abc"); ("morss", "from_cache")];
                   resp_body := Samples.rss_body; resp_url := Samples.url |}).
Proof.
  split.
  - apply (http_open_cache_only (fun _ => None) Samples.read_lines Samples.cache_only 20
             Samples.no_store Samples.plain_request eq_refl).
    + reflexivity.
    + vm_compute. discriminate.
  - apply (proj1 (proj2 (http_open_cache_only (fun _ => None) Samples.read_lines
                           Samples.cache_only 20
                           Samples.store_200 Samples.plain_request eq_refl))
             Samples.stored_200 200%Z ∅); reflexivity.
Defined.

(** C2 as stated fails on a request that carries Morss: from_304 while no
    record is stored: under [force_min == -2] the hook answers, but with
    the response built from the absent record, whose status is None, and
    not with a 409. *)
Lemma http_open_cache_only_marked_request :
  exists resp,
    (forall py_int parsestr,
        http_open py_int parsestr Samples.cache_only 20 Samples.no_store
          Samples.marked_request
        = Ok (Some resp))
    /\ Samples.no_store !! get_full_url Samples.marked_request = None
    /\ resp_code resp = None
    /\ resp_msg resp = None
    /\ resp_code resp <> Some 409%Z.
Proof.
  exists {| resp_code := None; resp_msg := None;
            resp_headers := [("morss", "from_cache")];
            resp_body := []; resp_url := Samples.url |}.
  split; [|split; [|split; [|split]]]; try reflexivity.
  discriminate.
Qed.

(** ** The 304 handler *)

(** C10: when the 304 handler finds no record for the URL (the loaded
    code is None), it saves nothing, builds no request to replay and
    returns None, which leaves the 304 to the next handler. *)
Theorem http_error_304_without_record parsestr unicode_headers now (cache : Store) req :
  ld_code (load parsestr cache (get_full_url req)) = None ->
  http_error_304 parsestr unicode_headers now cache req = Ok (cache, None).
Proof.
  intros H. unfold http_error_304. rewrite H. reflexivity.
Qed.

Lemma http_error_304_without_record_witness :
  http_error_304 Samples.read_lines Samples.write_lines 5 Samples.no_store
    Samples.plain_request
  = Ok (Samples.no_store, None).
Proof.
  apply (http_error_304_without_record Samples.read_lines Samples.write_lines 5
           Samples.no_store Samples.plain_request).
  reflexivity.
Defined.


(** The 304 handler either leaves the store alone or writes the record
    of the request's URL again, with the status that it loaded. *)
Lemma http_error_304_cases parsestr unicode_headers now (cache : Store) req :
  (exists o, http_error_304 parsestr unicode_headers now cache req = Ok (cache, o))
  \/ (exists e, http_error_304 parsestr unicode_headers now cache req = Raise e)
  \/ (exists r text new,
        cache !! get_full_url req = Some r
        /\ http_error_304 parsestr unicode_headers now cache req
           = Ok (<[get_full_url req :=
                     {| rec_code := rec_code r; rec_msg := rec_msg r;
                        rec_headers := text; rec_data := rec_data r;
                        rec_timestamp := now |}]> cache, Some new)).
Proof.
  unfold http_error_304, load.
  destruct (cache !! get_full_url req) as [r|] eqn:Hr; simpl.
  - destruct (truthy (rec_code r)); [|left; eauto].
    unfold save. destruct (unicode_headers _) as [text|e]; simpl.
    + right. right. eauto.
    + right. left. eauto.
  - left. eauto.
Qed.




(** ** What the hooks never store *)

(** X10: the two writing hooks never store a 304: the response hook
    returns early on that status, and the 304 handler saves the status it
    loaded. A store free of 304 records stays so under every sequence of
    operations, failed saves included. *)
Lemma run_never_304 parsestr unicode_headers self ops (cache : Store) :
  never_304 cache -> never_304 (run parsestr unicode_headers self cache ops).
Proof.
  revert cache. induction ops as [|op ops IH]; intros cache Hinv; [exact Hinv|].
  apply IH. destruct op as [now req resp|now req]; simpl.
  - destruct (http_response_cases unicode_headers self now cache req resp)
      as [E|[[e E]|(text & _ & H304 & _ & E)]]; rewrite E; simpl; try exact Hinv.
    intros url r Hr. destruct (decide (get_full_url req = url)) as [<-|Hne].
    + rewrite lookup_insert_eq in Hr. injection Hr as <-. exact H304.
    + rewrite lookup_insert_ne in Hr by exact Hne. eapply Hinv, Hr.
  - destruct (http_error_304_cases parsestr unicode_headers now cache req)
      as [[o E]|[[e E]|(r0 & text & new & Hr0 & E)]]; rewrite E; simpl; try exact Hinv.
    intros url r Hr. destruct (decide (get_full_url req = url)) as [<-|Hne].
    + rewrite lookup_insert_eq in Hr. injection Hr as <-. simpl. eapply Hinv, Hr0.
    + rewrite lookup_insert_ne in Hr by exact Hne. eapply Hinv, Hr.
Qed.

(** ** The marker Morss: from_cache and the store *)

(** C4 fails on the code. A page whose server sends a header named Morss
    is stored with it; the next request is answered from the store, with
    morss: from_cache appended after the server's header; the response
    hook reads the first Morss header, finds the server's value, takes the
    response for a fresh one and saves it: the text of the stored headers
    now holds the line morss: from_cache, and the headers that the next
    load parses hold the marker. The four hypotheses are what the
    generator and the parser of the [email] package return on these
    headers. *)
Theorem from_cache_marker_stored py_int parsestr unicode_headers :
  let nl := String Samples.newline EmptyString in
  let text1 := "Morss: x" ++ nl ++ nl in
  let text2 := "Morss: x" ++ nl ++ "morss: from_cache" ++ nl ++ nl in
  unicode_headers [("Morss", "x")] = Ok text1 ->
  parsestr text1 = [("Morss", "x")] ->
  unicode_headers [("Morss", "x"); ("morss", "from_cache")] = Ok text2 ->
  parsestr text2 = [("Morss", "x"); ("morss", "from_cache")] ->
  exists cache1 cache2 resp r,
    http_response unicode_headers Samples.forced 1 Samples.no_store
      Samples.plain_request Samples.meddling_page
    = Ok (cache1, Samples.meddling_page)
    /\ http_open py_int parsestr Samples.forced 2 cache1
         (http_request parsestr cache1 Samples.plain_request)
       = Ok (Some resp)
    /\ resp_headers resp = [("Morss", "x"); ("morss", "from_cache")]
    /\ http_response unicode_headers Samples.forced 3 cache1
         (http_request parsestr cache1 Samples.plain_request) resp
       = Ok (cache2, resp)
    /\ cache2 !! Samples.url = Some r
    /\ rec_headers r = text2
    /\ has_header "Morss" "from_cache"
         (ld_headers (load parsestr cache2 Samples.url)).
Proof.
  intros nl text1 text2 Hw1 Hr1 Hw2 Hr2.
  set (rec1 := {| rec_code := Some 200%Z; rec_msg := Some "OK";
                  rec_headers := text1; rec_data := Samples.rss_body;
                  rec_timestamp := 1 |}).
  set (rec2 := {| rec_code := Some 200%Z; rec_msg := Some "OK";
                  rec_headers := text2; rec_data := Samples.rss_body;
                  rec_timestamp := 3 |}).
  set (resp := {| resp_code := Some 200%Z; resp_msg := Some "OK";
                  resp_headers := [("Morss", "x"); ("morss", "from_cache")];
                  resp_body := Samples.rss_body; resp_url := Samples.url |}).
  assert (Hm1 : message_from_string parsestr text1 = [("Morss", "x")]) by exact Hr1.
  assert (Hm2 : message_from_string parsestr text2
                = [("Morss", "x"); ("morss", "from_cache")]) by exact Hr2.
  assert (Hload1 : load parsestr {[ Samples.url := rec1 ]} Samples.url
                   = {| ld_code := Some 200%Z; ld_msg := Some "OK";
                        ld_headers := [("Morss", "x")];
                        ld_data := Samples.rss_body; ld_timestamp := 1 |}).
  { rewrite (load_present parsestr _ _ rec1) by apply lookup_singleton_eq.
    change (rec_headers rec1) with text1. rewrite Hm1. reflexivity. }
  assert (Hreq : http_request parsestr {[ Samples.url := rec1 ]} Samples.plain_request
                 = Samples.plain_request).
  { unfold http_request.
    change (get_full_url Samples.plain_request) with Samples.url.
    rewrite Hload1. reflexivity. }
  exists {[ Samples.url := rec1 ]}, (<[Samples.url := rec2]> {[ Samples.url := rec1 ]}),
    resp, rec2.
  split; [|split; [|split; [|split; [|split; [|split]]]]].
  - unfold http_response, save. simpl. rewrite Hw1. reflexivity.
  - rewrite Hreq. unfold http_open.
    change (get_full_url Samples.plain_request) with Samples.url.
    rewrite Hload1. reflexivity.
  - reflexivity.
  - rewrite Hreq. unfold http_response, save. simpl. rewrite Hw2. reflexivity.
  - apply lookup_insert_eq.
  - reflexivity.
  - rewrite (load_present parsestr _ _ rec2) by apply lookup_insert_eq.
    change (rec_headers rec2) with text2. cbn [ld_headers]. rewrite Hm2.
    exists "morss". split; [|reflexivity].
    apply list_elem_of_In. simpl. tauto.
Qed.

Lemma from_cache_marker_stored_witness :
  exists cache2 r,
    cache2 !! Samples.url = Some r
    /\ rec_headers r
       = Samples.header_lines [("Morss", "x"); ("morss", "from_cache")]
    /\ has_header "Morss" "from_cache"
         (ld_headers (load Samples.read_lines cache2 Samples.url)).
Proof.
  destruct (from_cache_marker_stored (fun _ => None) Samples.read_lines Samples.write_lines
              eq_refl eq_refl eq_refl eq_refl)
    as (cache1 & cache2 & resp & r & _ & _ & _ & _ & Hr & Ht & Hh).
  exists cache2, r. split; [exact Hr|]. split; [exact Ht|exact Hh].
Defined.

(** ** The size limit *)

(** C9, with the value the code computes: the default argument
    [5*1024^2] is (5*1024) XOR 2, which is 5122, and a handler built
    without an argument keeps at most that many bytes of a body. *)
Theorem default_limit_value :
  SizeLimit.default_limit = Z.lxor (5 * 1024) 2
  /\ SizeLimit.default_limit = 5122%Z
  /\ forall resp,
       Z.of_nat (List.length
                   (resp_body (SizeLimit.http_response SizeLimit.default_limit resp)))
       = Z.min 5122 (Z.of_nat (List.length (resp_body resp))).
Proof.
  split; [reflexivity|]. split; [reflexivity|].
  intros resp. unfold SizeLimit.http_response, SizeLimit.read. simpl resp_body.
  change (SizeLimit.default_limit <? 0)%Z with false. cbv iota.
  rewrite length_take, Nat2Z.inj_min, Z2Nat.id by (vm_compute; discriminate).
  reflexivity.
Qed.

(** C9 as stated names 5114: the default is another number, and a body
    of 5122 bytes passes the default handler whole. *)
Lemma default_limit_is_not_5114 :
  (SizeLimit.default_limit =? 5114)%Z = false
  /\ Z.of_nat (List.length
                 (SizeLimit.read SizeLimit.default_limit
                    (replicate (Z.to_nat 5122) x00))) = 5122%Z.
Proof. split; vm_compute; reflexivity. Qed.

(** ** The encoding detector *)

Import Encoding.

(** *** The two byte patterns *)

Lemma strip_prefix_app key data rest :
  strip_prefix key data = Some rest <-> data = (key ++ rest)%list.
Proof.
  revert data. induction key as [|k key IH]; intros data; simpl.
  - split; [intros [= ->]; reflexivity | intros ->; reflexivity].
  - destruct data as [|d data]; [split; discriminate|].
    destruct (Byte.eqb k d) eqn:E.
    + apply Byte.byte_dec_bl in E. subst d. rewrite IH.
      split; [intros ->; reflexivity | intros [= ->]; reflexivity].
    + split; [discriminate|]. intros [= -> _].
      rewrite (Byte.byte_dec_lb (x:=k) (y:=k) eq_refl) in E. discriminate.
Qed.

Lemma take_while_run f l g :
  take_while f l = g
  <-> exists rest,
        l = (g ++ rest)%list /\ forallb f g = true
        /\ match rest with [] => True | b :: _ => f b = false end.
Proof.
  revert g. induction l as [|b l IH]; intros g; simpl.
  - split.
    + intros <-. exists []. auto.
    + intros (rest & H & _). symmetry in H.
      apply app_eq_nil in H as [-> _]. reflexivity.
  - destruct (f b) eqn:E.
    + split.
      * intros <-. destruct (proj1 (IH _) eq_refl) as (rest & Hl & Hg & Hr).
        exists rest. simpl. rewrite E, Hg. rewrite <- Hl. auto.
      * intros (rest & Hl & Hg & Hr). destruct g as [|c g].
        -- simpl in Hl. subst rest. congruence.
        -- simpl in Hl. injection Hl as <- Hl. simpl in Hg.
           apply andb_true_iff in Hg as [_ Hg].
           f_equal. apply IH. eauto.
    + split.
      * intros <-. exists (b :: l). auto.
      * intros (rest & Hl & Hg & Hr). destruct g as [|c g]; [reflexivity|].
        simpl in Hl. injection Hl as <- _. simpl in Hg. rewrite E in Hg. discriminate.
Qed.

Lemma quote_is_no_label b : is_quote_byte b = true -> is_label_byte b = false.
Proof. destruct b; vm_compute; congruence. Qed.

Lemma elem_of_bytes b (l : list byte) : b ∈ l <-> existsb (Byte.eqb b) l = true.
Proof.
  rewrite list_elem_of_In, existsb_exists. split.
  - intros H. exists b. split; [exact H|]. apply Byte.byte_dec_lb. reflexivity.
  - intros (x & Hx & E). apply Byte.byte_dec_bl in E. subst x. exact Hx.
Qed.

(** The two tests of the matcher decide the two classes. *)
Lemma is_label_byte_class b : is_label_byte b = true <-> b ∈ label_class.
Proof.
  rewrite elem_of_bytes.
  assert (E : is_label_byte b = existsb (Byte.eqb b) label_class)
    by (destruct b; reflexivity).
  rewrite E. reflexivity.
Qed.

Lemma is_quote_byte_class b : is_quote_byte b = true <-> b ∈ quote_class.
Proof.
  rewrite elem_of_bytes.
  assert (E : is_quote_byte b = existsb (Byte.eqb b) quote_class)
    by (destruct b; reflexivity).
  rewrite E. reflexivity.
Qed.

Lemma forallb_label_class g :
  forallb is_label_byte g = true <-> Forall (fun b => b ∈ label_class) g.
Proof.
  rewrite forallb_forall, Forall_forall. split.
  - intros H b Hb. apply is_label_byte_class, H, list_elem_of_In, Hb.
  - intros H b Hb. apply is_label_byte_class, H, list_elem_of_In, Hb.
Qed.

(** The relation of the pattern, with the classes tested. *)
Lemma pattern_match_tests key data g :
  pattern_match key data g
  <-> exists q rest,
        data = (key ++ q ++ g ++ rest)%list
        /\ (q = [] \/ exists b, q = [b] /\ is_quote_byte b = true)
        /\ g <> []
        /\ forallb is_label_byte g = true
        /\ match rest with
           | [] => True
           | b :: _ => is_label_byte b = false
           end.
Proof.
  unfold pattern_match. split.
  - intros (q & rest & Hd & Hq & Hne & Hg & Hr). exists q, rest.
    split; [exact Hd|]. split.
    { destruct Hq as [->|(b & -> & Hb)]; [left; reflexivity|].
      right. exists b. split; [reflexivity|]. apply is_quote_byte_class, Hb. }
    split; [exact Hne|]. split; [apply forallb_label_class, Hg|].
    destruct rest as [|b rest]; [exact I|].
    destruct (is_label_byte b) eqn:E; [|reflexivity].
    apply is_label_byte_class in E. contradiction.
  - intros (q & rest & Hd & Hq & Hne & Hg & Hr). exists q, rest.
    split; [exact Hd|]. split.
    { destruct Hq as [->|(b & -> & Hb)]; [left; reflexivity|].
      right. exists b. split; [reflexivity|]. apply is_quote_byte_class, Hb. }
    split; [exact Hne|]. split; [apply forallb_label_class, Hg|].
    destruct rest as [|b rest]; [exact I|].
    intros Hb. apply is_label_byte_class in Hb. congruence.
Qed.

(** [match_here] decides the pattern at the head of the data. *)
Lemma match_here_pattern key data g :
  match_here key data = Some g <-> pattern_match key data g.
Proof.
  rewrite pattern_match_tests. unfold match_here. split.
  - destruct (strip_prefix key data) as [rest|] eqn:Ek; [|discriminate].
    apply strip_prefix_app in Ek. subst data.
    destruct rest as [|q rest'']; [simpl; discriminate|].
    destruct (is_quote_byte q) eqn:Eq.
    + destruct (take_while is_label_byte rest'') as [|c g0] eqn:Et; [discriminate|].
      intros [= <-]. apply take_while_run in Et as (tl & Hl & Hg & Ht).
      exists [q], tl. rewrite Hl. split; [reflexivity|].
      split; [right; eauto|]. split; [discriminate|]. auto.
    + destruct (take_while is_label_byte (q :: rest'')) as [|c g0] eqn:Et; [discriminate|].
      intros [= <-]. apply take_while_run in Et as (tl & Hl & Hg & Ht).
      exists [], tl. rewrite Hl. split; [reflexivity|].
      split; [left; reflexivity|]. split; [discriminate|]. auto.
  - intros (q & tl & -> & Hq & Hne & Hg & Ht).
    rewrite (proj2 (strip_prefix_app key _ _) eq_refl).
    assert (Et : take_while is_label_byte (g ++ tl) = g)
      by (apply take_while_run; eauto).
    destruct g as [|c g]; [contradiction|].
    assert (Hc : is_label_byte c = true).
    { simpl in Hg. apply andb_true_iff in Hg as [Hc _]. exact Hc. }
    destruct Hq as [->|(b & -> & Hb)]; cbn [app].
    + destruct (is_quote_byte c) eqn:Eq.
      * apply quote_is_no_label in Eq. congruence.
      * change (c :: (g ++ tl)%list) with ((c :: g) ++ tl)%list.
        rewrite Et. reflexivity.
    + rewrite Hb. change (c :: (g ++ tl)%list) with ((c :: g) ++ tl)%list.
      rewrite Et. reflexivity.
Qed.

(** The group the pattern yields at a position is unique. *)
Lemma pattern_match_unique key data g g' :
  pattern_match key data g -> pattern_match key data g' -> g = g'.
Proof.
  intros H H'. apply match_here_pattern in H, H'. congruence.
Qed.

(** [re_search] yields the group of the leftmost position at which the
    pattern matches ([key], an optional quote, the longest run of
    [[0-9a-zA-Z-]]). *)
Lemma re_search_leftmost key data g :
  re_search key data = Some g
  <-> exists pre post,
        data = (pre ++ post)%list
        /\ pattern_match key post g
        /\ forall pre' post' g',
             data = (pre' ++ post')%list ->
             (List.length pre' < List.length pre)%nat ->
             ~ pattern_match key post' g'.
Proof.
  revert g. induction data as [|d data IH]; intros g.
  - simpl. destruct (match_here key []) as [g0|] eqn:E.
    + split.
      * intros [= <-]. exists [], []. split; [reflexivity|].
        split; [apply match_here_pattern, E|]. intros ? ? ? _ Hlt. simpl in Hlt. lia.
      * intros (pre & post & Hd & Hm & _). symmetry in Hd.
        apply app_eq_nil in Hd as [-> ->].
        apply match_here_pattern in Hm. congruence.
    + split; [discriminate|].
      intros (pre & post & Hd & Hm & _). symmetry in Hd.
      apply app_eq_nil in Hd as [-> ->].
      apply match_here_pattern in Hm. congruence.
  - simpl. destruct (match_here key (d :: data)) as [g0|] eqn:E.
    + split.
      * intros [= <-]. exists [], (d :: data). split; [reflexivity|].
        split; [apply match_here_pattern, E|]. intros ? ? ? _ Hlt. simpl in Hlt. lia.
      * intros (pre & post & Hd & Hm & Hleft). destruct pre as [|p pre].
        -- simpl in Hd. subst post. apply match_here_pattern in Hm. congruence.
        -- exfalso. apply (Hleft [] (d :: data) g0); [reflexivity | simpl; lia|].
           apply match_here_pattern, E.
    + rewrite IH. split.
      * intros (pre & post & Hd & Hm & Hleft). exists (d :: pre), post.
        split; [simpl; congruence|]. split; [exact Hm|].
        intros pre' post' g' Hd' Hlt Hm'. destruct pre' as [|p' pre'].
        -- simpl in Hd'. subst post'. apply match_here_pattern in Hm'. congruence.
        -- simpl in Hd'. injection Hd' as -> Hd'.
           apply (Hleft pre' post' g' Hd'); [simpl in Hlt; lia | exact Hm'].
      * intros (pre & post & Hd & Hm & Hleft). destruct pre as [|p pre].
        -- simpl in Hd. subst post. apply match_here_pattern in Hm. congruence.
        -- simpl in Hd. injection Hd as -> Hd. exists pre, post.
           split; [exact Hd|]. split; [exact Hm|].
           intros pre' post' g' Hd' Hlt.
           apply (Hleft (p :: pre') post' g'); [simpl; congruence | simpl; lia].
Qed.

(** [re_search] finds nothing exactly when the pattern matches at no
    position. *)
Lemma re_search_none key data :
  re_search key data = None
  <-> forall pre post g, data = (pre ++ post)%list -> ~ pattern_match key post g.
Proof.
  induction data as [|d data IH]; simpl.
  - destruct (match_here key []) as [g0|] eqn:E.
    + split; [discriminate|]. intros H. exfalso.
      apply (H [] [] g0 eq_refl). apply match_here_pattern, E.
    + split; [|reflexivity]. intros _ pre post g Hd Hm. symmetry in Hd.
      apply app_eq_nil in Hd as [-> ->]. apply match_here_pattern in Hm. congruence.
  - destruct (match_here key (d :: data)) as [g0|] eqn:E.
    + split; [discriminate|]. intros H. exfalso.
      apply (H [] (d :: data) g0 eq_refl). apply match_here_pattern, E.
    + rewrite IH. split.
      * intros H pre post g Hd Hm. destruct pre as [|p pre].
        -- simpl in Hd. subst post. apply match_here_pattern in Hm. congruence.
        -- simpl in Hd. injection Hd as -> Hd. apply (H pre post g Hd Hm).
      * intros H pre post g Hd. apply (H (d :: pre) post g). simpl. congruence.
Qed.

Lemma lower_label_byte_char b :
  is_label_byte b = true ->
  ascii_of_byte (lower_byte b) = lower_char (ascii_of_byte b).
Proof. destruct b; vm_compute; congruence. Qed.

(** On a group of the class the lower-casing of bytes and that of text
    agree. *)
Lemma label_of_lower g :
  forallb is_label_byte g = true -> label_of g = lower (string_of_list_byte g).
Proof.
  unfold label_of. induction g as [|b g IH]; [reflexivity|].
  intros H. apply andb_true_iff in H as [Hb Hg].
  change (String (ascii_of_byte (lower_byte b)) (string_of_list_byte (map lower_byte g))
          = String (lower_char (ascii_of_byte b)) (lower (string_of_list_byte g))).
  rewrite (lower_label_byte_char b Hb), (IH Hg). reflexivity.
Qed.

Lemma pattern_match_class key data g :
  pattern_match key data g -> forallb is_label_byte g = true.
Proof.
  intros H. apply pattern_match_tests in H as (q & rest & _ & _ & _ & Hg & _).
  exact Hg.
Qed.

Lemma first_bytes_take n data part :
  first_bytes n data part <-> part = take n data.
Proof.
  split.
  - intros (rest & -> & Hlen). rewrite length_app in Hlen.
    destruct (Nat.le_gt_cases n (List.length part + List.length rest)) as [Hle|Hgt].
    + rewrite Nat.min_l in Hlen by exact Hle. subst n.
      rewrite take_app_length. reflexivity.
    + rewrite Nat.min_r in Hlen by lia.
      assert (Hr : rest = []) by (apply length_zero_iff_nil; lia). subst rest.
      rewrite app_nil_r. rewrite take_ge by lia. reflexivity.
  - intros ->. exists (drop n data). split; [symmetry; apply take_drop|].
    apply length_take.
Qed.

Lemma last_bytes_drop n data part :
  last_bytes n data part <-> part = drop (List.length data - n) data.
Proof.
  split.
  - intros (rest & -> & Hlen). rewrite length_app in Hlen |- *.
    destruct (Nat.le_gt_cases n (List.length rest + List.length part)) as [Hle|Hgt].
    + rewrite Nat.min_l in Hlen by exact Hle. subst n.
      replace (List.length rest + List.length part - List.length part)%nat
        with (List.length rest) by lia.
      rewrite drop_app_length. reflexivity.
    + rewrite Nat.min_r in Hlen by lia.
      assert (Hr : rest = []) by (apply length_zero_iff_nil; lia). subst rest.
      simpl. replace (List.length part - n)%nat with 0%nat by lia. reflexivity.
  - intros ->. exists (take (List.length data - n) data).
    split; [symmetry; apply take_drop|]. rewrite length_drop. lia.
Qed.

Lemma re_search_leftmost_match key text g :
  re_search (bytes_of key) text = Some g <-> leftmost_match key text g.
Proof. apply re_search_leftmost. Qed.

Lemma re_search_no_match key text :
  re_search (bytes_of key) text = None <-> no_match key text.
Proof. apply re_search_none. Qed.

Lemma leftmost_match_class key text g :
  leftmost_match key text g -> forallb is_label_byte g = true.
Proof. intros (pre & post & _ & Hm & _). eapply pattern_match_class, Hm. Qed.

Lemma leftmost_not_no_match key text g :
  leftmost_match key text g -> no_match key text -> False.
Proof.
  intros Hm Hn. apply re_search_leftmost_match in Hm.
  apply re_search_no_match in Hn. congruence.
Qed.

(** The six stages decide the label on the head and the tail of the
    body as the detector does. *)
Lemma stages_decide parse_header chardet_detect head tail resp label :
  stages parse_header chardet_detect head tail resp label
  <-> label
      = match charset_header resp with
        | Some enc => enc
        | None =>
            match content_type_charset parse_header resp with
            | Some enc => enc
            | None =>
                match re_search (bytes_of "charset=") head with
                | Some g => label_of g
                | None =>
                    match re_search (bytes_of "encoding=") head with
                    | Some g => label_of g
                    | None =>
                        match chardet_detect tail with
                        | Some enc =>
                            if negb (String.eqb enc EmptyString)
                               && negb (String.eqb enc "ascii")
                            then enc else "utf-8"
                        | None => "utf-8"
                        end
                    end
                end
            end
        end.
Proof.
  split.
  - intros H. destruct H as [enc H1|enc H1 H2|g H1 H2 H3|g H1 H2 H3 H4
                            |enc H1 H2 H3 H4 H5 H6 H7|H1 H2 H3 H4 H5];
      rewrite H1; try reflexivity; rewrite H2; try reflexivity.
    + rewrite (proj2 (re_search_leftmost_match _ _ _) H3).
      symmetry. apply label_of_lower. eapply leftmost_match_class, H3.
    + rewrite (proj2 (re_search_no_match _ _) H3).
      rewrite (proj2 (re_search_leftmost_match _ _ _) H4).
      symmetry. apply label_of_lower. eapply leftmost_match_class, H4.
    + rewrite (proj2 (re_search_no_match _ _) H3), (proj2 (re_search_no_match _ _) H4), H5.
      destruct (String.eqb_spec enc EmptyString); [contradiction|].
      destruct (String.eqb_spec enc "ascii"); [contradiction|]. reflexivity.
    + rewrite (proj2 (re_search_no_match _ _) H3), (proj2 (re_search_no_match _ _) H4).
      destruct (chardet_detect tail) as [enc|]; [|reflexivity].
      destruct (H5 enc eq_refl) as [-> | ->]; reflexivity.
  - intros ->.
    destruct (charset_header resp) as [enc|] eqn:H1; [apply by_charset_header, H1|].
    destruct (content_type_charset parse_header resp) as [enc|] eqn:H2;
      [apply by_content_type; assumption|].
    destruct (re_search (bytes_of "charset=") head) as [g|] eqn:H3.
    { apply re_search_leftmost_match in H3.
      rewrite (label_of_lower g (leftmost_match_class _ _ _ H3)).
      apply by_charset_pattern; assumption. }
    apply re_search_no_match in H3.
    destruct (re_search (bytes_of "encoding=") head) as [g|] eqn:H4.
    { apply re_search_leftmost_match in H4.
      rewrite (label_of_lower g (leftmost_match_class _ _ _ H4)).
      apply by_encoding_pattern; assumption. }
    apply re_search_no_match in H4.
    destruct (chardet_detect tail) as [enc|] eqn:H5.
    + destruct (String.eqb_spec enc EmptyString) as [->|Hne].
      { apply by_default; try assumption. intros enc. rewrite H5. intros [= <-]. auto. }
      destruct (String.eqb_spec enc "ascii") as [->|Ha].
      { apply by_default; try assumption. intros enc. rewrite H5. intros [= <-]. auto. }
      apply by_statistics; assumption.
    + apply by_default; try assumption. intros enc. rewrite H5. discriminate.
Qed.

(** C5: [detect_raw_encoding] yields exactly the label of the waterfall
    of six stages in the stated order, the first hit winning: the
    charset header; the charset parameter of Content-Type; the group of
    the leftmost match of the pattern charset=, an optional quote and a
    run of [[0-9a-zA-Z-]], in the first 1000 bytes of the body,
    lower-cased; the same with encoding=; the statistical detection on
    the last 2000 bytes when it names an encoding other than ascii; and
    utf-8 otherwise. *)
Theorem detect_raw_encoding_waterfall parse_header chardet_detect data resp label :
  detect_raw_encoding parse_header chardet_detect data resp = label
  <-> waterfall parse_header chardet_detect data resp label.
Proof.
  assert (Hcode : detect_raw_encoding parse_header chardet_detect data resp
                  = match charset_header resp with
                    | Some enc => enc
                    | None =>
                        match content_type_charset parse_header resp with
                        | Some enc => enc
                        | None =>
                            match re_search (bytes_of "charset=") (take 1000 data) with
                            | Some g => label_of g
                            | None =>
                                match re_search (bytes_of "encoding=") (take 1000 data) with
                                | Some g => label_of g
                                | None =>
                                    match chardet_detect
                                            (drop (List.length data - 2000) data) with
                                    | Some enc =>
                                        if negb (String.eqb enc EmptyString)
                                           && negb (String.eqb enc "ascii")
                                        then enc else "utf-8"
                                    | None => "utf-8"
                                    end
                                end
                            end
                        end
                    end).
  { unfold detect_raw_encoding, charset_header, content_type_charset, head_1000, tail_2000.
    destruct resp as [r|]; [|reflexivity].
    destruct (msg_get "charset" (resp_headers r)); [reflexivity|].
    destruct (_ !! "charset"); reflexivity. }
  unfold waterfall. split.
  - intros <-. exists (take 1000 data), (drop (List.length data - 2000) data).
    split; [apply first_bytes_take; reflexivity|].
    split; [apply last_bytes_drop; reflexivity|].
    apply stages_decide. exact Hcode.
  - intros (head & tail & Hh & Ht & Hs).
    apply first_bytes_take in Hh. apply last_bytes_drop in Ht. subst head tail.
    apply stages_decide in Hs. rewrite Hcode. symmetry. exact Hs.
Qed.

(** C6: when the raw waterfall yields gb2312 in any letter case,
    [detect_encoding] returns gbk; on every other label it returns the
    raw label unchanged. *)
Theorem detect_encoding_gb2312 parse_header chardet_detect data resp :
  (lower (detect_raw_encoding parse_header chardet_detect data resp) = "gb2312" ->
   detect_encoding parse_header chardet_detect data resp = "gbk")
  /\ (lower (detect_raw_encoding parse_header chardet_detect data resp) <> "gb2312" ->
      detect_encoding parse_header chardet_detect data resp
      = detect_raw_encoding parse_header chardet_detect data resp).
Proof.
  unfold detect_encoding. cbv zeta.
  destruct (String.eqb_spec
              (lower (detect_raw_encoding parse_header chardet_detect data resp))
              "gb2312") as [E|E]; split; intros H; try reflexivity; contradiction.
Qed.

(** ** The URL sanitiser *)

Import Url.

(** C7 fails on the code. The space is escaped before the parts are
    encoded, and the idna codec turns a no-break space of the host into a
    plain space (it normalises with NFKC). The sanitised URL then holds a
    space, which a second pass escapes: the two results differ. The two
    hypotheses are what Python's [unicodedata] and idna codec do on this
    host. *)
Theorem sanitize_url_twice_nbsp nfkc bracketed_netloc_ok idna_encode :
  nfkc Samples.nbsp_host = of_string "a b.com" ->
  idna_encode Samples.nbsp_host = Ok (list_byte_of_string "a b.com") ->
  sanitize_url nfkc bracketed_netloc_ok idna_encode (Str Samples.nbsp_url)
  = Ok (of_string "http://a b.com/")
  /\ sanitize_url nfkc bracketed_netloc_ok idna_encode (Str (of_string "http://a b.com/"))
     = Ok (of_string "http://a%20b.com/")
  /\ of_string "http://a b.com/" <> of_string "http://a%20b.com/".
Proof.
  intros Hn Hi.
  assert (Hc : checknetloc nfkc Samples.nbsp_host = Ok tt).
  { unfold checknetloc.
    change (str_eqb Samples.nbsp_host [] || is_ascii Samples.nbsp_host) with false.
    cbv iota.
    change (List.filter _ Samples.nbsp_host) with Samples.nbsp_host.
    rewrite Hn. reflexivity. }
  assert (Hparse : urlparse nfkc bracketed_netloc_ok (prepare Samples.nbsp_url)
                   = Ok {| scheme := of_string "http"; netloc := Samples.nbsp_host;
                           path := of_string "/"; params := []; query := [];
                           fragment := [] |}).
  { change (prepare Samples.nbsp_url) with Samples.nbsp_url.
    unfold urlparse, urlsplit.
    change (split_components bracketed_netloc_ok Samples.nbsp_url)
      with (Ok {| sp_scheme := of_string "http"; sp_netloc := Samples.nbsp_host;
                  sp_path := of_string "/"; sp_query := []; sp_fragment := [] |}).
    unfold mbind, result_bind, rbind. simpl sp_netloc. rewrite Hc. reflexivity. }
  assert (Hhost : escape_part idna_encode 1 Samples.nbsp_host
                  = Ok (of_string "a b.com")).
  { unfold escape_part.
    change (negb (is_ascii Samples.nbsp_host)) with true. cbv iota.
    change (1 =? 1)%nat with true. cbv iota.
    rewrite Hi. reflexivity. }
  split; [|split].
  - unfold sanitize_url. simpl to_text.
    change (Ok Samples.nbsp_url ≫= ?k) with (k Samples.nbsp_url). cbv beta.
    rewrite Hparse.
    match goal with |- Ok ?x ≫= ?k = _ => change (Ok x ≫= k) with (k x) end.
    cbv beta. simpl netloc. rewrite Hhost. vm_compute. reflexivity.
  - vm_compute. reflexivity.
  - vm_compute. discriminate.
Qed.

Lemma sanitize_url_twice_nbsp_witness :
  sanitize_url Samples.nfkc_nbsp Samples.brackets_refused Samples.idna_nbsp
    (Str Samples.nbsp_url)
  = Ok (of_string "http://a b.com/")
  /\ sanitize_url Samples.nfkc_nbsp Samples.brackets_refused Samples.idna_nbsp
       (Str (of_string "http://a b.com/"))
     = Ok (of_string "http://a%20b.com/")
  /\ of_string "http://a b.com/" <> of_string "http://a%20b.com/".
Proof.
  apply (sanitize_url_twice_nbsp Samples.nfkc_nbsp Samples.brackets_refused
           Samples.idna_nbsp); reflexivity.
Defined.

(** C8 as stated fails: a byte sequence that is not UTF-8 makes
    [url.decode()] raise, whatever the codecs further down would do. *)
Lemma sanitize_url_raises_on_bad_utf8 :
  exists e,
    forall nfkc bracketed_netloc_ok idna_encode,
      sanitize_url nfkc bracketed_netloc_ok idna_encode (Bytes [xff]) = Raise e.
Proof. exists UnicodeDecodeError. intros. reflexivity. Qed.

(** A [str] of plain ASCII can raise too: an opening bracket without its
    closing one in the host is refused by [urlsplit]. *)
Lemma sanitize_url_raises_on_open_bracket :
  forall nfkc bracketed_netloc_ok idna_encode,
    sanitize_url nfkc bracketed_netloc_ok idna_encode (Str (of_string "http://["))
    = Raise ValueError.
Proof. intros. reflexivity. Qed.

(** *** Where the sanitiser returns *)

Lemma utf8_encode_char_ok c :
  (exists bs, utf8_encode_char c = Ok bs) <-> is_surrogate c = false \/ (c < 2048)%Z.
Proof.
  unfold utf8_encode_char.
  destruct (Z.ltb_spec c 128); [split; [intros _; right; lia | eauto]|].
  destruct (Z.ltb_spec c 2048); [split; [intros _; right; lia | eauto]|].
  destruct (is_surrogate c).
  - split; [intros [bs Hbs]; discriminate | intros [H'|H']; [discriminate | lia]].
  - split; [intros _; left; reflexivity|]. intros _.
    destruct (c <? 65536)%Z; eauto.
Qed.

Lemma surrogate_not_small c : (c < 2048)%Z -> is_surrogate c = false.
Proof.
  intros H. unfold is_surrogate.
  destruct (Z.leb_spec 55296 c); [lia | reflexivity].
Qed.

Lemma utf8_encode_ok p :
  (exists bs, utf8_encode p = Ok bs) <-> existsb is_surrogate p = false.
Proof.
  induction p as [|c p IH]; simpl; [split; eauto|].
  rewrite orb_false_iff, <- IH. split.
  - intros [bs Hbs].
    destruct (utf8_encode_char c) as [b1|] eqn:E1; [|discriminate].
    destruct (utf8_encode p) as [b2|] eqn:E2; [|discriminate].
    split; [|eauto].
    destruct (proj1 (utf8_encode_char_ok c) (ex_intro _ b1 E1)) as [H|H];
      [exact H | apply surrogate_not_small, H].
  - intros [Hc [b2 E2]].
    destruct (proj2 (utf8_encode_char_ok c) (or_introl Hc)) as [b1 E1].
    rewrite E1, E2. simpl. eauto.
Qed.

Lemma ascii_decode_ok bs :
  (exists s, ascii_decode bs = Ok s) <-> forallb (fun b => (byte_val b <? 128)%Z) bs = true.
Proof.
  induction bs as [|b bs IH]; simpl; [split; eauto|].
  rewrite andb_true_iff, <- IH.
  destruct (byte_val b <? 128)%Z.
  - split.
    + intros [s Hs]. destruct (ascii_decode bs) as [r|]; [eauto | discriminate].
    + intros [_ [r Hr]]. rewrite Hr. simpl. eauto.
  - split; [intros [s Hs]; discriminate | intros [H _]; discriminate].
Qed.

Lemma ascii_has_no_surrogate p : is_ascii p = true -> existsb is_surrogate p = false.
Proof.
  induction p as [|c p IH]; simpl; [reflexivity|].
  intros H. apply andb_true_iff in H as [Hc Hp].
  rewrite (IH Hp), orb_false_r. apply surrogate_not_small.
  apply Z.ltb_lt in Hc. lia.
Qed.

(** When one round of the loop over the parts returns: a host is ASCII
    or accepted by the idna codec with an ASCII result; any other part
    holds no lone surrogate. *)
Lemma escape_part_host_ok idna_encode p :
  (exists q, escape_part idna_encode 1 p = Ok q)
  <-> is_ascii p = true
      \/ exists bs, idna_encode p = Ok bs
                    /\ forallb (fun b => (byte_val b <? 128)%Z) bs = true.
Proof.
  unfold escape_part. simpl. destruct (is_ascii p); simpl.
  - split; [intros _; left; reflexivity | eauto].
  - split.
    + intros [q Hq]. right. destruct (idna_encode p) as [bs|]; [|discriminate].
      exists bs. split; [reflexivity|]. apply ascii_decode_ok. eauto.
    + intros [H|[bs [Hbs Ha]]]; [discriminate|].
      rewrite Hbs. simpl. apply ascii_decode_ok, Ha.
Qed.

Lemma escape_part_other_ok idna_encode i p :
  i <> 1%nat ->
  (exists q, escape_part idna_encode i p = Ok q) <-> existsb is_surrogate p = false.
Proof.
  intros Hi. unfold escape_part.
  destruct (Nat.eqb_spec i 1); [contradiction|].
  destruct (is_ascii p) eqn:Ha; simpl.
  - split; [intros _; apply ascii_has_no_surrogate, Ha | eauto].
  - rewrite <- utf8_encode_ok. split.
    + intros [q Hq]. destruct (utf8_encode p) as [bs|]; [eauto | discriminate].
    + intros [bs Hbs]. rewrite Hbs. simpl. eauto.
Qed.

(** C8, as the code has it: [sanitize_url] returns a string exactly on
    the inputs that are a [str] or UTF-8 bytes, whose prepared text
    [urlparse] accepts, whose host is ASCII or accepted by the idna codec,
    and whose other parts hold no lone surrogate. On every other input one
    of these calls raises and the sanitiser lets the exception through. *)
Theorem sanitize_url_returns_iff nfkc bracketed_netloc_ok idna_encode arg :
  (exists s, sanitize_url nfkc bracketed_netloc_ok idna_encode arg = Ok s)
  <-> exists url parts,
        to_text arg = Ok url
        /\ urlparse nfkc bracketed_netloc_ok (prepare url) = Ok parts
        /\ (is_ascii (netloc parts) = true
            \/ exists bs, idna_encode (netloc parts) = Ok bs
                          /\ forallb (fun b => (byte_val b <? 128)%Z) bs = true)
        /\ forallb (fun p => negb (existsb is_surrogate p))
             [scheme parts; path parts; params parts; query parts; fragment parts]
           = true.
Proof.
  unfold sanitize_url.
  destruct (to_text arg) as [url|e]; simpl;
    [|split; [intros [s H]; discriminate | intros (u & p & H & _); discriminate]].
  destruct (urlparse nfkc bracketed_netloc_ok (prepare url)) as [parts|e] eqn:Eparse;
    simpl;
    [|split; [intros [s H]; discriminate
             | intros (u & p & Hu & H & _); injection Hu as <-;
               rewrite Eparse in H; discriminate]].
  pose proof (escape_part_host_ok idna_encode (netloc parts)) as H1.
  pose proof (escape_part_other_ok idna_encode 0 (scheme parts) ltac:(discriminate)) as H0.
  pose proof (escape_part_other_ok idna_encode 2 (path parts) ltac:(discriminate)) as H2.
  pose proof (escape_part_other_ok idna_encode 3 (params parts) ltac:(discriminate)) as H3.
  pose proof (escape_part_other_ok idna_encode 4 (query parts) ltac:(discriminate)) as H4.
  pose proof (escape_part_other_ok idna_encode 5 (fragment parts) ltac:(discriminate)) as H5.
  split.
  - intros [s Hs]. exists url, parts. split; [reflexivity|]. split; [exact Eparse|].
    destruct (escape_part idna_encode 0 (scheme parts)) as [p0|]; [|discriminate].
    destruct (escape_part idna_encode 1 (netloc parts)) as [p1|]; [|discriminate].
    destruct (escape_part idna_encode 2 (path parts)) as [p2|]; [|discriminate].
    destruct (escape_part idna_encode 3 (params parts)) as [p3|]; [|discriminate].
    destruct (escape_part idna_encode 4 (query parts)) as [p4|]; [|discriminate].
    destruct (escape_part idna_encode 5 (fragment parts)) as [p5|]; [|discriminate].
    split; [apply H1; eauto|].
    simpl. rewrite (proj1 H0), (proj1 H2), (proj1 H3), (proj1 H4), (proj1 H5) by eauto.
    reflexivity.
  - intros (u & p & Hu & Hp & Hhost & Hrest).
    injection Hu as <-. rewrite Eparse in Hp. injection Hp as <-.
    simpl in Hrest. rewrite !andb_true_iff, !negb_true_iff in Hrest.
    destruct Hrest as (R0 & R2 & R3 & R4 & R5 & _).
    destruct (proj2 H0 R0) as [p0 E0]. destruct (proj2 H1 Hhost) as [p1 E1].
    destruct (proj2 H2 R2) as [p2 E2]. destruct (proj2 H3 R3) as [p3 E3].
    destruct (proj2 H4 R4) as [p4 E4]. destruct (proj2 H5 R5) as [p5 E5].
    rewrite E0, E1, E2, E3, E4, E5. simpl. eauto.
Qed.


(** *** Plain ASCII input

    On a [str] of ASCII characters without square brackets none of the
    raising calls is reached: the parts are pieces of the input and of
    the literals the sanitiser adds. *)

Lemma plain_literal s : forallb is_plain (of_string s) = true -> plain (of_string s).
Proof. intros H. apply Forall_forall. intros c Hc. eapply forallb_forall in H; [exact H|]. apply list_elem_of_In, Hc. Qed.

Lemma plain_app a b : plain a -> plain b -> plain (a ++ b)%list.
Proof. intros Ha Hb. apply Forall_app. split; assumption. Qed.

Lemma plain_take n s : plain s -> plain (take n s).
Proof. apply Forall_take. Qed.

Lemma plain_drop n s : plain s -> plain (drop n s).
Proof. apply Forall_drop. Qed.

Lemma plain_filter f s : plain s -> plain (List.filter f s).
Proof.
  induction 1 as [|c s Hc Hs IH]; simpl; [constructor|].
  destruct (f c); [constructor; assumption | assumption].
Qed.

Lemma plain_lstrip_c0 s : plain s -> plain (lstrip_c0 s).
Proof.
  induction 1 as [|c s Hc Hs IH]; simpl; [constructor|].
  destruct (_ && _); [assumption | constructor; assumption].
Qed.

Lemma plain_lower_ascii s : plain s -> plain (lower_ascii s).
Proof.
  induction 1 as [|c s Hc Hs IH]; simpl; [constructor|].
  constructor; [|exact IH].
  destruct (Z.leb_spec 65 c), (Z.leb_spec c 90); simpl; try exact Hc.
  unfold is_plain in *. change (code "[") with 91%Z in *. change (code "]") with 93%Z in *.
  destruct (Z.ltb_spec (c + 32) 128); [|lia].
  destruct (Z.eqb_spec (c + 32) 91); [lia|].
  destruct (Z.eqb_spec (c + 32) 93); [lia|]. reflexivity.
Qed.

Lemma plain_span_netloc s :
  plain s -> plain (span_netloc s).1 /\ plain (span_netloc s).2.
Proof.
  induction 1 as [|c s Hc Hs [IH1 IH2]]; simpl; [split; constructor|].
  destruct (is_netloc_delim c).
  - simpl. split; constructor; assumption.
  - destruct (span_netloc s) as [a b]. simpl in *. split; [constructor|]; assumption.
Qed.

Lemma plain_split_once c s :
  plain s ->
  plain (split_once c s).1
  /\ match (split_once c s).2 with Some b => plain b | None => True end.
Proof.
  intros Hs. unfold split_once. destruct (find c s); simpl.
  - split; [apply plain_take | apply plain_drop]; exact Hs.
  - split; [exact Hs | exact I].
Qed.

Lemma plain_replace_char c new s : plain new -> plain s -> plain (replace_char c new s).
Proof.
  intros Hn. unfold replace_char. induction 1 as [|d s Hd Hs IH]; simpl; [constructor|].
  apply plain_app; [|exact IH].
  destruct (c =? d)%Z; [exact Hn | constructor; [exact Hd | constructor]].
Qed.

Lemma plain_fix_single_slash s : plain s -> plain (fix_single_slash s).
Proof.
  intros Hs. unfold fix_single_slash.
  assert (Hfix : forall p, plain p ->
            match (if starts_with (p ++ of_string ":/")%list s then
                     match drop (List.length p + 2) s with
                     | c :: rest =>
                         if (c =? code "/")%Z then None
                         else Some (p ++ of_string "://" ++ c :: rest)%list
                     | [] => None
                     end
                   else None) with
            | Some s' => plain s'
            | None => True
            end).
  { intros p Hp. destruct (starts_with _ s); [|exact I].
    pose proof (plain_drop (List.length p + 2) s Hs) as Hd.
    destruct (drop (List.length p + 2) s) as [|c rest]; [exact I|].
    destruct (c =? code "/")%Z; [exact I|].
    apply plain_app; [exact Hp|]. apply plain_app; [|exact Hd].
    apply plain_literal. reflexivity. }
  pose proof (Hfix (of_string "https") (plain_literal "https" eq_refl)) as H1.
  pose proof (Hfix (of_string "http") (plain_literal "http" eq_refl)) as H2.
  destruct (if starts_with (of_string "https" ++ of_string ":/")%list s then _ else _);
    [exact H1|].
  destruct (if starts_with (of_string "http" ++ of_string ":/")%list s then _ else _);
    [exact H2 | exact Hs].
Qed.

Lemma plain_prepare s : plain s -> plain (prepare s).
Proof.
  intros Hs. unfold prepare.
  apply plain_replace_char; [apply plain_literal; reflexivity|].
  apply plain_fix_single_slash.
  destruct (str_in _ PROTOCOL); [exact Hs|].
  apply plain_app; [apply plain_literal; reflexivity | exact Hs].
Qed.

Lemma plain_is_ascii s : plain s -> is_ascii s = true.
Proof.
  induction 1 as [|c s Hc Hs IH]; simpl; [reflexivity|].
  rewrite IH, andb_true_r. unfold is_plain in Hc.
  apply andb_true_iff in Hc as [Hc _]. apply andb_true_iff in Hc as [Hc _]. exact Hc.
Qed.

Lemma plain_no_bracket s b :
  b = code "[" \/ b = code "]" -> plain s -> contains b s = false.
Proof.
  intros Hb. induction 1 as [|c s Hc Hs IH]; simpl; [reflexivity|].
  rewrite IH, orb_false_r. unfold is_plain in Hc.
  apply andb_true_iff in Hc as [Hc H2]. apply andb_true_iff in Hc as [_ H1].
  apply negb_true_iff in H1, H2. rewrite Z.eqb_sym.
  destruct Hb as [->| ->]; assumption.
Qed.

Lemma plain_split_scheme url :
  plain url -> plain (split_scheme url).1 /\ plain (split_scheme url).2.
Proof.
  intros H. unfold split_scheme.
  destruct (find (code ":") url) as [[|i]|]; try (split; [constructor | exact H]).
  destruct url as [|c0 tl] eqn:E; [split; [constructor | exact H]|].
  rewrite <- E in *.
  destruct (_ && _); [|split; [constructor | exact H]].
  split; [apply plain_lower_ascii, plain_take, H | apply plain_drop, H].
Qed.

Lemma split_netloc_plain bracketed_netloc_ok url :
  plain url ->
  exists netloc rest,
    split_netloc bracketed_netloc_ok url = Ok (netloc, rest)
    /\ plain netloc /\ plain rest.
Proof.
  intros H. unfold split_netloc.
  destruct (str_eqb (take 2 url) (of_string "//")).
  - unfold splitnetloc2.
    destruct (plain_span_netloc _ (plain_drop 2 url H)) as [Ha Hb].
    destruct (span_netloc (drop 2 url)) as [a b]. simpl in Ha, Hb.
    rewrite (plain_no_bracket a _ (or_introl eq_refl) Ha).
    rewrite (plain_no_bracket a _ (or_intror eq_refl) Ha). simpl. eauto.
  - exists [], url. split; [reflexivity|]. split; [constructor | exact H].
Qed.

Lemma plain_split_off c url :
  plain url -> plain (split_off c url).1 /\ plain (split_off c url).2.
Proof.
  intros H. unfold split_off.
  destruct (plain_split_once c url H) as [Ha Hb].
  destruct (split_once c url) as [a [b|]]; simpl in *;
    (split; [assumption|]); [assumption | constructor].
Qed.

Lemma split_components_plain bracketed_netloc_ok url :
  plain url ->
  exists sp, split_components bracketed_netloc_ok url = Ok sp /\ plain_split sp.
Proof.
  intros Hurl. unfold split_components.
  pose proof (plain_filter (fun c => negb ((c =? 9) || (c =? 13) || (c =? 10))%Z)
                _ (plain_lstrip_c0 url Hurl)) as H0.
  fold (remove_unsafe (lstrip_c0 url)) in H0.
  destruct (plain_split_scheme _ H0) as [Hs H1].
  destruct (split_scheme (remove_unsafe (lstrip_c0 url))) as [scheme0 url1].
  simpl in Hs, H1.
  destruct (split_netloc_plain bracketed_netloc_ok url1 H1)
    as (netloc0 & url2 & -> & Hn & H2).
  unfold mbind, result_bind, rbind.
  destruct (plain_split_off (code "#") url2 H2) as [H3 Hf].
  destruct (split_off (code "#") url2) as [url3 fragment0]. simpl in H3, Hf.
  destruct (plain_split_off (code "?") url3 H3) as [H4 Hq].
  destruct (split_off (code "?") url3) as [url4 query0]. simpl in H4, Hq.
  eexists. split; [reflexivity|]. repeat split; simpl; assumption.
Qed.

Lemma plain_splitparams url :
  plain url -> plain (splitparams url).1 /\ plain (splitparams url).2.
Proof.
  intros H. unfold splitparams.
  destruct (rfind (code "/") url) as [slash|].
  - destruct (find_from (code ";") slash url); simpl;
      [split; [apply plain_take | apply plain_drop]; exact H
      | split; [exact H | constructor]].
  - destruct (find (code ";") url); simpl;
      [split; [apply plain_take | apply plain_drop]; exact H
      | split; [apply plain_take; exact H | exact H]].
Qed.

Lemma urlparse_plain nfkc bracketed_netloc_ok url :
  plain url ->
  exists parts, urlparse nfkc bracketed_netloc_ok url = Ok parts /\ plain_parts parts.
Proof.
  intros Hurl. unfold urlparse, urlsplit.
  destruct (split_components_plain bracketed_netloc_ok url Hurl)
    as (sp & -> & Hs & Hn & Hp & Hq & Hf).
  unfold mbind, result_bind, rbind, checknetloc.
  rewrite (plain_is_ascii _ Hn), orb_true_r.
  destruct (plain_splitparams _ Hp) as [Ha Hb].
  destruct (str_in (sp_scheme sp) uses_params && contains (code ";") (sp_path sp)).
  - destruct (splitparams (sp_path sp)) as [a b]. simpl in Ha, Hb.
    eexists. split; [reflexivity|]. repeat split; simpl; assumption.
  - eexists. split; [reflexivity|]. repeat split; simpl; try assumption. constructor.
Qed.

Lemma escape_part_ascii idna_encode i p :
  is_ascii p = true -> escape_part idna_encode i p = Ok p.
Proof. intros H. unfold escape_part. rewrite H. reflexivity. Qed.

(** X23: every [str] of ASCII characters without square brackets is
    sanitised: the sanitiser returns a string on it, which is the parsed
    parts of the prepared text put together again, none of them
    re-encoded. *)
Lemma sanitize_url_returns_on_plain_ascii nfkc bracketed_netloc_ok idna_encode u :
  forallb is_plain u = true ->
  exists parts,
    urlparse nfkc bracketed_netloc_ok (prepare u) = Ok parts
    /\ sanitize_url nfkc bracketed_netloc_ok idna_encode (Str u) = Ok (urlunparse parts).
Proof.
  intros Hu. assert (Hp : plain u).
  { apply Forall_forall. intros c Hc. eapply forallb_forall in Hu; [exact Hu|].
    apply list_elem_of_In, Hc. }
  destruct (urlparse_plain nfkc bracketed_netloc_ok _ (plain_prepare u Hp))
    as (parts & Hparse & Hs & Hn & Hpa & Hpr & Hq & Hf).
  exists parts. split; [exact Hparse|].
  unfold sanitize_url. simpl to_text. unfold mbind, result_bind, rbind.
  rewrite Hparse.
  rewrite !escape_part_ascii by (apply plain_is_ascii; assumption).
  destruct parts; reflexivity.
Qed.

(** * Further properties of the code *)

(** ** The request hook of the cache *)

(** X1: the request hook copies the validators of the loaded record into
    the unredirected headers: If-None-Match is set to the stored ETag and
    If-Modified-Since to the stored Last-Modified, each only when the
    record has that header; every other header, the redirectable headers
    and the URL are left as they were. *)
Theorem http_request_sends_validators parsestr (cache : Store) req :
  let hs := ld_headers (load parsestr cache (get_full_url req)) in
  let req' := http_request parsestr cache req in
  req_unredirected req' !! "If-none-match"
  = match msg_get "etag" hs with
    | Some etag => Some etag
    | None => req_unredirected req !! "If-none-match"
    end
  /\ req_unredirected req' !! "If-modified-since"
     = match msg_get "last-modified" hs with
       | Some date => Some date
       | None => req_unredirected req !! "If-modified-since"
       end
  /\ (forall k, k <> "If-none-match" -> k <> "If-modified-since" ->
        req_unredirected req' !! k = req_unredirected req !! k)
  /\ req_headers req' = req_headers req
  /\ get_full_url req' = get_full_url req.
Proof.
  cbv zeta. unfold http_request.
  change (capitalize "If-None-Match") with "If-none-match".
  destruct (msg_get "etag" _) as [etag|], (msg_get "last-modified" _) as [date|];
    unfold add_unredirected_header; simpl;
    change (capitalize "If-None-Match") with "If-none-match";
    change (capitalize "If-Modified-Since") with "If-modified-since";
    repeat split; intros;
    rewrite ?lookup_insert_eq, ?lookup_insert_ne, ?lookup_insert_eq by done;
    try reflexivity.
Qed.

(** ** The decision tree of the open hook *)

(** The tree below the marker rule and the [force_min == -2] rule, for a
    record that is present and whose stored directives parse. *)
Lemma http_open_present py_int parsestr self now (cache : Store) req r c vals :
  cache !! get_full_url req = Some r ->
  rec_code r = Some c ->
  parse_keqv_list
    (cc_items_of (cache_control_of (message_from_string parsestr (rec_headers r))))
  = Ok vals ->
  let url := get_full_url req in
  let cache_age := (now - rec_timestamp r)%Z in
  let use_cache := Ok (Some (from_cache (load parsestr cache url) url)) in
  let by_force_min :=
    match force_min self with
    | Some f => if (f >? cache_age)%Z then use_cache else Ok None
    | None => Ok None
    end in
  http_open py_int parsestr self now cache req
  = if bool_decide (get_header req "Morss" = Some "from_304") then use_cache
    else if bool_decide (force_min self = Some (-2)%Z) then use_cache
    else if bool_decide (force_min self = Some (-1)%Z) then use_cache
    else if bool_decide (force_min self = Some 0%Z) then Ok None
    else if bool_decide (c = 301%Z) && (cache_age <? 7 * 24 * 3600)%Z then use_cache
    else if bool_decide (force_min self = None)
            && forbids_caching self
                 (cc_list_of
                    (cache_control_of (message_from_string parsestr (rec_headers r))))
    then Ok None
    else match vals !! "max-age" with
         | Some v =>
             match py_int v with
             | None => Raise ValueError
             | Some n => if (n >? cache_age)%Z then use_cache else by_force_min
             end
         | None => by_force_min
         end.
Proof.
  intros Hr Hc Hp. cbv zeta. unfold http_open.
  rewrite (load_present _ _ _ _ Hr).
  cbn [ld_code ld_msg ld_headers ld_data ld_timestamp]. rewrite Hp, Hc. simpl.
  assert (E : is_code 301 (Some c) = bool_decide (c = 301%Z)).
  { unfold is_code. apply bool_decide_ext. split; [intros [= ->]; reflexivity | intros ->; reflexivity]. }
  rewrite E.
  repeat case_bool_decide; reflexivity.
Qed.

(** X2: under [force_min == -1] a record that is present is served from
    the cache whatever its age, its status and its stored Cache-Control
    are (no-store included), provided the stored key=value directives
    parse. *)
Theorem http_open_forced_use py_int parsestr self now (cache : Store) req r c vals :
  force_min self = Some (-1)%Z ->
  cache !! get_full_url req = Some r ->
  rec_code r = Some c ->
  parse_keqv_list
    (cc_items_of (cache_control_of (message_from_string parsestr (rec_headers r))))
  = Ok vals ->
  http_open py_int parsestr self now cache req
  = Ok (Some {| resp_code := Some c; resp_msg := rec_msg r;
                resp_headers :=
                  msg_set "morss" "from_cache"
                    (message_from_string parsestr (rec_headers r));
                resp_body := rec_data r; resp_url := get_full_url req |}).
Proof.
  intros Hmin Hr Hc Hp.
  rewrite (http_open_present py_int parsestr self now cache req r c vals Hr Hc Hp).
  rewrite Hmin, (load_present _ _ _ _ Hr). unfold from_cache. simpl. rewrite Hc.
  repeat case_bool_decide; try reflexivity; congruence.
Qed.

(** X3: under [force_min == 0] a request that does not carry the replay
    marker is sent to the network whenever the key=value directives of
    the stored Cache-Control and Pragma parse, whatever else is stored:
    a 301 younger than a week and an unexpired max-age are bypassed
    too. *)
Theorem http_open_forced_refresh py_int parsestr self now (cache : Store) req vals :
  force_min self = Some 0%Z ->
  get_header req "Morss" <> Some "from_304" ->
  parse_keqv_list
    (cc_items_of
       (cache_control_of (ld_headers (load parsestr cache (get_full_url req)))))
  = Ok vals ->
  http_open py_int parsestr self now cache req = Ok None.
Proof.
  intros Hmin Hm Hp. unfold http_open. rewrite Hp. simpl. rewrite Hmin.
  rewrite (bool_decide_eq_false_2 _ Hm).
  rewrite (bool_decide_eq_false_2 (Some 0%Z = Some (-2)%Z)) by discriminate.
  destruct (bool_decide (_ = None)); [reflexivity|].
  rewrite (bool_decide_eq_false_2 (Some 0%Z = Some (-1)%Z)) by discriminate.
  rewrite bool_decide_eq_true_2 by reflexivity. reflexivity.
Qed.

(** X4: with no record for the URL, a request without the replay marker
    is sent to the network under every [force_min] except -2. *)
Theorem http_open_miss py_int parsestr self now (cache : Store) req :
  cache !! get_full_url req = None ->
  force_min self <> Some (-2)%Z ->
  get_header req "Morss" <> Some "from_304" ->
  http_open py_int parsestr self now cache req = Ok None.
Proof.
  intros Hr Hmin Hm. unfold http_open. rewrite (load_absent _ _ _ Hr). simpl.
  rewrite (bool_decide_eq_false_2 _ Hm), (bool_decide_eq_false_2 _ Hmin).
  reflexivity.
Qed.

(** X5: a stored 301 younger than seven days whose stored key=value
    directives parse is served from the cache under every [force_min]
    except 0, whatever its Cache-Control says otherwise (no-store
    included). *)
Theorem http_open_sticky_301 py_int parsestr self now (cache : Store) req r vals :
  cache !! get_full_url req = Some r ->
  rec_code r = Some 301%Z ->
  (now - rec_timestamp r < 7 * 24 * 3600)%Z ->
  force_min self <> Some 0%Z ->
  parse_keqv_list
    (cc_items_of (cache_control_of (message_from_string parsestr (rec_headers r))))
  = Ok vals ->
  http_open py_int parsestr self now cache req
  = Ok (Some (from_cache (load parsestr cache (get_full_url req)) (get_full_url req))).
Proof.
  intros Hr Hc Hage Hmin Hp.
  rewrite (http_open_present py_int parsestr self now cache req r _ vals Hr Hc Hp).
  rewrite (bool_decide_eq_false_2 _ Hmin).
  rewrite (bool_decide_eq_true_2 (301 = 301)%Z) by reflexivity.
  rewrite (proj2 (Z.ltb_lt _ _) Hage). simpl.
  repeat case_bool_decide; reflexivity.
Qed.

(** X6: with [force_min] unset, take a stored record whose headers, as
    loaded, have a first Cache-Control line or a first Pragma line with
    an item that reads exactly no-cache, no-store, or private (the
    handler not being an end-user cache), and whose key=value items
    parse. It is not served to a request without the replay marker,
    unless it is a 301 younger than seven days: the request is sent to
    the network even when max-age has not expired. *)
Theorem http_open_honours_stored_directives
    py_int parsestr self now (cache : Store) req r c vals :
  force_min self = None ->
  cache !! get_full_url req = Some r ->
  rec_code r = Some c ->
  (exists name value item,
     (name = "cache-control" \/ name = "pragma")
     /\ msg_get name (message_from_string parsestr (rec_headers r)) = Some value
     /\ item ∈ parse_http_list value
     /\ (item = "no-cache" \/ item = "no-store"
         \/ (item = "private" /\ private_cache self = false))) ->
  ~ (c = 301%Z /\ (now - rec_timestamp r < 7 * 24 * 3600)%Z) ->
  get_header req "Morss" <> Some "from_304" ->
  parse_keqv_list
    (cc_items_of (cache_control_of (message_from_string parsestr (rec_headers r))))
  = Ok vals ->
  http_open py_int parsestr self now cache req = Ok None.
Proof.
  intros Hmin Hr Hc (name & value & item & Hname & Hget & Hitem & Hcc) H301 Hm Hp.
  assert (Hin : has_char "=" item = false ->
                item ∈ cc_list_of
                         (cache_control_of
                            (message_from_string parsestr (rec_headers r))))
    by (apply (item_in_cc_list name value); assumption).
  assert (Hf : forbids_caching self
                 (cc_list_of
                    (cache_control_of (message_from_string parsestr (rec_headers r))))
               = true).
  { unfold forbids_caching. destruct Hcc as [-> | [-> | [-> Hpc]]].
    - rewrite (bool_decide_eq_true_2 _ (Hin eq_refl)). reflexivity.
    - rewrite (bool_decide_eq_true_2 _ (Hin eq_refl)). rewrite orb_true_r. reflexivity.
    - rewrite (bool_decide_eq_true_2 _ (Hin eq_refl)), Hpc. apply orb_true_r. }
  rewrite (http_open_present py_int parsestr self now cache req r c vals Hr Hc Hp).
  rewrite Hmin, Hf, (bool_decide_eq_false_2 _ Hm).
  rewrite !(bool_decide_eq_false_2 (None = Some _)) by discriminate.
  rewrite (bool_decide_eq_true_2 (@None Z = None)) by reflexivity.
  destruct (bool_decide (c = 301%Z) && _) eqn:E; [|reflexivity].
  apply andb_true_iff in E as [E1 E2].
  apply bool_decide_eq_true in E1. apply Z.ltb_lt in E2. tauto.
Qed.

(** X7: when the key=value directives of the stored headers parse and
    give a max-age that [int] reads and that has not expired, the record
    is served from the cache, unless [force_min] is 0 or the stored
    directives forbid caching while [force_min] is unset. *)
Theorem http_open_fresh_max_age py_int parsestr self now (cache : Store) req r c vals v n :
  cache !! get_full_url req = Some r ->
  rec_code r = Some c ->
  parse_keqv_list
    (cc_items_of (cache_control_of (message_from_string parsestr (rec_headers r))))
  = Ok vals ->
  vals !! "max-age" = Some v ->
  py_int v = Some n ->
  (now - rec_timestamp r < n)%Z ->
  force_min self <> Some 0%Z ->
  (force_min self = None ->
   forbids_caching self
     (cc_list_of (cache_control_of (message_from_string parsestr (rec_headers r))))
   = false) ->
  http_open py_int parsestr self now cache req
  = Ok (Some (from_cache (load parsestr cache (get_full_url req)) (get_full_url req))).
Proof.
  intros Hr Hc Hp Hv Hn Hage Hmin Hf.
  rewrite (http_open_present py_int parsestr self now cache req r c vals Hr Hc Hp).
  rewrite Hv, Hn, (bool_decide_eq_false_2 _ Hmin).
  rewrite (proj2 (Z.gtb_gt _ _)) by lia.
  repeat case_bool_decide; try reflexivity;
    destruct (_ && _) eqn:E; try reflexivity;
    rewrite ?Hf by assumption; reflexivity.
Qed.

(** X8: with a positive [force_min], a record whose stored key=value
    directives parse and hold no max-age, that is neither a 301 nor
    requested by the replay, is served from the cache exactly while its
    age is below [force_min]; its stored no-store or no-cache is not
    looked at. *)
Theorem http_open_force_min_window py_int parsestr self now (cache : Store) req r c vals f :
  force_min self = Some f -> (0 < f)%Z ->
  cache !! get_full_url req = Some r ->
  rec_code r = Some c -> c <> 301%Z ->
  parse_keqv_list
    (cc_items_of (cache_control_of (message_from_string parsestr (rec_headers r))))
  = Ok vals ->
  vals !! "max-age" = None ->
  get_header req "Morss" <> Some "from_304" ->
  http_open py_int parsestr self now cache req
  = if (now - rec_timestamp r <? f)%Z
    then Ok (Some (from_cache (load parsestr cache (get_full_url req)) (get_full_url req)))
    else Ok None.
Proof.
  intros Hmin Hpos Hr Hc H301 Hp Hv Hm.
  rewrite (http_open_present py_int parsestr self now cache req r c vals Hr Hc Hp).
  rewrite Hmin, Hv, (bool_decide_eq_false_2 _ Hm), (bool_decide_eq_false_2 _ H301).
  rewrite !(bool_decide_eq_false_2 (Some f = _)) by (intros [= ->]; lia || discriminate).
  simpl. rewrite Z.gtb_ltb. reflexivity.
Qed.

Lemma http_open_forced_use_witness :
  http_open Samples.int_60 Samples.read_lines Samples.forced 1000000 Samples.store_private
    Samples.plain_request
  = Ok (Some {| resp_code := Some 200%Z; resp_msg := Some "OK";
                resp_headers := [("Cache-Control", "no-store, max-age=60");
                                 ("morss", "from_cache")];
                resp_body := Samples.rss_body; resp_url := Samples.url |}).
Proof.
  apply (http_open_forced_use Samples.int_60 Samples.read_lines Samples.forced 1000000
           Samples.store_private Samples.plain_request Samples.stored_private
           200%Z {[ "max-age" := "60" ]}); reflexivity.
Defined.

Lemma http_open_forced_refresh_witness :
  http_open Samples.int_60 Samples.read_lines Samples.refreshing 20 Samples.store_301 Samples.plain_request
  = Ok None.
Proof.
  apply (http_open_forced_refresh Samples.int_60 Samples.read_lines Samples.refreshing 20
           Samples.store_301 Samples.plain_request ∅).
  - reflexivity.
  - vm_compute. discriminate.
  - reflexivity.
Defined.

Lemma http_open_miss_witness :
  http_open Samples.int_60 Samples.read_lines Samples.forced 20 Samples.no_store Samples.plain_request
  = Ok None.
Proof.
  apply (http_open_miss Samples.int_60 Samples.read_lines Samples.forced 20 Samples.no_store
           Samples.plain_request).
  - reflexivity.
  - discriminate.
  - vm_compute. discriminate.
Defined.

Lemma http_open_sticky_301_witness :
  http_open Samples.int_60 Samples.read_lines Samples.honouring 20 Samples.store_301 Samples.plain_request
  = Ok (Some (from_cache (load Samples.read_lines Samples.store_301 Samples.url)
                Samples.url)).
Proof.
  apply (http_open_sticky_301 Samples.int_60 Samples.read_lines Samples.honouring 20 Samples.store_301
           Samples.plain_request Samples.stored_301 ∅).
  - reflexivity.
  - reflexivity.
  - reflexivity.
  - discriminate.
  - reflexivity.
Defined.

Lemma http_open_honours_stored_directives_witness :
  http_open Samples.int_60 Samples.read_lines Samples.honouring 20 Samples.store_private
    Samples.plain_request
  = Ok None.
Proof.
  apply (http_open_honours_stored_directives Samples.int_60 Samples.read_lines Samples.honouring 20
           Samples.store_private Samples.plain_request Samples.stored_private
           200%Z {[ "max-age" := "60" ]}).
  - reflexivity.
  - reflexivity.
  - reflexivity.
  - exists "cache-control", "no-store, max-age=60", "no-store".
    split; [left; reflexivity|]. split; [reflexivity|].
    split; [vm_compute; apply list_elem_of_In; simpl; tauto|].
    right. left. reflexivity.
  - intros [H _]. discriminate.
  - vm_compute. discriminate.
  - reflexivity.
Defined.

Lemma http_open_fresh_max_age_witness :
  http_open Samples.int_60 Samples.read_lines Samples.honouring 20 Samples.store_minute
    Samples.plain_request
  = Ok (Some (from_cache (load Samples.read_lines Samples.store_minute Samples.url)
                Samples.url)).
Proof.
  apply (http_open_fresh_max_age Samples.int_60 Samples.read_lines Samples.honouring 20
           Samples.store_minute Samples.plain_request Samples.stored_minute
           200%Z {[ "max-age" := "60" ]} "60" 60%Z).
  - reflexivity.
  - reflexivity.
  - reflexivity.
  - reflexivity.
  - reflexivity.
  - reflexivity.
  - discriminate.
  - reflexivity.
Defined.

Lemma http_open_force_min_window_witness :
  http_open Samples.int_60 Samples.read_lines Samples.half_minute 20 Samples.store_200
    Samples.plain_request
  = Ok (Some (from_cache (load Samples.read_lines Samples.store_200 Samples.url)
                Samples.url))
  /\ http_open Samples.int_60 Samples.read_lines Samples.half_minute 40 Samples.store_200
       Samples.plain_request
     = Ok None.
Proof.
  split.
  - apply (http_open_force_min_window Samples.int_60 Samples.read_lines Samples.half_minute 20
             Samples.store_200 Samples.plain_request Samples.stored_200
             200%Z ∅ 30%Z); try reflexivity; try discriminate.
  - apply (http_open_force_min_window Samples.int_60 Samples.read_lines Samples.half_minute 40
             Samples.store_200 Samples.plain_request Samples.stored_200
             200%Z ∅ 30%Z); try reflexivity; try discriminate.
Defined.

Lemma run_never_304_witness :
  never_304 (run Samples.read_lines Samples.write_lines Samples.forced
               Samples.no_store Samples.some_ops).
Proof.
  apply (run_never_304 Samples.read_lines Samples.write_lines Samples.forced
           Samples.some_ops Samples.no_store).
  intros url r H. unfold Samples.no_store in H. rewrite lookup_empty in H.
  discriminate.
Defined.

(** ** What the writing hooks write *)

(** X11: a page written by the response hook is what the open hook
    serves afterwards, under [force_min == -1]: the same status, message
    and body, and for headers those that the parser reads off the text
    that was written for the page's headers, followed by
    morss: from_cache. The page is one the hook does store: not a 304,
    not marked as coming from the cache, with headers that can be
    written; the key=value directives read back parse. *)
Theorem stored_page_is_served
    py_int parsestr unicode_headers self t_resp t_open (cache : Store) req resp c
    text vals :
  force_min self = Some (-1)%Z ->
  resp_code resp = Some c -> c <> 304%Z ->
  msg_get "Morss" (resp_headers resp) <> Some "from_cache" ->
  unicode_headers (resp_headers resp) = Ok text ->
  parse_keqv_list (cc_items_of (cache_control_of (message_from_string parsestr text)))
  = Ok vals ->
  exists cache',
    http_response unicode_headers self t_resp cache req resp = Ok (cache', resp)
    /\ http_open py_int parsestr self t_open cache' req
       = Ok (Some {| resp_code := Some c; resp_msg := resp_msg resp;
                     resp_headers :=
                       msg_set "morss" "from_cache" (message_from_string parsestr text);
                     resp_body := resp_body resp; resp_url := get_full_url req |}).
Proof.
  intros Hmin Hc H304 Hm Htext Hp.
  set (rec := {| rec_code := resp_code resp; rec_msg := resp_msg resp;
                 rec_headers := text; rec_data := resp_body resp;
                 rec_timestamp := t_resp |}).
  exists (<[get_full_url req := rec]> cache). split.
  - unfold http_response. rewrite Hc, Hmin.
    unfold is_code. rewrite bool_decide_eq_false_2 by (intros [= ->]; contradiction).
    rewrite (bool_decide_eq_false_2 (Some (-1)%Z = None)) by discriminate.
    rewrite andb_false_r. cbn [andb].
    rewrite (bool_decide_eq_false_2 _ Hm). unfold save. rewrite Htext. simpl.
    rewrite <- Hc. destruct resp; reflexivity.
  - rewrite (http_open_present py_int parsestr self t_open (<[get_full_url req := rec]> cache)
               req rec c vals (lookup_insert_eq _ _ _) Hc Hp).
    rewrite Hmin, (load_present _ _ _ rec (lookup_insert_eq _ _ _)).
    unfold from_cache. simpl. rewrite Hc.
    repeat case_bool_decide; try reflexivity; congruence.
Qed.

Lemma stored_page_is_served_witness :
  exists cache',
    http_response Samples.write_lines Samples.forced 7 Samples.no_store
      Samples.plain_request Samples.unstorable_page
    = Ok (cache', Samples.unstorable_page)
    /\ http_open Samples.int_60 Samples.read_lines Samples.forced 9 cache'
         Samples.plain_request
       = Ok (Some {| resp_code := Some 200%Z; resp_msg := Some "OK";
                     resp_headers := [("Cache-Control", "public, no-store");
                                      ("morss", "from_cache")];
                     resp_body := Samples.rss_body; resp_url := Samples.url |}).
Proof.
  apply (stored_page_is_served Samples.int_60 Samples.read_lines Samples.write_lines
           Samples.forced 7 9 Samples.no_store
           Samples.plain_request Samples.unstorable_page 200%Z
           (Samples.header_lines [("Cache-Control", "public, no-store")]) ∅).
  - reflexivity.
  - reflexivity.
  - discriminate.
  - vm_compute. discriminate.
  - reflexivity.
  - reflexivity.
Defined.

(** X12: the two writing hooks touch the record of the request's URL
    only: after any sequence of operations, the record of a URL that none
    of the requests names is what it was. *)
Theorem run_other_urls_untouched parsestr unicode_headers self ops (cache : Store) url :
  Forall (fun op => match op with
                    | OpResponse _ req _ | Op304 _ req => get_full_url req <> url
                    end) ops ->
  run parsestr unicode_headers self cache ops !! url = cache !! url.
Proof.
  intros Hops. revert cache.
  induction Hops as [|op ops Hop _ IH]; intros cache; [reflexivity|].
  unfold run in *. simpl. rewrite IH. destruct op as [now req resp|now req]; simpl.
  - destruct (http_response_cases unicode_headers self now cache req resp)
      as [E|[[e E]|(text & _ & _ & _ & E)]]; rewrite E; simpl; try reflexivity.
    apply lookup_insert_ne, Hop.
  - destruct (http_error_304_cases parsestr unicode_headers now cache req)
      as [[o E]|[[e E]|(r0 & text & new & _ & E)]]; rewrite E; simpl; try reflexivity.
    apply lookup_insert_ne, Hop.
Qed.

Lemma run_other_urls_untouched_witness :
  run Samples.read_lines Samples.write_lines Samples.forced Samples.store_301
    Samples.some_ops !! Samples.other_url
  = Samples.store_301 !! Samples.other_url.
Proof.
  apply (run_other_urls_untouched Samples.read_lines Samples.write_lines Samples.forced
           Samples.some_ops Samples.store_301 Samples.other_url).
  repeat constructor; vm_compute; discriminate.
Defined.

(** X13: once [force_min] is set, whatever its value, the response hook
    saves a page even if the page says no-store, no-cache or private;
    only a 304 and a response marked as coming from the cache are left
    out. When the text of the page's headers can be written, the record
    of the URL becomes the page's status, message and body with that
    text, stamped with the clock; when it cannot, the exception of the
    generator leaves the hook and the store is as it was. *)
Theorem http_response_stores_under_force_min
    unicode_headers self now (cache : Store) req resp f :
  force_min self = Some f ->
  resp_code resp <> Some 304%Z ->
  msg_get "Morss" (resp_headers resp) <> Some "from_cache" ->
  http_response unicode_headers self now cache req resp
  = match unicode_headers (resp_headers resp) with
    | Ok text =>
        Ok (<[get_full_url req :=
                {| rec_code := resp_code resp; rec_msg := resp_msg resp;
                   rec_headers := text; rec_data := resp_body resp;
                   rec_timestamp := now |}]> cache, resp)
    | Raise e => Raise e
    end.
Proof.
  intros Hmin H304 Hm. unfold http_response, is_code.
  rewrite (bool_decide_eq_false_2 _ H304), Hmin.
  rewrite (bool_decide_eq_false_2 (Some f = None)) by discriminate.
  rewrite andb_false_r. cbn [andb].
  rewrite (bool_decide_eq_false_2 _ Hm). unfold save.
  destruct (unicode_headers (resp_headers resp)); simpl; [|reflexivity].
  destruct resp; reflexivity.
Qed.

Lemma http_response_stores_under_force_min_witness :
  http_response Samples.write_lines Samples.half_minute 7 Samples.no_store
    Samples.plain_request Samples.unstorable_page
  = Ok ({[ Samples.url :=
             {| rec_code := Some 200%Z; rec_msg := Some "OK";
                rec_headers :=
                  Samples.header_lines [("Cache-Control", "public, no-store")];
                rec_data := Samples.rss_body; rec_timestamp := 7 |} ]},
        Samples.unstorable_page)
  /\ http_response Samples.write_refused Samples.half_minute 7 Samples.no_store
       Samples.plain_request Samples.unstorable_page
     = Raise HeaderWriteError.
Proof.
  split.
  - apply (http_response_stores_under_force_min Samples.write_lines Samples.half_minute 7
             Samples.no_store Samples.plain_request Samples.unstorable_page 30%Z).
    + reflexivity.
    + discriminate.
    + vm_compute. discriminate.
  - apply (http_response_stores_under_force_min Samples.write_refused Samples.half_minute 7
             Samples.no_store Samples.plain_request Samples.unstorable_page 30%Z).
    + reflexivity.
    + discriminate.
    + vm_compute. discriminate.
Defined.

(** ** Stored directives that do not parse *)

Lemma keqv_item_raises elt :
  (exists e, keqv_item elt = Raise e)
  <-> (split1 "=" elt).2 = EmptyString.
Proof.
  unfold keqv_item. destruct (split1 "=" elt) as [k v]. simpl.
  destruct v as [|c0 rest].
  - split; [reflexivity | eauto].
  - split; [|discriminate]. intros [e He].
    destruct (_ && _); discriminate.
Qed.

Lemma parse_keqv_loop_raises l parsed :
  (exists e, parse_keqv_loop l parsed = Raise e)
  <-> Exists (fun elt => (split1 "=" elt).2 = EmptyString) l.
Proof.
  revert parsed. induction l as [|elt l IH]; intros parsed; simpl.
  - split; [intros [e He]; discriminate | intros H; inversion H].
  - rewrite Exists_cons. destruct (keqv_item elt) as [kv|e0] eqn:E; simpl.
    + rewrite IH. split; [tauto|]. intros [H|H]; [|exact H].
      apply keqv_item_raises in H as [e He]. congruence.
    + split; [|eauto]. intros _. left. apply keqv_item_raises. eauto.
Qed.

(** X14: the open hook parses the stored key=value directives before it
    looks at anything else. When one of them has nothing after its equal
    sign (as in max-age=), [parse_keqv_list] raises IndexError and so does
    the open hook, for every request, clock reading and [force_min]. *)
Theorem http_open_raises_on_empty_value py_int parsestr self now (cache : Store) req :
  Exists (fun elt => (split1 "=" elt).2 = EmptyString)
    (cc_items_of
       (cache_control_of (ld_headers (load parsestr cache (get_full_url req))))) ->
  http_open py_int parsestr self now cache req = Raise IndexError.
Proof.
  intros H. apply (parse_keqv_loop_raises _ ∅) in H as [e He].
  unfold http_open, parse_keqv_list. rewrite He. simpl.
  assert (Hidx : forall l parsed e', parse_keqv_loop l parsed = Raise e' -> e' = IndexError).
  { clear. induction l as [|elt l IH]; intros parsed e'; simpl; [discriminate|].
    destruct (keqv_item elt) as [kv|e0] eqn:E; simpl.
    - apply IH.
    - intros [= <-]. unfold keqv_item in E.
      destruct (split1 "=" elt) as [k [|c0 rest]]; [congruence|].
      destruct (_ && _); discriminate. }
  rewrite (Hidx _ _ _ He). reflexivity.
Qed.

Lemma http_open_raises_on_empty_value_witness :
  http_open Samples.int_60 Samples.read_lines Samples.forced 20 Samples.store_broken Samples.plain_request
  = Raise IndexError.
Proof.
  apply (http_open_raises_on_empty_value Samples.int_60 Samples.read_lines Samples.forced 20
           Samples.store_broken Samples.plain_request).
  apply Exists_cons_hd. reflexivity.
Defined.

(** ** The in-memory cache *)

Import CappedDict.

Section CappedDictFacts.

Context {V : Type}.

Implicit Types (d : @Dict V) (k key : string) (v : V).

Lemma getitem_app key d1 d2 :
  getitem key (d1 ++ d2)%list
  = match getitem key d1 with Some v => Some v | None => getitem key d2 end.
Proof.
  induction d1 as [|[k v] d1 IH]; simpl; [reflexivity|].
  destruct (String.eqb k key); [reflexivity | exact IH].
Qed.

Lemma getitem_delitem_same key d : getitem key (delitem key d) = None.
Proof.
  induction d as [|[k v] d IH]; simpl; [reflexivity|].
  destruct (String.eqb k key) eqn:E; simpl; [exact IH|]. rewrite E. exact IH.
Qed.

Lemma getitem_delitem_other key k d :
  k <> key -> getitem k (delitem key d) = getitem k d.
Proof.
  intros Hne. induction d as [|[k' v] d IH]; simpl; [reflexivity|].
  destruct (String.eqb_spec k' key) as [->|Hk]; simpl.
  - destruct (String.eqb_spec key k); [congruence | exact IH].
  - rewrite IH. reflexivity.
Qed.

Lemma contains_getitem key d : contains key d = false -> getitem key d = None.
Proof.
  unfold contains. induction d as [|[k v] d IH]; simpl; [reflexivity|].
  destruct (String.eqb k key); [discriminate | exact IH].
Qed.

(** X15: insert then look up. After [d[key] = value], [d[key]] is
    [value] and every other key reads what it read before; a key that was
    never set raises KeyError ([None]). *)
Theorem setitem_getitem key value d :
  getitem key (setitem key value d) = Some value
  /\ (forall k, k <> key -> getitem k (setitem key value d) = getitem k d)
  /\ getitem key ([] : @Dict V) = None.
Proof.
  unfold setitem. split; [|split; [|reflexivity]].
  - rewrite getitem_app. destruct (contains key d) eqn:E.
    + rewrite getitem_delitem_same. simpl. rewrite String.eqb_refl. reflexivity.
    + rewrite (contains_getitem _ _ E). simpl. rewrite String.eqb_refl. reflexivity.
  - intros k Hne. rewrite getitem_app. simpl.
    destruct (String.eqb_spec key k) as [->|_]; [contradiction|].
    destruct (contains key d).
    + rewrite getitem_delitem_other by exact Hne. destruct (getitem k d); reflexivity.
    + destruct (getitem k d); reflexivity.
Qed.

Lemma keys_delitem key d :
  map fst (delitem key d) = List.filter (fun k => negb (String.eqb k key)) (map fst d).
Proof.
  induction d as [|[k v] d IH]; simpl; [reflexivity|].
  destruct (String.eqb k key); simpl; [exact IH | f_equal; exact IH].
Qed.

Lemma not_in_filtered key (ks : list string) :
  key ∉ List.filter (fun k => negb (String.eqb k key)) ks.
Proof.
  rewrite list_elem_of_In, filter_In. intros [_ H].
  rewrite String.eqb_refl in H. discriminate.
Qed.

Lemma NoDup_filtered (f : string -> bool) (ks : list string) :
  NoDup ks -> NoDup (List.filter f ks).
Proof.
  induction 1 as [|k ks Hk Hks IH]; simpl; [constructor|].
  destruct (f k); [|exact IH]. constructor; [|exact IH].
  rewrite list_elem_of_In, filter_In. rewrite list_elem_of_In in Hk. tauto.
Qed.

Lemma contains_false_not_key key d : contains key d = false -> key ∉ map fst d.
Proof.
  unfold contains. induction d as [|[k v] d IH]; simpl; [intros _ H; inversion H|].
  destruct (String.eqb_spec k key) as [->|Hne]; [discriminate|].
  intros H Hin. apply elem_of_cons in Hin as [->|Hin]; [contradiction|].
  exact (IH H Hin).
Qed.

Lemma setitem_as_delitem key value d :
  setitem key value d = (delitem key d ++ [(key, value)])%list.
Proof.
  unfold setitem. destruct (contains key d) eqn:Ec; [reflexivity|].
  f_equal. unfold delitem, contains in *.
  induction d as [|[k v] d IH]; simpl in *; [reflexivity|].
  apply orb_false_iff in Ec as [E1 E2].
  rewrite E1. simpl. f_equal. apply IH, E2.
Qed.

Lemma getitem_none_drop key n d : getitem key d = None -> getitem key (drop n d) = None.
Proof.
  revert d. induction n as [|n IH]; intros d; [rewrite drop_0; auto|].
  destruct d as [|[k v] d]; simpl; [auto|].
  destruct (String.eqb k key); [discriminate | apply IH].
Qed.

(** X16: [__setitem__] keeps the keys pairwise distinct and puts the
    item at the young end of the dict, also when the key was there
    before; the other items keep their order. *)
Theorem setitem_moves_to_end key value d :
  unique_keys d ->
  unique_keys (setitem key value d)
  /\ last (setitem key value d) = Some (key, value)
  /\ setitem key value d = (delitem key d ++ [(key, value)])%list.
Proof.
  intros Hd. unfold unique_keys in *.
  pose proof (setitem_as_delitem key value d) as E.
  rewrite E. split; [|split; [apply last_snoc | reflexivity]].
  rewrite map_app, keys_delitem. simpl. apply NoDup_app. split; [|split].
  - apply NoDup_filtered, Hd.
  - intros k Hk Hin. apply list_elem_of_singleton in Hin. subst k.
    exact (not_in_filtered key _ Hk).
  - apply NoDup_singleton.
Qed.

Variable CACHE_SIZE : Z.

Lemma pop_oldest_drop n d :
  (n <= List.length d)%nat -> pop_oldest n d = Some (drop n d).
Proof.
  revert d. induction n as [|n IH]; intros d Hn; simpl; [reflexivity|].
  destruct d as [|kv d]; simpl in *; [lia|]. apply IH. lia.
Qed.

(** X17: [trim] never runs into the KeyError of an empty dict. With a
    [CACHE_SIZE] of zero or more it keeps the youngest [CACHE_SIZE] items
    (all of them if there are fewer), in their order, so that at most
    [CACHE_SIZE] remain; with a negative [CACHE_SIZE] it removes nothing. *)
Theorem trim_keeps_youngest d :
  trim CACHE_SIZE d
  = Some (if (CACHE_SIZE >=? 0)%Z
          then drop (List.length d - Z.to_nat CACHE_SIZE) d
          else d)
  /\ ((0 <= CACHE_SIZE)%Z ->
      forall d', trim CACHE_SIZE d = Some d' ->
                 (Z.of_nat (List.length d') <= CACHE_SIZE)%Z).
Proof.
  assert (E : trim CACHE_SIZE d
              = Some (if (CACHE_SIZE >=? 0)%Z
                      then drop (List.length d - Z.to_nat CACHE_SIZE) d
                      else d)).
  { unfold trim. destruct (Z.geb_spec CACHE_SIZE 0) as [Hge|Hlt]; [|reflexivity].
    assert (Hn : Z.to_nat (Z.max (Z.of_nat (List.length d) - CACHE_SIZE) 0)
                 = (List.length d - Z.to_nat CACHE_SIZE)%nat) by lia.
    rewrite Hn. apply pop_oldest_drop. lia. }
  split; [exact E|]. intros Hge d' Hd'. rewrite E in Hd'.
  destruct (Z.geb_spec CACHE_SIZE 0) as [_|Hlt]; [|lia].
  injection Hd' as <-. rewrite length_drop. lia.
Qed.

(** X18: with room for at least one item, the item set last survives the
    next [trim]: it is still there, with the value it was given. *)
Theorem trim_keeps_last_set key value d d' :
  (1 <= CACHE_SIZE)%Z ->
  unique_keys d ->
  trim CACHE_SIZE (setitem key value d) = Some d' ->
  getitem key d' = Some value.
Proof.
  intros Hsize Hd Htrim.
  pose proof (setitem_as_delitem key value d) as E.
  unfold trim in Htrim. destruct (Z.geb_spec CACHE_SIZE 0) as [_|Hlt]; [|lia].
  rewrite pop_oldest_drop in Htrim by lia. injection Htrim as <-.
  rewrite E. rewrite length_app. simpl.
  rewrite drop_app_le by lia. rewrite getitem_app.
  rewrite (getitem_none_drop key _ _ (getitem_delitem_same key d)). simpl. rewrite String.eqb_refl. reflexivity.
Qed.

Lemma to_map_getitem key d : to_map d !! key = getitem key d.
Proof.
  unfold to_map. induction d as [|[k v] d IH]; simpl; [apply lookup_empty|].
  destruct (String.eqb_spec k key) as [->|Hne].
  - apply lookup_insert_eq.
  - rewrite lookup_insert_ne by exact Hne. exact IH.
Qed.

(** X19: the in-memory cache is the dict the cache handler takes it for:
    read as a mapping, [__setitem__] is the insertion of the key, and
    [__getitem__] is the lookup, a missing key being the KeyError that
    [load] catches. *)
Theorem setitem_is_insert key value d :
  to_map (setitem key value d) = <[key := value]> (to_map d)
  /\ forall k, to_map d !! k = getitem k d.
Proof.
  split; [|intros k; apply to_map_getitem].
  apply map_eq. intros k. rewrite to_map_getitem.
  rewrite setitem_as_delitem, getitem_app. simpl.
  destruct (decide (key = k)) as [->|Hne].
  - rewrite lookup_insert_eq, getitem_delitem_same, String.eqb_refl. reflexivity.
  - rewrite lookup_insert_ne by exact Hne.
    rewrite getitem_delitem_other by congruence. rewrite to_map_getitem.
    destruct (String.eqb_spec key k); [contradiction|].
    destruct (getitem k d); reflexivity.
Qed.

End CappedDictFacts.

Lemma setitem_moves_to_end_witness :
  unique_keys (setitem "http://example.com/a" Samples.stored_minute Samples.three_pages)
  /\ last (setitem "http://example.com/a" Samples.stored_minute Samples.three_pages)
     = Some ("http://example.com/a", Samples.stored_minute)
  /\ setitem "http://example.com/a" Samples.stored_minute Samples.three_pages
     = (delitem "http://example.com/a" Samples.three_pages
        ++ [("http://example.com/a", Samples.stored_minute)])%list.
Proof.
  apply (setitem_moves_to_end "http://example.com/a" Samples.stored_minute
           Samples.three_pages).
  unfold unique_keys. simpl. repeat constructor; rewrite list_elem_of_In; simpl;
    intuition discriminate.
Defined.

Lemma trim_keeps_last_set_witness :
  getitem "http://example.com/a"
    [ ("http://example.com/c", Samples.stored_301);
      ("http://example.com/a", Samples.stored_minute) ]
  = Some Samples.stored_minute.
Proof.
  apply (trim_keeps_last_set 2 "http://example.com/a" Samples.stored_minute
           Samples.three_pages).
  - lia.
  - unfold unique_keys. simpl. repeat constructor; rewrite list_elem_of_In; simpl;
      intuition discriminate.
  - reflexivity.
Defined.

(** ** The gzip handler *)

(** X20: when the gzip hook decodes a body (a 2xx response whose
    Content-Encoding reads gzip), it keeps status, message and URL, puts
    the decoded bytes in place of the body, and appends Content-Encoding:
    identity behind the headers that are there: the header still reads
    gzip afterwards, and a second pass of the hook decodes once more. *)
Theorem gzip_header_still_reads_gzip UnGzip resp c data :
  resp_code resp = Some c -> (200 <= c < 300)%Z ->
  msg_get "Content-Encoding" (resp_headers resp) = Some "gzip" ->
  UnGzip (resp_body resp) = Ok data ->
  exists resp',
    Gzip.http_response UnGzip resp = Ok resp'
    /\ resp_body resp' = data
    /\ resp_code resp' = Some c
    /\ resp_msg resp' = resp_msg resp
    /\ resp_url resp' = resp_url resp
    /\ resp_headers resp' = (resp_headers resp ++ [("Content-Encoding", "identity")])%list
    /\ msg_get "Content-Encoding" (resp_headers resp') = Some "gzip"
    /\ Gzip.http_response UnGzip resp'
       = (data2 ← UnGzip data;
          Ok {| resp_code := Some c; resp_msg := resp_msg resp;
                resp_headers := (resp_headers resp'
                                 ++ [("Content-Encoding", "identity")])%list;
                resp_body := data2; resp_url := resp_url resp |}).
Proof.
  intros Hc Hr Hg Hd.
  assert (Hget : forall hs v, msg_get "Content-Encoding" hs = Some v ->
                 msg_get "Content-Encoding" (hs ++ [("Content-Encoding", "identity")])%list
                 = Some v).
  { clear. induction hs as [|[k w] hs IH]; simpl; [discriminate|].
    intros v. destruct (String.eqb (lower k) _); [auto | apply IH]. }
  assert (H2 : ((200 <=? c)%Z && (c <? 300)%Z) = true).
  { apply andb_true_iff. split; [apply Z.leb_le | apply Z.ltb_lt]; lia. }
  eexists. split.
  - unfold Gzip.http_response, is_2xx. rewrite Hc. simpl. rewrite H2.
    rewrite (bool_decide_eq_true_2 _ Hg). simpl. rewrite Hd. reflexivity.
  - simpl. repeat split; try assumption; try reflexivity.
    + apply Hget, Hg.
    + unfold Gzip.http_response, is_2xx. simpl. rewrite H2.
      unfold msg_set. rewrite (bool_decide_eq_true_2 _ (Hget _ _ Hg)). simpl.
      rewrite ?Hc. reflexivity.
Qed.

Lemma gzip_header_still_reads_gzip_witness :
  exists resp',
    Gzip.http_response Samples.ungzip_tail Samples.gzipped_page = Ok resp'
    /\ resp_body resp' = tail Samples.rss_body
    /\ resp_code resp' = Some 200%Z
    /\ resp_msg resp' = resp_msg Samples.gzipped_page
    /\ resp_url resp' = resp_url Samples.gzipped_page
    /\ resp_headers resp'
       = (resp_headers Samples.gzipped_page ++ [("Content-Encoding", "identity")])%list
    /\ msg_get "Content-Encoding" (resp_headers resp') = Some "gzip"
    /\ Gzip.http_response Samples.ungzip_tail resp'
       = (data2 ← Samples.ungzip_tail (tail Samples.rss_body);
          Ok {| resp_code := Some 200%Z; resp_msg := resp_msg Samples.gzipped_page;
                resp_headers := (resp_headers resp'
                                 ++ [("Content-Encoding", "identity")])%list;
                resp_body := data2; resp_url := resp_url Samples.gzipped_page |}).
Proof.
  apply (gzip_header_still_reads_gzip Samples.ungzip_tail Samples.gzipped_page
           200%Z (tail Samples.rss_body)).
  - reflexivity.
  - lia.
  - reflexivity.
  - reflexivity.
Defined.

(** ** The opener of [custom_handler] *)

Import Opener.

(** *** The order of the hooks *)

(** X21: whatever the options of [custom_handler] are, the opener calls
    the response hooks in this order: size limit, cache, cookies, gzip,
    encoding fix, alternate link (when [follow] is given), http-equiv,
    refresh, and last the error processor that [build_opener] adds. The
    cache therefore sees a response after the size limit and before the
    gzip decoding. *)
Theorem response_chain_of_custom_handler useragent follow delay encoding handlers :
  custom_handler useragent follow delay encoding = Some handlers ->
  response_chain (build_opener handlers)
  = ([ size_limit 512000; cache delay; cookie_processor; gzip; encoding_fix encoding ]
     ++ List.filter (fun h => match h with alternate _ => true | _ => false end) handlers
     ++ [ http_equiv; http_refresh; http_error_processor ])%list.
Proof.
  unfold custom_handler. destruct follow as [key|].
  - destruct (String.eqb key EmptyString).
    + intros [= <-]. reflexivity.
    + destruct (MIMETYPE key) as [types|]; [|discriminate].
      intros [= <-]. reflexivity.
  - intros [= <-]. reflexivity.
Qed.

Lemma response_chain_of_custom_handler_witness :
  response_chain
    (build_opener
       [ size_limit (500 * 1024); cookie_processor; gzip; http_equiv; http_refresh;
         user_agent "Mozilla/5.0"; browserly_header; encoding_fix None;
         alternate ["application/rss+xml"; "application/rdf+xml"; "application/atom+xml"];
         cache (Some 30%Z) ])
  = [ size_limit 512000; cache (Some 30%Z); cookie_processor; gzip; encoding_fix None;
      alternate ["application/rss+xml"; "application/rdf+xml"; "application/atom+xml"];
      http_equiv; http_refresh; http_error_processor ].
Proof.
  apply (response_chain_of_custom_handler "Mozilla/5.0" (Some "rss") (Some 30%Z) None).
  reflexivity.
Defined.

(** *** The monad of the opener *)







Section Replay.

Variable py_int : string -> option Z.
Variable parsestr : string -> Message.
Variable unicode_headers : Message -> result string.
Variable UnGzip : list byte -> result (list byte).
Variable clock : nat -> Z.
Variable network : nat -> Request -> result Response.
Variable request_host : string -> option string.
Variable cookie_attrs : nat -> Request -> option string.
Variable extract_cookies : nat -> Request -> Response -> result unit.
Variable redirect_request : nat -> Request -> Response -> result (option Request).
Variable encoding_fix_2xx : option string -> Response -> result Response.
Variable alternate_2xx : list string -> Response -> result Response.
Variable http_equiv_2xx : Response -> result Response.

Local Abbreviation opener_open :=
  (Opener.open py_int parsestr unicode_headers UnGzip clock network request_host
     cookie_attrs extract_cookies redirect_request encoding_fix_2xx alternate_2xx
     http_equiv_2xx).
Local Abbreviation opener_request_hook :=
  (request_hook parsestr request_host cookie_attrs).
Local Abbreviation opener_open_chain :=
  (_open py_int parsestr clock network).
Local Abbreviation opener_response_hook :=
  (response_hook parsestr unicode_headers UnGzip clock extract_cookies redirect_request
     encoding_fix_2xx alternate_2xx http_equiv_2xx).

(** *** The request hooks *)





(** *** What the opener returns *)

Section Handlers.

Variable useragent : string.
Variable follow : option string.
Variable delay : option Z.
Variable encoding : option string.
Variable handlers : list Handler.
Hypothesis built : custom_handler useragent follow delay encoding = Some handlers.



(** *** The response hooks on a 304 *)



(** *** The 304 replay *)



End Handlers.

End Replay.


(** The sample run to its end: the caller receives the stored record,
    with the marker of the cache among its headers. *)
Example replay_304_stored_200 :
  exists s',
    Samples.opener None 3 Samples.plain_request (Samples.start Samples.store_200)
    = (s', Ok {| resp_code := Some 200%Z; resp_msg := Some "OK";
                 resp_headers := [("ETag", "abc"); ("morss", "from_cache")];
                 resp_body := Samples.rss_body; resp_url := Samples.url |}).
Proof. eexists. vm_compute. reflexivity. Qed.



Lemma sanitize_url_returns_on_plain_ascii_witness :
  exists parts,
    urlparse Samples.nfkc_nbsp Samples.brackets_refused
      (prepare (of_string "example.com/a b?q=1#top")) = Ok parts
    /\ sanitize_url Samples.nfkc_nbsp Samples.brackets_refused Samples.idna_nbsp
         (Str (of_string "example.com/a b?q=1#top"))
       = Ok (urlunparse parts).
Proof.
  apply (sanitize_url_returns_on_plain_ascii Samples.nfkc_nbsp Samples.brackets_refused
           Samples.idna_nbsp (of_string "example.com/a b?q=1#top")).
  reflexivity.
Defined.

(** ** More on the encoding detector *)

(** X24: [detect_encoding] never returns a label that reads gb2312 in
    any letter case, whatever the headers, the body and the detector
    say. *)
Theorem detect_encoding_never_gb2312 parse_header chardet_detect data resp :
  lower (detect_encoding parse_header chardet_detect data resp) <> "gb2312".
Proof.
  unfold detect_encoding. cbv zeta.
  destruct (String.eqb_spec
              (lower (detect_raw_encoding parse_header chardet_detect data resp))
              "gb2312") as [E|E]; [|exact E].
  vm_compute. discriminate.
Qed.

Lemma match_here_group key data g :
  match_here key data = Some g -> g <> [] /\ forallb is_label_byte g = true.
Proof.
  intros H. apply match_here_pattern, pattern_match_tests in H
    as (q & rest & _ & _ & Hne & Hg & _).
  split; assumption.
Qed.

Lemma re_search_group key data g :
  re_search key data = Some g -> g <> [] /\ forallb is_label_byte g = true.
Proof.
  induction data as [|d data IH]; simpl.
  - destruct (match_here key []) eqn:E; [|discriminate].
    intros [= <-]. eapply match_here_group, E.
  - destruct (match_here key (d :: data)) eqn:E; [|exact IH].
    intros [= <-]. eapply match_here_group, E.
Qed.

Lemma lower_label_byte b :
  is_label_byte b = true -> is_lower_label_char (ascii_of_byte (lower_byte b)) = true.
Proof. destruct b; vm_compute; congruence. Qed.

Lemma label_of_alphabet g :
  forallb is_label_byte g = true -> string_forallb is_lower_label_char (label_of g) = true.
Proof.
  unfold label_of. induction g as [|b g IH]; [reflexivity|].
  intros H. apply andb_true_iff in H as [Hb Hg].
  change (is_lower_label_char (ascii_of_byte (lower_byte b))
          && string_forallb is_lower_label_char
               (string_of_list_byte (map lower_byte g)) = true).
  rewrite (lower_label_byte b Hb), (IH Hg). reflexivity.
Qed.

(** X25: a label that the detector reads off the body (the group of a
    match of the pattern charset= or encoding=, lower-cased and decoded)
    is never empty and is made of digits, lower-case ASCII letters and
    hyphens only. *)
Theorem pattern_label_alphabet key data g :
  re_search key data = Some g ->
  label_of g <> EmptyString /\ string_forallb is_lower_label_char (label_of g) = true.
Proof.
  intros E. apply re_search_group in E as [Hne Hg]. split.
  - destruct g as [|b g]; [contradiction|]. unfold label_of. simpl. discriminate.
  - apply label_of_alphabet, Hg.
Qed.

Lemma pattern_label_alphabet_witness :
  label_of (bytes_of "UTF-8") <> EmptyString
  /\ string_forallb is_lower_label_char (label_of (bytes_of "UTF-8")) = true.
Proof.
  apply (pattern_label_alphabet (bytes_of "charset=")
           (bytes_of "<meta http-equiv='Content-Type' content='text/html; charset=UTF-8'>")).
  reflexivity.
Defined.

(** ** The sanitised URL is ASCII *)

Lemma is_ascii_app a b : is_ascii (a ++ b)%list = is_ascii a && is_ascii b.
Proof. unfold is_ascii. apply forallb_app. Qed.

Lemma quote_byte_ascii b : is_ascii (quote_byte b) = true.
Proof. destruct b; vm_compute; reflexivity. Qed.

Lemma quote_ascii bs : is_ascii (quote bs) = true.
Proof.
  unfold quote. induction bs as [|b bs IH]; simpl; [reflexivity|].
  rewrite is_ascii_app, quote_byte_ascii, IH. reflexivity.
Qed.

Lemma ascii_decode_ascii bs q : ascii_decode bs = Ok q -> is_ascii q = true.
Proof.
  revert q. induction bs as [|b bs IH]; simpl; intros q.
  - intros [= <-]. reflexivity.
  - destruct (byte_val b <? 128)%Z eqn:E; [|discriminate].
    destruct (ascii_decode bs) as [r|]; [|discriminate].
    intros [= <-]. simpl. rewrite E, (IH r eq_refl). reflexivity.
Qed.

Lemma escape_part_result_ascii idna_encode i p q :
  escape_part idna_encode i p = Ok q -> is_ascii q = true.
Proof.
  unfold escape_part. destruct (is_ascii p) eqn:Ha; simpl.
  - intros [= <-]. exact Ha.
  - destruct (i =? 1)%nat.
    + destruct (idna_encode p) as [bs|]; [|discriminate]. simpl.
      apply ascii_decode_ascii.
    + destruct (utf8_encode p) as [bs|]; [|discriminate]. simpl.
      intros [= <-]. apply quote_ascii.
Qed.

Lemma urlunparse_ascii parts :
  is_ascii (scheme parts) = true -> is_ascii (netloc parts) = true ->
  is_ascii (path parts) = true -> is_ascii (params parts) = true ->
  is_ascii (query parts) = true -> is_ascii (fragment parts) = true ->
  is_ascii (urlunparse parts) = true.
Proof.
  intros Hs Hn Hp Ha Hq Hf. unfold urlunparse. cbv zeta.
  set (url := if negb (str_eqb (params parts) []) then _ else _).
  assert (Hu : is_ascii url = true).
  { subst url. destruct (negb _);
      rewrite ?is_ascii_app, ?Hp, ?Ha; reflexivity. }
  clearbody url. unfold urlunsplit. cbv zeta.
  cbn [sp_scheme sp_netloc sp_path sp_query sp_fragment].
  repeat match goal with |- context [if ?b then _ else _] => destruct b end;
    rewrite ?is_ascii_app, ?Hs, ?Hn, ?Hu, ?Hq, ?Hf; reflexivity.
Qed.

(** X26: whenever [sanitize_url] returns, on a [str] or on bytes, what
    it returns is ASCII: every part that was not is encoded, the host by
    the idna codec and the others as percent-escaped UTF-8. *)
Theorem sanitize_url_result_is_ascii nfkc bracketed_netloc_ok idna_encode arg s :
  sanitize_url nfkc bracketed_netloc_ok idna_encode arg = Ok s ->
  is_ascii s = true.
Proof.
  unfold sanitize_url.
  destruct (to_text arg) as [url|]; [|discriminate]. simpl.
  destruct (urlparse nfkc bracketed_netloc_ok (prepare url)) as [parts|]; [|discriminate].
  simpl.
  destruct (escape_part idna_encode 0 (scheme parts)) as [p0|] eqn:E0; [|discriminate].
  destruct (escape_part idna_encode 1 (netloc parts)) as [p1|] eqn:E1; [|discriminate].
  destruct (escape_part idna_encode 2 (path parts)) as [p2|] eqn:E2; [|discriminate].
  destruct (escape_part idna_encode 3 (params parts)) as [p3|] eqn:E3; [|discriminate].
  destruct (escape_part idna_encode 4 (query parts)) as [p4|] eqn:E4; [|discriminate].
  destruct (escape_part idna_encode 5 (fragment parts)) as [p5|] eqn:E5; [|discriminate].
  simpl. intros [= <-].
  apply urlunparse_ascii; simpl; eapply escape_part_result_ascii; eassumption.
Qed.

Lemma sanitize_url_result_is_ascii_witness :
  is_ascii (of_string "http://example.com/caf%C3%A9?q%3D%E2%82%AC") = true.
Proof.
  apply (sanitize_url_result_is_ascii Samples.nfkc_nbsp Samples.brackets_refused
           Samples.idna_nbsp
           (Str (of_string "http://example.com/caf" ++ [233%Z]
                 ++ of_string "?q=" ++ [8364%Z])%list)).
  vm_compute. reflexivity.
Defined.

(** ** The scheme of the sanitised URL *)

Lemma find_split c s i :
  find c s = Some i -> s = (take i s ++ c :: drop (S i) s)%list.
Proof.
  revert i. induction s as [|d s IH]; simpl; intros i; [discriminate|].
  destruct (c =? d)%Z eqn:E.
  - intros [= <-]. apply Z.eqb_eq in E as ->. reflexivity.
  - destruct (find c s) as [j|]; [|discriminate]. simpl.
    intros [= <-]. simpl. f_equal. apply IH. reflexivity.
Qed.

Lemma str_eqb_eq a b : str_eqb a b = true -> a = b.
Proof.
  revert b. induction a as [|x a IH]; intros [|y b]; simpl; try discriminate.
  - reflexivity.
  - intros H. apply andb_true_iff in H as [Hx Hab].
    apply Z.eqb_eq in Hx as ->. f_equal. apply IH, Hab.
Qed.

Lemma str_in_PROTOCOL p :
  str_in p PROTOCOL = true -> p = of_string "http" \/ p = of_string "https".
Proof.
  unfold str_in, PROTOCOL. cbn [map existsb]. intros H.
  apply orb_true_iff in H as [H|H]; [left; apply str_eqb_eq, H|].
  apply orb_true_iff in H as [H|H]; [right; apply str_eqb_eq, H|discriminate].
Qed.

Lemma fix_single_slash_protocol url :
  has_protocol url -> has_protocol (fix_single_slash url).
Proof.
  intros Hurl. unfold fix_single_slash.
  destruct (starts_with (of_string "https" ++ of_string ":/")%list url);
    [destruct (drop _ url) as [|c rest]|].
  - destruct (starts_with (of_string "http" ++ of_string ":/")%list url);
      [destruct (drop _ url) as [|c' rest']|]; try exact Hurl.
    destruct (c' =? code "/")%Z; [exact Hurl|].
    exists (of_string "http"), (of_string "//" ++ c' :: rest')%list.
    split; [left|]; reflexivity.
  - destruct (c =? code "/")%Z.
    + destruct (starts_with (of_string "http" ++ of_string ":/")%list url);
        [destruct (drop _ url) as [|c' rest']|]; try exact Hurl.
      destruct (c' =? code "/")%Z; [exact Hurl|].
      exists (of_string "http"), (of_string "//" ++ c' :: rest')%list.
      split; [left|]; reflexivity.
    + exists (of_string "https"), (of_string "//" ++ c :: rest)%list.
      split; [right|]; reflexivity.
  - destruct (starts_with (of_string "http" ++ of_string ":/")%list url);
      [destruct (drop _ url) as [|c' rest']|]; try exact Hurl.
    destruct (c' =? code "/")%Z; [exact Hurl|].
    exists (of_string "http"), (of_string "//" ++ c' :: rest')%list.
    split; [left|]; reflexivity.
Qed.

Lemma replace_char_app c new a b :
  replace_char c new (a ++ b)%list = (replace_char c new a ++ replace_char c new b)%list.
Proof. unfold replace_char. rewrite map_app, concat_app. reflexivity. Qed.

Lemma replace_space_protocol url :
  has_protocol url ->
  has_protocol (replace_char (code " ") (of_string "%20") url).
Proof.
  intros (p & tail & Hp & ->).
  exists p, (replace_char (code " ") (of_string "%20") tail). split; [exact Hp|].
  rewrite replace_char_app. destruct Hp as [-> | ->]; reflexivity.
Qed.

(** The text that is parsed starts with http: or https:, unless the
    input is the bare word http or https. *)
Lemma prepare_protocol url :
  url <> of_string "http" -> url <> of_string "https" -> has_protocol (prepare url).
Proof.
  intros H1 H2. unfold prepare. cbv zeta.
  apply replace_space_protocol, fix_single_slash_protocol.
  destruct (str_in _ PROTOCOL) eqn:E.
  - apply str_in_PROTOCOL in E. unfold split_once in E.
    destruct (find (code ":") url) as [i|] eqn:Ef; simpl in E.
    + exists (take i url), (drop (S i) url). split; [exact E|].
      apply find_split, Ef.
    + destruct E; contradiction.
  - exists (of_string "http"), (of_string "//" ++ url)%list.
    split; [left|]; reflexivity.
Qed.

Lemma remove_unsafe_app a b :
  remove_unsafe (a ++ b)%list = (remove_unsafe a ++ remove_unsafe b)%list.
Proof. unfold remove_unsafe. apply List.filter_app. Qed.

Lemma split_scheme_protocol p tail :
  p = of_string "http" \/ p = of_string "https" ->
  split_scheme (remove_unsafe (lstrip_c0 (p ++ code ":" :: tail)%list))
  = (p, remove_unsafe tail).
Proof.
  intros [-> | ->].
  - change (lstrip_c0 (of_string "http" ++ code ":" :: tail)%list)
      with (of_string "http:" ++ tail)%list.
    rewrite remove_unsafe_app. reflexivity.
  - change (lstrip_c0 (of_string "https" ++ code ":" :: tail)%list)
      with (of_string "https:" ++ tail)%list.
    rewrite remove_unsafe_app. reflexivity.
Qed.

Lemma split_components_scheme bracketed_netloc_ok url sp :
  split_components bracketed_netloc_ok url = Ok sp ->
  sp_scheme sp = (split_scheme (remove_unsafe (lstrip_c0 url))).1.
Proof.
  unfold split_components. cbv zeta.
  destruct (split_scheme _) as [sch rest]. simpl.
  destruct (split_netloc bracketed_netloc_ok rest) as [[nl rest']|]; [|discriminate].
  simpl. destruct (split_off (code "#") rest') as [u frag].
  destruct (split_off (code "?") u) as [u' q]. intros [= <-]. reflexivity.
Qed.

Lemma urlparse_scheme nfkc bracketed_netloc_ok url parts :
  urlparse nfkc bracketed_netloc_ok url = Ok parts ->
  scheme parts = (split_scheme (remove_unsafe (lstrip_c0 url))).1.
Proof.
  unfold urlparse, urlsplit.
  destruct (split_components bracketed_netloc_ok url) as [sp|] eqn:E; [|discriminate].
  simpl. destruct (checknetloc nfkc (sp_netloc sp)); [|discriminate]. simpl.
  match goal with |- context [if ?b then _ else _] => destruct b end;
    [destruct (splitparams (sp_path sp)) as [u pa]|];
    intros [= <-]; simpl; apply (split_components_scheme _ _ _ E).
Qed.

Lemma urlunparse_protocol parts :
  scheme parts = of_string "http" \/ scheme parts = of_string "https" ->
  has_protocol (urlunparse parts).
Proof.
  intros Hs. unfold urlunparse, urlunsplit. cbv zeta.
  cbn [sp_scheme sp_netloc sp_path sp_query sp_fragment].
  set (url := if negb (str_eqb (params parts) []) then _ else _).
  set (url1 := if negb (str_eqb (netloc parts) []) || _ then _ else _).
  assert (Hne : negb (str_eqb (scheme parts) []) = true)
    by (destruct Hs as [-> | ->]; reflexivity).
  rewrite Hne.
  assert (H1 : has_protocol (scheme parts ++ of_string ":" ++ url1)%list)
    by (exists (scheme parts), url1; split; [exact Hs|reflexivity]).
  assert (Happ : forall a b, has_protocol a -> has_protocol (a ++ b)%list).
  { intros a b (p & tail & Hp & ->). exists p, (tail ++ b)%list.
    split; [exact Hp|]. rewrite <- app_assoc. reflexivity. }
  destruct (negb (str_eqb (query parts) [])), (negb (str_eqb (fragment parts) []));
    first [exact H1 | apply Happ; first [exact H1 | apply Happ; exact H1]].
Qed.

(** X27: whenever [sanitize_url] returns, its result starts with
    [http:] or [https:], unless the text given is the bare word http or
    https (which [url.split(':', 1)[[0]]] finds in [PROTOCOL] although it
    holds no colon). *)
Theorem sanitize_url_result_has_protocol nfkc bracketed_netloc_ok idna_encode arg url s :
  to_text arg = Ok url ->
  url <> of_string "http" -> url <> of_string "https" ->
  sanitize_url nfkc bracketed_netloc_ok idna_encode arg = Ok s ->
  has_protocol s.
Proof.
  intros Harg H1 H2. unfold sanitize_url. rewrite Harg. simpl.
  destruct (prepare_protocol url H1 H2) as (p & tail & Hp & Hprep).
  destruct (urlparse nfkc bracketed_netloc_ok (prepare url)) as [parts|] eqn:Eparse;
    [|discriminate].
  simpl.
  pose proof (urlparse_scheme _ _ _ _ Eparse) as Hscheme.
  rewrite Hprep, (split_scheme_protocol p tail Hp) in Hscheme. simpl in Hscheme.
  assert (E0 : escape_part idna_encode 0 (scheme parts) = Ok (scheme parts)).
  { rewrite Hscheme. destruct Hp as [-> | ->]; reflexivity. }
  rewrite E0. simpl.
  destruct (escape_part idna_encode 1 (netloc parts)) as [p1|]; [|discriminate].
  destruct (escape_part idna_encode 2 (path parts)) as [p2|]; [|discriminate].
  destruct (escape_part idna_encode 3 (params parts)) as [p3|]; [|discriminate].
  destruct (escape_part idna_encode 4 (query parts)) as [p4|]; [|discriminate].
  destruct (escape_part idna_encode 5 (fragment parts)) as [p5|]; [|discriminate].
  simpl. intros [= <-].
  apply urlunparse_protocol. simpl. rewrite Hscheme. exact Hp.
Qed.

Lemma sanitize_url_result_has_protocol_witness :
  has_protocol (of_string "http://example.com/a%20b").
Proof.
  apply (sanitize_url_result_has_protocol Samples.nfkc_nbsp Samples.brackets_refused
           Samples.idna_nbsp (Str (of_string "example.com/a b"))
           (of_string "example.com/a b")).
  - reflexivity.
  - discriminate.
  - discriminate.
  - vm_compute. reflexivity.
Defined.

(** The bare words are returned as they are, without a colon. *)
Lemma sanitize_url_bare_word nfkc bracketed_netloc_ok idna_encode :
  sanitize_url nfkc bracketed_netloc_ok idna_encode (Str (of_string "http"))
  = Ok (of_string "http")
  /\ sanitize_url nfkc bracketed_netloc_ok idna_encode (Str (of_string "https"))
     = Ok (of_string "https").
Proof. split; reflexivity. Qed.
